(** * TrafficIQ: route comparison and traffic derivation, verified

    A shallow embedding of the route-comparison service, the traffic
    derivation pipeline, the persistence projections and the LLM response
    validator of TrafficIQ, followed by the properties the specification
    states about them.

    Numbers.  A TypeScript [number] is an IEEE-754 double.  It is modelled
    here by [JS.number]: an exact rational, or one of NaN, +Infinity and
    -Infinity.  Arithmetic on finite values is exact (no rounding error) and
    zero carries no sign; everything else -- division by zero, NaN
    propagation, comparisons that are false on NaN, the falsiness of 0 and
    NaN -- follows ECMAScript.  The quantities the verified properties
    compute with are integers (minutes, milliseconds, speeds), on which
    doubles give the same results.  Two parts are modelled otherwise.  The hourly
    forecast multiplies by decimal factors and rounds, and there doubles and
    exact arithmetic part ways (45 * 0.7 is 31.499999999999996 and rounds
    to 31): it is modelled on the binary64 floats of the kernel, [Double].
    The haversine distances, which need sine, cosine and arc tangent, are
    modelled over the real numbers. *)

From Stdlib Require Import Floats.
From Stdlib Require Import Reals Lra.
From Stdlib Require Import ZArith QArith Qround Lia Lqa String Ascii List Bool.
From stdpp Require Import base option list strings pretty.
Import ListNotations.

Local Open Scope Z_scope.
Local Open Scope Q_scope.

(* ================================================================== *)
(** * ECMAScript numbers *)
(* ================================================================== *)

Module JS.

Inductive number : Type :=
  | Fin (q : Q)
  | PInf
  | NInf
  | NaN.

(** The sign of a rational, as a [comparison] with zero. *)
Definition sgn (q : Q) : comparison := q ?= 0.

Definition neg (a : number) : number :=
  match a with
  | Fin q => Fin (- q)
  | PInf => NInf
  | NInf => PInf
  | NaN => NaN
  end.

Definition add (a b : number) : number :=
  match a, b with
  | NaN, _ | _, NaN => NaN
  | Fin x, Fin y => Fin (x + y)
  | PInf, NInf | NInf, PInf => NaN
  | PInf, _ | _, PInf => PInf
  | NInf, _ | _, NInf => NInf
  end.

Definition sub (a b : number) : number := add a (neg b).

(** An infinity scaled by a finite factor. *)
Definition scale_inf (positive : bool) (q : Q) : number :=
  match sgn q with
  | Gt => if positive then PInf else NInf
  | Lt => if positive then NInf else PInf
  | Eq => NaN
  end.

Definition mul (a b : number) : number :=
  match a, b with
  | NaN, _ | _, NaN => NaN
  | Fin x, Fin y => Fin (x * y)
  | Fin x, PInf | PInf, Fin x => scale_inf true x
  | Fin x, NInf | NInf, Fin x => scale_inf false x
  | PInf, PInf | NInf, NInf => PInf
  | PInf, NInf | NInf, PInf => NInf
  end.

Definition div (a b : number) : number :=
  match a, b with
  | NaN, _ | _, NaN => NaN
  | Fin x, Fin y =>
      match sgn y with
      | Eq => scale_inf true x          (* x / 0 *)
      | _ => Fin (x / y)
      end
  | Fin _, (PInf | NInf) => Fin 0
  | PInf, Fin y => match sgn y with Lt => NInf | _ => PInf end
  | NInf, Fin y => match sgn y with Lt => PInf | _ => NInf end
  | (PInf | NInf), (PInf | NInf) => NaN
  end.

(** [a <= b]; false as soon as one side is NaN. *)
Definition leb (a b : number) : bool :=
  match a, b with
  | NaN, _ | _, NaN => false
  | Fin x, Fin y => Qle_bool x y
  | NInf, _ | _, PInf => true
  | PInf, _ | _, NInf => false
  end.

(** [a < b]; false as soon as one side is NaN. *)
Definition ltb (a b : number) : bool :=
  match a, b with
  | NaN, _ | _, NaN => false
  | Fin x, Fin y => negb (Qle_bool y x)
  | PInf, _ | _, NInf => false
  | NInf, _ | _, PInf => true
  end.

Definition geb (a b : number) : bool := leb b a.
Definition gtb (a b : number) : bool := ltb b a.

(** [Math.max] and [Math.min] on two arguments: NaN if either is. *)
Definition max (a b : number) : number :=
  match a, b with
  | NaN, _ | _, NaN => NaN
  | _, _ => if leb a b then b else a
  end.

Definition min (a b : number) : number :=
  match a, b with
  | NaN, _ | _, NaN => NaN
  | _, _ => if leb a b then a else b
  end.

(** [Math.floor], and [Math.round], which rounds halves towards +Infinity. *)
Definition floor (a : number) : number :=
  match a with
  | Fin q => Fin (inject_Z (Qfloor q))
  | _ => a
  end.

Definition round (a : number) : number :=
  match a with
  | Fin q => Fin (inject_Z (Qfloor (q + (1 # 2))))
  | _ => a
  end.

(** ToBoolean on a number: 0 and NaN are falsy. *)
Definition truthy (a : number) : bool :=
  match a with
  | Fin q => negb (Qeq_bool q 0)
  | NaN => false
  | _ => true
  end.

(** An integer as a number. *)
Definition int (z : Z) : number := Fin (inject_Z z).

End JS.

(* ================================================================== *)
(** * Doubles, for the forecast *)
(* ================================================================== *)

Set Warnings "-inexact-float".

Module Double.

(** An integer below 2^53 in magnitude, as the double that holds it. *)
Definition of_Z (n : Z) : float :=
  if (n <? 0)%Z then (- of_uint63 (Uint63.of_Z (- n)))%float
  else of_uint63 (Uint63.of_Z n).

Definition of_nat (n : nat) : float := of_Z (Z.of_nat n).

(** [Math.round]: the nearest integer, halves towards +Infinity.  A double
    with a non-negative exponent is an integer already; otherwise its value
    is [m * 2^e] with [e < 0] and the result is [floor (m * 2^e + 1/2)]. *)
Definition Math_round (x : float) : float :=
  match Prim2SF x with
  | S754_finite negative m e =>
      if (0 <=? e)%Z then x
      else
        let signed := if negative then Z.neg m else Z.pos m in
        of_Z ((signed + 2 ^ (- e - 1)) / 2 ^ (- e))%Z
  | _ => x
  end.

(** [Math.max] and [Math.min] on two arguments: NaN if either is. *)
Definition Math_max (a b : float) : float :=
  if (is_nan a || is_nan b)%bool then nan
  else if (a <? b)%float then b else a.

Definition Math_min (a b : float) : float :=
  if (is_nan a || is_nan b)%bool then nan
  else if (b <? a)%float then b else a.

(** [Math.floor], by the same decoding. *)
Definition Math_floor (x : float) : float :=
  match Prim2SF x with
  | S754_finite negative m e =>
      if (0 <=? e)%Z then x
      else
        let signed := if negative then Z.neg m else Z.pos m in
        of_Z (signed / 2 ^ (- e))%Z
  | _ => x
  end.

(** ToBoolean: 0 and NaN are falsy. *)
Definition truthy (a : float) : bool :=
  negb ((a =? 0)%float || is_nan a).

(** The severity bands of [calculateTrafficLevel] and
    [calculateSeverityFromDelay], on doubles, to compare with the bands on
    exact numbers. *)
Definition severityBand (delay baseDuration : float) : nat :=
  let delayPercentage := (delay / baseDuration * 100)%float in
  if (50 <=? delayPercentage)%float then 3
  else if (25 <=? delayPercentage)%float then 2
  else if (10 <=? delayPercentage)%float then 1
  else 0.

End Double.

Declare Scope js_scope.
Delimit Scope js_scope with js.
Bind Scope js_scope with JS.number.
Infix "+" := JS.add : js_scope.
Infix "-" := JS.sub : js_scope.
Infix "*" := JS.mul : js_scope.
Infix "/" := JS.div : js_scope.
Infix "<?" := JS.ltb : js_scope.
Infix "<=?" := JS.leb : js_scope.
Infix ">?" := JS.gtb : js_scope.
Infix ">=?" := JS.geb : js_scope.
Abbreviation number := JS.number.
Abbreviation Fin := JS.Fin.
Abbreviation NaN := JS.NaN.

(** ** Exceptions and promises

    A call either returns (a promise resolves) or throws (it rejects).  Only
    two kinds of exception occur in the modelled code: an [Error] built with
    a message, and the [TypeError] of a property read on [undefined] or of
    [reduce] on an empty array, whose message is the engine's. *)

Inductive exn : Type :=
  | Error (message : string)
  | TypeError (message : string).

Definition exn_message (e : exn) : string :=
  match e with
  | Error message | TypeError message => message
  end.

Inductive outcome (A : Type) : Type :=
  | Resolved (a : A)
  | Rejected (e : exn).
Arguments Resolved {A} a.
Arguments Rejected {A} e.

#[export] Instance outcome_ret : MRet outcome := fun A a => Resolved a.
#[export] Instance outcome_bind : MBind outcome := fun A B f m =>
  match m with
  | Resolved a => f a
  | Rejected e => Rejected e
  end.

(** [try { m } catch { handler }] *)
Definition try_catch {A} (m : outcome A) (handler : exn -> A) : A :=
  match m with
  | Resolved a => a
  | Rejected e => handler e
  end.

(** [xs.map((x, index) => f index x)] where the callback may throw. *)
Fixpoint map_from {A B} (f : nat -> A -> outcome B) (i : nat) (xs : list A)
  : outcome (list B) :=
  match xs with
  | [] => Resolved []
  | x :: xs' => y ← f i x; ys ← map_from f (S i) xs'; Resolved (y :: ys)
  end.

(** [xs.filter((x, index) => p index x)] *)
Fixpoint filter_from {A} (p : nat -> A -> bool) (i : nat) (xs : list A) : list A :=
  match xs with
  | [] => []
  | x :: xs' =>
      if p i x then x :: filter_from p (S i) xs' else filter_from p (S i) xs'
  end.

(** [xs.reduce(f)] without an initial value: a TypeError on the empty array,
    otherwise a left fold seeded with the first element. *)
Definition reduce {A} (f : A -> A -> A) (xs : list A) : outcome A :=
  match xs with
  | [] => Rejected (TypeError "Reduce of empty array with no initial value")
  | x :: xs' => Resolved (fold_left f xs' x)
  end.

(** [s.split(sep)] for a non-empty separator: [skip] counts the characters
    of a separator just matched that are still to be dropped, [cur] is the
    piece being read. *)
Fixpoint split_go (sep : string) (skip : nat) (cur : string) (s : string)
  : list string :=
  match s with
  | EmptyString => [cur]
  | String c s' =>
      match skip with
      | S k => split_go sep k cur s'
      | O =>
          if String.prefix sep s
          then cur :: split_go sep (String.length sep - 1) EmptyString s'
          else split_go sep O (cur +:+ String c EmptyString) s'
      end
  end.

Definition split (sep : string) (s : string) : list string :=
  split_go sep O EmptyString s.

(** The double-quote character, as a string. *)
Definition dquote : string := String (ascii_of_nat 34) EmptyString.

(** A [Date]: its epoch milliseconds, or the invalid date. *)
Definition Date : Type := option Z.

(** [date.getTime()], NaN for the invalid date. *)
Definition getTime (d : Date) : number :=
  match d with
  | Some ms => JS.int ms
  | None => NaN
  end.

(** [Math.atan2(y, x)] over the reals: the angle of the point [(x, y)]. *)
Definition Math_atan2 (y x : R) : R :=
  if Rlt_dec 0 x then atan (y / x)
  else if Rlt_dec x 0 then
    if Rle_dec 0 y then atan (y / x) + PI else atan (y / x) - PI
  else if Rlt_dec 0 y then PI / 2
  else if Rlt_dec y 0 then - (PI / 2)
  else 0.

(** The four traffic levels, ['low' | 'moderate' | 'high' | 'severe']. *)
Inductive Severity : Type := low | moderate | high | severe.

#[export] Instance Severity_eq_dec : EqDecision Severity.
Proof. solve_decision. Defined.

Definition severity_name (s : Severity) : string :=
  match s with
  | low => "low"
  | moderate => "moderate"
  | high => "high"
  | severe => "severe"
  end.

(* ================================================================== *)
(** * Texts and patterns *)
(* ================================================================== *)

(** A text is held as the bytes of its UTF-8 encoding. *)
Module JSString.

Definition byte (c : ascii) : nat := nat_of_ascii c.

(** [s.length] counts UTF-16 code units: one for a character of up to three
    bytes, two for a character of four, none for a continuation byte. *)
Fixpoint length (s : string) : nat :=
  match s with
  | EmptyString => 0%nat
  | String c s' =>
      let n := byte c in
      ((if (128 <=? n) && (n <? 192) then 0 else if 240 <=? n then 2 else 1)
       + length s')%nat
  end.

Definition asciiSpace (c : ascii) : bool :=
  let n := byte c in
  ((9 <=? n) && (n <=? 13) || (n =? 32))%nat.

(** The three-byte white space and line terminators: U+1680, U+2000 to
    U+200A, U+2028, U+2029, U+202F, U+205F, U+3000 and U+FEFF. *)
Definition whiteSpace3 (a b c : nat) : bool :=
  ((a =? 225) && (b =? 154) && (c =? 128)
   || (a =? 226) && (b =? 128)
      && ((128 <=? c) && (c <=? 138) || (c =? 168) || (c =? 169) || (c =? 175))
   || (a =? 226) && (b =? 129) && (c =? 159)
   || (a =? 227) && (b =? 128) && (c =? 128)
   || (a =? 239) && (b =? 187) && (c =? 191))%nat.

(** What follows one white-space character at the head of [s], if there is
    one there; U+00A0 is the only one of two bytes. *)
Definition afterWhiteSpace (s : string) : option string :=
  match s with
  | String c1 r1 =>
      if asciiSpace c1 then Some r1
      else
        match r1 with
        | String c2 r2 =>
            if ((byte c1 =? 194) && (byte c2 =? 160))%nat then Some r2
            else
              match r2 with
              | String c3 r3 =>
                  if whiteSpace3 (byte c1) (byte c2) (byte c3) then Some r3 else None
              | EmptyString => None
              end
        | EmptyString => None
        end
  | EmptyString => None
  end.

Fixpoint trimStart_from (fuel : nat) (s : string) : string :=
  match fuel with
  | O => s
  | S fuel' =>
      match afterWhiteSpace s with
      | Some r => trimStart_from fuel' r
      | None => s
      end
  end.

Definition trimStart (s : string) : string := trimStart_from (String.length s) s.

(** Nothing but white space. *)
Definition blank (s : string) : bool :=
  match trimStart s with
  | EmptyString => true
  | String _ _ => false
  end.

Fixpoint trimEnd (s : string) : string :=
  match s with
  | EmptyString => EmptyString
  | String c s' => if blank s then EmptyString else String c (trimEnd s')
  end.

(** [s.trim()] *)
Definition trim (s : string) : string := trimEnd (trimStart s).

Definition upper (c : ascii) : ascii :=
  let n := byte c in
  if ((97 <=? n) && (n <=? 122))%nat then ascii_of_nat (n - 32) else c.

Definition lower (c : ascii) : ascii :=
  let n := byte c in
  if ((65 <=? n) && (n <=? 90))%nat then ascii_of_nat (n + 32) else c.

(** [s.toLowerCase()] on the letters A to Z.  The modelled code only
    searches the lowered text for words in ASCII letters, and no other
    character lowers to one of the letters that end or follow in them. *)
Fixpoint toLowerCase (s : string) : string :=
  match s with
  | EmptyString => EmptyString
  | String c s' => String (lower c) (toLowerCase s')
  end.

(** [s.includes(word)] *)
Fixpoint includes (word : string) (s : string) : bool :=
  match s with
  | EmptyString => String.prefix word s
  | String _ s' => String.prefix word s || includes word s'
  end.

(** A text that is not empty is truthy. *)
Definition truthy (s : string) : bool :=
  match s with
  | EmptyString => false
  | String _ _ => true
  end.

End JSString.

(** Patterns anchored at the start of the text: a sequence of literal
    characters and of bounded greedy repetitions of a character class,
    anchored at the end of the text too when [toEnd] is set. *)
Module RegExp.

Inductive item : Type :=
  | Repeat (class : ascii -> bool) (atLeast atMost : nat)
  | Literal (c : ascii).

(** [class{atLeast,atMost}] followed by [next]: one more character of the
    class is tried first, and the repetition stops where it stands when that
    fails and enough characters have been taken. *)
Fixpoint repeat_then (class : ascii -> bool) (next : string -> bool)
    (atLeast atMost : nat) (s : string) : bool :=
  match atMost with
  | O => Nat.eqb atLeast 0 && next s
  | S atMost' =>
      match s with
      | String a s' => class a && repeat_then class next (pred atLeast) atMost' s'
      | EmptyString => false
      end
      || Nat.eqb atLeast 0 && next s
  end.

Fixpoint matchItems (items : list item) (toEnd : bool) (s : string) : bool :=
  match items with
  | [] => if toEnd then negb (JSString.truthy s) else true
  | Literal c :: rest =>
      match s with
      | String a s' => Ascii.eqb a c && matchItems rest toEnd s'
      | EmptyString => false
      end
  | Repeat class atLeast atMost :: rest =>
      repeat_then class (matchItems rest toEnd) atLeast atMost s
  end.

Record pattern : Type := {
  items : list item;
  toEnd : bool;
}.

(** [pattern.test(s)] *)
Definition test (p : pattern) (s : string) : bool :=
  matchItems (items p) (toEnd p) s.

End RegExp.

(* ================================================================== *)
(** * Mapping client *)
(* ================================================================== *)

Module GoogleMapsService.

(** [PlaceResult]; the place types are not read by the modelled code. *)
Record PlaceResult : Type := {
  place_id : string;
  formatted_address : string;
  location_lat : number;
  location_lng : number;
  name : string;
}.

(** [RouteLeg], with the [value] of each measure; the turn-by-turn steps
    feed only the [steps] of a route result, which are left out. *)
Record RouteLeg : Type := {
  distance : number;                       (* distance.value, metres *)
  duration : number;                       (* duration.value, seconds *)
  duration_in_traffic : option number;     (* duration_in_traffic?.value *)
}.

Record GoogleRoute : Type := {
  legs : list RouteLeg;
  overview_polyline : string;
  summary : string;
}.

Record DirectionsResult : Type := {
  routes : list GoogleRoute;
  status : string;
}.

(** What the provider hands to the callback of [directionsService.route]:
    a status and, possibly, a result.  [SdkMissing] stands for the two early
    rejections taken when the SDK is not on the page. *)
Inductive directions_reply : Type :=
  | SdkMissing (message : string)
  | Reply (status : string) (result : option (list GoogleRoute)).

(** [calculateDirections]: the promise resolves only on status OK with a
    result, and rejects with an [Error] in every other case. *)
Definition calculateDirections (reply : directions_reply) : outcome DirectionsResult :=
  match reply with
  | SdkMissing message => Rejected (Error message)
  | Reply st result =>
      match result with
      | Some rs =>
          if String.eqb st "OK"
          then Resolved {| routes := rs; status := st |}
          else Rejected (Error ("Directions request failed: " +:+ st))
      | None => Rejected (Error ("Directions request failed: " +:+ st))
      end
  end.

(** ** The request sent to the provider *)

(** [google.maps.TravelMode]; each value is a non-empty text. *)
Inductive TravelMode : Type := DRIVING | WALKING | TRANSIT | BICYCLING.

(** The [options] argument of [calculateDirections]; every field may be
    left out. *)
Record DirectionsOptions : Type := {
  option_travelMode : option TravelMode;
  option_avoidHighways : option bool;
  option_avoidTolls : option bool;
  option_provideRouteAlternatives : option bool;
}.

Record DirectionsRequest : Type := {
  request_origin : number * number;
  request_destination : string;
  request_travelMode : TravelMode;
  request_avoidHighways : bool;
  request_avoidTolls : bool;
  request_provideRouteAlternatives : bool;
}.

(** [flag || fallback] on an optional boolean. *)
Definition flag_or (flag : option bool) (fallback : bool) : bool :=
  match flag with
  | Some true => true
  | _ => fallback
  end.

(** The [google.maps.DirectionsRequest] built by [calculateDirections]. *)
Definition directionsRequest (origin : number * number) (destination : string)
    (options : DirectionsOptions) : DirectionsRequest :=
  {| request_origin := origin;
     request_destination := destination;
     request_travelMode := default DRIVING (option_travelMode options);
     request_avoidHighways := flag_or (option_avoidHighways options) false;
     request_avoidTolls := flag_or (option_avoidTolls options) false;
     request_provideRouteAlternatives :=
       flag_or (option_provideRouteAlternatives options) true |}.

(** ** Plus Codes and readable place names *)

(** The class [[23456789CFGHJMPQRVWX]] under the [i] flag. *)
Definition plusCodeLetter (c : ascii) : bool :=
  existsb (Ascii.eqb (JSString.upper c)) (list_ascii_of_string "23456789CFGHJMPQRVWX").

Definition isPlusCode (text : string) : bool :=
  let plusCodePattern :=
    {| RegExp.items := [RegExp.Repeat plusCodeLetter 2 8; RegExp.Literal "+";
                        RegExp.Repeat plusCodeLetter 2 3];
       RegExp.toEnd := true |} in
  if RegExp.test plusCodePattern (JSString.trim text) then true
  else
    let startsWithPlusCode :=
      {| RegExp.items := [RegExp.Repeat plusCodeLetter 2 8; RegExp.Literal "+";
                          RegExp.Repeat plusCodeLetter 2 3];
         RegExp.toEnd := false |} in
    if RegExp.test startsWithPlusCode (JSString.trim text) then true
    else false.

(** [placeName.toLowerCase().includes(word)] *)
Definition mentions (word : string) (placeName : string) : bool :=
  JSString.includes word (JSString.toLowerCase placeName).

(** [formatLocationForDisplay(address, placeName?)] *)
Definition formatLocationForDisplay (address : string) (placeName : option string)
  : string :=
  if isPlusCode address then
    match placeName with
    | Some name =>
        if JSString.truthy name && negb (isPlusCode name) then name
        else "Unknown Location"
    | None => "Unknown Location"
    end
  else
    match placeName with
    | Some name =>
        if JSString.truthy name && negb (String.eqb name address)
           && negb (isPlusCode name)
        then
          if (50 <? JSString.length address)%nat && (JSString.length name <? 30)%nat
          then name
          else if mentions "mall" name || mentions "center" name
                  || mentions "hospital" name || mentions "school" name
                  || mentions "airport" name
          then name
          else address
        else address
    | None => address
    end.

Record AddressComponent : Type := {
  long_name : string;
  short_name : string;
  component_types : list string;
}.

(** A geocoder result; [address_components] may be missing. *)
Record GeocoderResult : Type := {
  geocoded_address : string;                        (* formatted_address *)
  address_components : option (list AddressComponent);
  result_types : list string;                       (* types *)
}.

(** [types.includes(type)] *)
Definition hasType (type : string) (types : list string) : bool :=
  existsb (String.eqb type) types.

Definition preferredTypes : list string :=
  ["establishment"; "point_of_interest"; "subpremise"; "premise"; "neighborhood";
   "sublocality_level_1"; "sublocality"; "locality";
   "administrative_area_level_3"; "administrative_area_level_2"].

(** [addressComponents.find(comp => comp.types.includes(type))] *)
Definition componentOfType (type : string) (addressComponents : list AddressComponent)
  : option AddressComponent :=
  List.find (fun comp => hasType type (component_types comp)) addressComponents.

(** [name && name !== other]: a text that is there, not empty, and not the
    (possibly missing) other one. *)
Definition presentAndNot (name other : option string) : bool :=
  match name with
  | Some text => JSString.truthy text && negb (bool_decide (name = other))
  | None => false
  end.

(** [name && !this.isPlusCode(name)] *)
Definition readable (name : option string) : bool :=
  match name with
  | Some text => JSString.truthy text && negb (isPlusCode text)
  | None => false
  end.

(** [for (const preferredType of preferredTypes) { ... }]: the name built
    from the first component found, if one is. *)
Fixpoint fromPreferredTypes (types : list string)
    (addressComponents : list AddressComponent) : option string :=
  match types with
  | [] => None
  | preferredType :: rest =>
      match List.find (fun comp =>
               hasType preferredType (component_types comp)
               && negb (isPlusCode (long_name comp))
               && (1 <? JSString.length (long_name comp))%nat)
             addressComponents with
      | Some component =>
          let locality :=
            long_name <$> componentOfType "locality" addressComponents in
          let adminArea :=
            short_name <$> componentOfType "administrative_area_level_1"
                                           addressComponents in
          let readableName := long_name component in
          let readableName :=
            if presentAndNot locality (Some (long_name component))
            then readableName +:+ ", " +:+ default EmptyString locality
            else readableName in
          let readableName :=
            if presentAndNot adminArea locality
            then readableName +:+ ", " +:+ default EmptyString adminArea
            else readableName in
          Some readableName
      | None => fromPreferredTypes rest addressComponents
      end
  end.

Definition getReadableLocationName (result : GeocoderResult) : string :=
  if isPlusCode (geocoded_address result) then
    let addressComponents := default [] (address_components result) in
    match fromPreferredTypes preferredTypes addressComponents with
    | Some readableName => readableName
    | None =>
        let locality :=
          long_name <$> componentOfType "locality" addressComponents in
        let adminArea :=
          long_name <$> componentOfType "administrative_area_level_1"
                                        addressComponents in
        let country :=
          long_name <$> componentOfType "country" addressComponents in
        if readable locality then
          let name := default EmptyString locality in
          if presentAndNot adminArea locality && negb (isPlusCode (default EmptyString adminArea))
          then name +:+ ", " +:+ default EmptyString adminArea
          else if presentAndNot country locality
                  && negb (isPlusCode (default EmptyString country))
          then name +:+ ", " +:+ default EmptyString country
          else name
        else if readable adminArea then
          if readable country
          then default EmptyString adminArea +:+ ", " +:+ default EmptyString country
          else default EmptyString adminArea
        else if readable country then default EmptyString country
        else "Unknown Location"
    end
  else geocoded_address result.

(** What the geocoder hands to the callback of [geocoder.geocode];
    [GeocoderMissing] stands for the rejections taken when the SDK does not
    load or is not on the page. *)
Inductive geocode_reply : Type :=
  | GeocoderMissing (message : string)
  | Geocoded (status : string) (results : option (list GeocoderResult)).

(** [for (const result of results) { ... break; }]: the first name that is
    not empty and not the placeholder. *)
Fixpoint firstReadableName (results : list GeocoderResult) : option string :=
  match results with
  | [] => None
  | result :: rest =>
      let readableName := getReadableLocationName result in
      if JSString.truthy readableName
         && negb (String.eqb readableName "Unknown Location")
      then Some readableName
      else firstReadableName rest
  end.

Definition reverseGeocode (reply : geocode_reply) : outcome (option string) :=
  match reply with
  | GeocoderMissing message => Rejected (Error message)
  | Geocoded st results =>
      match results with
      | Some (first :: others) =>
          if String.eqb st "OK" then
            let preferredResults :=
              List.filter (fun result =>
                  (hasType "street_address" (result_types result)
                   || hasType "premise" (result_types result)
                   || hasType "subpremise" (result_types result)
                   || hasType "establishment" (result_types result)
                   || hasType "point_of_interest" (result_types result)
                   || hasType "route" (result_types result))
                  && negb (isPlusCode (geocoded_address result)))
                (first :: others) in
            let bestAddress :=
              match preferredResults with
              | bestResult :: _ => Some (getReadableLocationName bestResult)
              | [] => firstReadableName (first :: others)
              end in
            Resolved
              (match bestAddress with
               | Some (String c a) => Some (String c a)
               | _ => Some (getReadableLocationName first)
               end)
          else Resolved None
      | _ => Resolved None
      end
  end.

End GoogleMapsService.

(* ================================================================== *)
(** * Hand-over to a navigation app *)
(* ================================================================== *)

Module NavigationService.

Record NavigationApp : Type := {
  name : string;
  url : string;
  icon : string;
  condition : option bool;
}.

Record NavigationOptions : Type := {
  origin : number * number;
  destination : string;
  waypoints : option (list string);
}.

Record Platform : Type := {
  isIOS : bool;
  isAndroid : bool;
  isMobile : bool;
}.

(** [detectPlatform], on the user agent of the browser. *)
Definition detectPlatform (userAgent : string) : Platform :=
  {| isIOS := JSString.includes "iPad" userAgent || JSString.includes "iPhone" userAgent
              || JSString.includes "iPod" userAgent;
     isAndroid := JSString.includes "Android" userAgent;
     isMobile := JSString.includes "mobi" (JSString.toLowerCase userAgent)
                 || JSString.includes "android" (JSString.toLowerCase userAgent) |}.

(** The characters [encodeURIComponent] leaves as they are. *)
Definition unreserved (c : ascii) : bool :=
  let n := JSString.byte c in
  ((48 <=? n) && (n <=? 57) || (65 <=? n) && (n <=? 90) || (97 <=? n) && (n <=? 122))%nat
  || existsb (Ascii.eqb c) (list_ascii_of_string "-_.!~*'()").

Definition hexChar (n : nat) : ascii :=
  if (n <? 10)%nat then ascii_of_nat (48 + n) else ascii_of_nat (55 + n).

(** [encodeURIComponent(s)]: every byte of the UTF-8 encoding that is not
    unreserved becomes [%XX]. *)
Fixpoint encodeURIComponent (s : string) : string :=
  match s with
  | EmptyString => EmptyString
  | String c s' =>
      if unreserved c then String c (encodeURIComponent s')
      else
        let n := JSString.byte c in
        String "%" (String (hexChar (n / 16)) (String (hexChar (n mod 16))
                                                       (encodeURIComponent s')))
  end.

(** [xs.join(separator)] *)
Fixpoint join (separator : string) (xs : list string) : string :=
  match xs with
  | [] => EmptyString
  | [x] => x
  | x :: rest => x +:+ separator +:+ join separator rest
  end.

(** [generateNavigationUrls(options)]; [toString] prints a coordinate. *)
Definition generateNavigationUrls (toString : number -> string) (platform : Platform)
    (options : NavigationOptions) : list NavigationApp :=
  let originStr :=
    toString (fst (origin options)) +:+ "," +:+ toString (snd (origin options)) in
  let destStr := encodeURIComponent (destination options) in
  let withWaypoints :=
    match waypoints options with
    | Some (w :: ws) => Some (w :: ws)
    | _ => None
    end in
  let googleMaps :=
    {| name := "Google Maps";
       url :=
         match withWaypoints with
         | Some ws =>
             "https://www.google.com/maps/dir/" +:+ originStr +:+ "/"
             +:+ join "/" (map encodeURIComponent ws) +:+ "/" +:+ destStr
         | None => "https://www.google.com/maps/dir/" +:+ originStr +:+ "/" +:+ destStr
         end;
       icon := "🗺️";
       condition := None |} in
  let waze :=
    {| name := "Waze";
       url := "https://waze.com/ul?ll=" +:+ toString (fst (origin options)) +:+ ","
              +:+ toString (snd (origin options)) +:+ "&navigate=yes&q=" +:+ destStr;
       icon := "🚗";
       condition := None |} in
  if isIOS platform then
    [googleMaps;
     {| name := "Apple Maps";
        url :=
          match withWaypoints with
          | Some _ =>
              "https://maps.apple.com/?saddr=" +:+ originStr +:+ "&daddr=" +:+ destStr
              +:+ "&dirflg=d"
          | None =>
              "https://maps.apple.com/?saddr=" +:+ originStr +:+ "&daddr=" +:+ destStr
          end;
        icon := "🍎";
        condition := Some true |};
     waze]
  else [googleMaps; waze].

(** What [openNavigation] does to the page. *)
#[warnings="-register-all"]
Inductive effect : Type :=
  | AppendHiddenIframe (src : string)
  | Later (milliseconds : Z) (effects : list effect)
  | RemoveIframe
  | WindowOpen (url : string).

Fixpoint dropChars (n : nat) (s : string) : string :=
  match n, s with
  | S n', String _ s' => dropChars n' s'
  | _, _ => s
  end.

(** [s.replace(pattern, replacement)] for a text pattern: the first
    occurrence only. *)
Fixpoint replaceFirst (pattern replacement : string) (s : string) : string :=
  if String.prefix pattern s
  then replacement +:+ dropChars (String.length pattern) s
  else
    match s with
    | EmptyString => EmptyString
    | String c s' => String c (replaceFirst pattern replacement s')
    end.

(** [nativeUrls[app.name]], for the names of the three apps. *)
Definition nativeUrl (app : NavigationApp) : option string :=
  if String.eqb (name app) "Google Maps"
  then Some (replaceFirst "https://www.google.com/maps" "comgooglemaps://" (url app))
  else if String.eqb (name app) "Apple Maps" then Some (url app)
  else if String.eqb (name app) "Waze"
  then Some (replaceFirst "https://waze.com" "waze://" (url app))
  else None.

(** [openNavigation(app)], as long as the page lets it work: the effects on
    the page and the value returned. *)
Definition openNavigation (platform : Platform) (app : NavigationApp)
  : list effect * bool :=
  let web := ([WindowOpen (url app)], true) in
  if isMobile platform then
    match nativeUrl app with
    | Some native =>
        if JSString.truthy native && negb (String.eqb (name app) "Apple Maps")
        then ([AppendHiddenIframe native;
               Later 1000 [RemoveIframe; WindowOpen (url app)]], true)
        else web
    | None => web
    end
  else web.

End NavigationService.

(* ================================================================== *)
(** * Persistence client: records *)
(* ================================================================== *)

Module SupabaseService.

(** [RouteRecord].  [traffic_level] is declared [string]; the values written
    are the four level names, which the table also enforces, so the field is
    typed by [Severity]. *)
Record RouteRecord : Type := {
  id : option string;
  user_id : option string;
  origin_lat : number;
  origin_lng : number;
  destination : string;
  destination_lat : option number;
  destination_lng : option number;
  route_name : string;
  distance : number;
  duration : number;
  duration_with_traffic : number;
  traffic_delay : number;
  traffic_level : Severity;
  description : string;
  is_recommended : bool;
  savings : option number;
  waypoints : option (list string);
  polyline : option string;
  created_at : option string;
  updated_at : option string;
}.

(** [TrafficRecord], as read from the table: the rows carry their key (the
    reader asserts it with [record.id!]), and [timestamp] is given by the
    date [new Date(record.timestamp)] makes of its text. *)
Record TrafficRecord : Type := {
  tr_id : string;
  tr_location_lat : number;
  tr_location_lng : number;
  tr_location_address : string;
  tr_severity : Severity;
  tr_speed : number;
  tr_duration : number;
  tr_confidence : number;
  tr_timestamp : Date;
  tr_predicted_duration : number;
  tr_affected_routes : list string;
  tr_cause : option string;
  tr_description : option string;
}.

(** ** Great-circle distance, over the reals *)

Definition toRadians (degrees : R) : R := (degrees * (PI / 180))%R.

Definition calculateDistance (lat1 lng1 lat2 lng2 : R) : R :=
  (let R := 3959 in
   let dLat := toRadians (lat2 - lat1) in
   let dLng := toRadians (lng2 - lng1) in
   let a :=
     sin (dLat / 2) * sin (dLat / 2) +
     cos (toRadians lat1) * cos (toRadians lat2) *
     sin (dLng / 2) * sin (dLng / 2) in
   let c := 2 * Math_atan2 (sqrt a) (sqrt (1 - a)) in
   R * c)%R.

(** The distance test of [getTrafficConditions] on one stored row, given
    by its coordinates. *)
Definition withinRadius (location : R * R) (radius : R) (row : R * R) : bool :=
  if Rle_dec (calculateDistance (fst location) (snd location) (fst row) (snd row)) radius
  then true else false.

(** The rows [getTrafficConditions] keeps. *)
Definition filterByDistance (location : R * R) (radius : R) (rows : list (R * R))
  : list (R * R) :=
  List.filter (withinRadius location radius) rows.

End SupabaseService.

(* ================================================================== *)
(** * Route comparison service *)
(* ================================================================== *)

Module RouteService.

Import GoogleMapsService.

Record RouteRequest : Type := {
  origin : number * number;
  destination : string;
  travelMode : option string;
  avoidTolls : option bool;
  avoidHighways : option bool;
  userId : option string;
}.

(** [RouteResult], without the display-only [steps]. *)
Record RouteResult : Type := {
  id : string;
  name : string;
  distance : number;
  duration : number;
  durationWithTraffic : number;
  trafficDelay : number;
  trafficLevel : Severity;
  description : string;
  isRecommended : bool;
  savings : option number;
  waypoints : option (list string);
  polyline : option string;
}.

Inductive response_status : Type := success | error.

Record RouteResponse : Type := {
  routes : list RouteResult;
  status : response_status;
  message : option string;
}.

Definition failure (text : string) : RouteResponse :=
  {| routes := []; status := error; message := Some text |}.

Definition getDirectionsErrorMessage (status : string) : string :=
  if String.eqb status "NOT_FOUND" then
    "One or more locations could not be found. Please check your destination and try again."
  else if String.eqb status "ZERO_RESULTS" then
    "No route could be found between these locations. Try a different destination or travel mode."
  else if String.eqb status "MAX_WAYPOINTS_EXCEEDED" then
    "Too many waypoints in the request. Please simplify your route."
  else if String.eqb status "INVALID_REQUEST" then
    "Invalid route request. Please check your input and try again."
  else if String.eqb status "OVER_QUERY_LIMIT" then
    "Service temporarily unavailable due to high demand. Please try again in a moment."
  else if String.eqb status "REQUEST_DENIED" then
    "Route service access denied. Please contact support."
  else if String.eqb status "UNKNOWN_ERROR" then
    "An unknown error occurred. Please try again."
  else
    "Unable to calculate routes. Please try again.".

Definition calculateTrafficLevel (trafficDelay baseDuration : number) : Severity :=
  let delayPercentage := ((trafficDelay / baseDuration) * Fin 100)%js in
  if (delayPercentage >=? Fin 50)%js then severe
  else if (delayPercentage >=? Fin 25)%js then high
  else if (delayPercentage >=? Fin 10)%js then moderate
  else low.

Definition trafficDescriptions (level : Severity) : string :=
  match level with
  | severe => "Heavy congestion expected"
  | high => "Moderate to heavy traffic"
  | moderate => "Some traffic delays"
  | low => "Light traffic conditions"
  end.

(** [a || b] on strings: the empty string is falsy. *)
Definition or_else (a b : string) : string :=
  match a with
  | EmptyString => b
  | _ => a
  end.

Definition generateRouteDescription (route : GoogleRoute) (level : Severity) : string :=
  or_else (summary route) "Standard route" +:+ " - " +:+ trafficDescriptions level.

Definition nonempty (w : string) : bool := negb (Nat.eqb (String.length w) 0).

Definition extractWaypoints (route : GoogleRoute) : list string :=
  take 3 (List.filter nonempty (split " and " (or_else (summary route) ""))).

(** [calculateSavings]: the gap between the fastest of the other routes and
    the current one, when positive. *)
Definition calculateSavings (routes : list RouteResult) (currentIndex : nat)
  : outcome (option number) :=
  if (length routes <=? 1)%nat then Resolved None
  else
    currentRoute ← (match routes !! currentIndex with
                    | Some r => Resolved r
                    | None => Rejected (TypeError "Cannot read properties of undefined")
                    end);
    let otherRoutes :=
      filter_from (fun index _ => negb (Nat.eqb index currentIndex)) 0 routes in
    fastestOther ← reduce (fun fastest route =>
        if (durationWithTraffic route <? durationWithTraffic fastest)%js
        then route else fastest) otherRoutes;
    let savings := (durationWithTraffic fastestOther - durationWithTraffic currentRoute)%js in
    Resolved (if (savings >? Fin 0)%js then Some (JS.round savings) else None).

(** The callback of [directionsResult.routes.map]; a route without a leg
    makes the reads on [leg] throw. *)
Definition convertRoute (index : nat) (route : GoogleRoute) : outcome RouteResult :=
  match legs route with
  | [] => Rejected (TypeError "Cannot read properties of undefined")
  | leg :: _ =>
      let distance := (GoogleMapsService.distance leg / Fin 1609.34)%js in
      let duration := JS.round (GoogleMapsService.duration leg / Fin 60)%js in
      let durationWithTraffic :=
        match duration_in_traffic leg with
        | Some v => JS.round (v / Fin 60)%js
        | None => duration
        end in
      let trafficDelay := JS.max (Fin 0) (durationWithTraffic - duration)%js in
      let trafficLevel := calculateTrafficLevel trafficDelay duration in
      let isRecommended :=
        Nat.eqb index 0 && negb (bool_decide (trafficLevel = severe)) in
      Resolved {|
        id := "route-" +:+ pretty index;
        name := or_else (summary route) ("Route " +:+ pretty (index + 1)%nat);
        distance := distance;
        duration := duration;
        durationWithTraffic := durationWithTraffic;
        trafficDelay := trafficDelay;
        trafficLevel := trafficLevel;
        description := generateRouteDescription route trafficLevel;
        isRecommended := isRecommended;
        savings := None;
        waypoints := Some (extractWaypoints route);
        polyline := Some (overview_polyline route);
      |}
  end.

Definition with_savings (route : RouteResult) (s : option number) : RouteResult :=
  {| id := id route; name := name route; distance := distance route;
     duration := duration route; durationWithTraffic := durationWithTraffic route;
     trafficDelay := trafficDelay route; trafficLevel := trafficLevel route;
     description := description route; isRecommended := isRecommended route;
     savings := s; waypoints := waypoints route; polyline := polyline route |}.

(** One turn of [routes.forEach]: the callback writes [savings] into the
    element at [index] of the array it is iterating, and [calculateSavings]
    reads that same array. *)
Definition savings_step (routes : list RouteResult) (index : nat)
  : outcome (list RouteResult) :=
  match routes !! index with
  | Some route =>
      if isRecommended route
      then s ← calculateSavings routes index;
           Resolved (<[index := with_savings route s]> routes)
      else Resolved routes
  | None => Resolved routes
  end.

(** [routes.forEach(...)], from [index] on, for [n] more elements. *)
Fixpoint savings_loop (n : nat) (index : nat) (routes : list RouteResult)
  : outcome (list RouteResult) :=
  match n with
  | O => Resolved routes
  | S n' => routes' ← savings_step routes index; savings_loop n' (S index) routes'
  end.

(** The scoring of a batch: conversion of every alternative, then the
    back-fill of [savings]. *)
Definition scoreRoutes (alternatives : list GoogleRoute) : outcome (list RouteResult) :=
  routes ← map_from convertRoute 0 alternatives;
  savings_loop (length routes) 0 routes.

(** [calculateRoutesWithJSSDK], given what the two provider calls settle
    to.  Saving the batch for a signed-in user swallows its own failures
    and leaves the response as it is. *)
Definition calculateRoutesWithJSSDK (request : RouteRequest)
    (searchPlaces : outcome (list PlaceResult)) (reply : directions_reply)
  : RouteResponse :=
  match searchPlaces with
  | Rejected _ =>
      failure "Unable to search for destination. Please check your internet connection and try again."
  | Resolved [] =>
      failure ("No results found for " +:+ dquote +:+ destination request +:+ dquote
               +:+ ". Please try a more specific location or check the spelling.")
  | Resolved (destinationPlace :: _) =>
      match calculateDirections reply with
      | Rejected _ =>
          failure "Unable to calculate routes. Please try again or check if the destination is reachable by car."
      | Resolved directionsResult =>
          if negb (String.eqb (GoogleMapsService.status directionsResult) "OK")
          then failure (getDirectionsErrorMessage (GoogleMapsService.status directionsResult))
          else
            try_catch
              (routes ← scoreRoutes (GoogleMapsService.routes directionsResult);
               Resolved {| routes := routes; status := success; message := None |})
              (fun _ => failure "An unexpected error occurred while calculating routes. Please try again.")
      end
  end.

(** [calculateRoutes] guards the call once more; the inner function returns
    a response on every path, so this handler has nothing to catch. *)
Definition calculateRoutes (request : RouteRequest)
    (searchPlaces : outcome (list PlaceResult)) (reply : directions_reply)
  : RouteResponse :=
  try_catch (Resolved (calculateRoutesWithJSSDK request searchPlaces reply))
            (fun e => failure (exn_message e)).

(** The record [saveRoutesToDatabase] writes for one route of the batch. *)
Definition toRouteRecord (request : RouteRequest) (formattedDestination : string)
    (destinationPlace : option PlaceResult) (route : RouteResult)
  : SupabaseService.RouteRecord :=
  {| SupabaseService.id := None;
     SupabaseService.user_id := userId request;
     SupabaseService.origin_lat := fst (origin request);
     SupabaseService.origin_lng := snd (origin request);
     SupabaseService.destination := formattedDestination;
     SupabaseService.destination_lat :=
       Some (match destinationPlace with
             | Some p => if JS.truthy (location_lat p) then location_lat p else Fin 0
             | None => Fin 0
             end);
     SupabaseService.destination_lng :=
       Some (match destinationPlace with
             | Some p => if JS.truthy (location_lng p) then location_lng p else Fin 0
             | None => Fin 0
             end);
     SupabaseService.route_name := name route;
     SupabaseService.distance := distance route;
     SupabaseService.duration := duration route;
     SupabaseService.duration_with_traffic := durationWithTraffic route;
     SupabaseService.traffic_delay := trafficDelay route;
     SupabaseService.traffic_level := trafficLevel route;
     SupabaseService.description := description route;
     SupabaseService.is_recommended := isRecommended route;
     SupabaseService.savings := savings route;
     SupabaseService.waypoints := waypoints route;
     SupabaseService.polyline := polyline route;
     SupabaseService.created_at := None;
     SupabaseService.updated_at := None |}.

(** The callback of [savedRoutes.map] in [getSavedRoutes].  [route.id!]
    leaves a missing key as it is; the empty string stands for it here. *)
Definition fromRouteRecord (route : SupabaseService.RouteRecord) : RouteResult :=
  {| id := default EmptyString (SupabaseService.id route);
     name := SupabaseService.route_name route;
     distance := SupabaseService.distance route;
     duration := SupabaseService.duration route;
     durationWithTraffic := SupabaseService.duration_with_traffic route;
     trafficDelay := SupabaseService.traffic_delay route;
     trafficLevel := SupabaseService.traffic_level route;
     description := SupabaseService.description route;
     isRecommended := SupabaseService.is_recommended route;
     savings := SupabaseService.savings route;
     waypoints := SupabaseService.waypoints route;
     polyline := SupabaseService.polyline route |}.

Definition getTravelMode (mode : option string) : TravelMode :=
  match mode with
  | Some text =>
      if String.eqb text "walking" then WALKING
      else if String.eqb text "transit" then TRANSIT
      else if String.eqb text "bicycling" then BICYCLING
      else DRIVING
  | None => DRIVING
  end.

(** The request [calculateRoutesWithJSSDK] has [calculateDirections] send. *)
Definition routesRequest (request : RouteRequest) : DirectionsRequest :=
  directionsRequest (origin request) (destination request)
    {| option_travelMode := Some (getTravelMode (travelMode request));
       option_avoidHighways := avoidHighways request;
       option_avoidTolls := avoidTolls request;
       option_provideRouteAlternatives := Some true |}.

Definition extractWaypointsFromSummary (summary : string) : list string :=
  if negb (JSString.truthy summary) then []
  else take 3 (List.filter nonempty (split " and " summary)).

(** [saveRoutesToDatabase]: the records handed to [SupabaseService.saveRoute],
    one for each route, in order; [saveRoute] keeps its failures to itself,
    so the loop always runs to its end. *)
Definition saveRoutesToDatabase (request : RouteRequest) (routes : list RouteResult)
    (destination : string) (destinationPlace : option PlaceResult)
  : list SupabaseService.RouteRecord :=
  map (toRouteRecord request destination destinationPlace) routes.

(** What a call of [calculateRoutesWithJSSDK] hands to the table: the
    scored batch, when the request names a user. *)
Definition savedRoutes (request : RouteRequest)
    (searchPlaces : outcome (list PlaceResult)) (reply : directions_reply)
  : list SupabaseService.RouteRecord :=
  match searchPlaces with
  | Resolved (destinationPlace :: _) =>
      match calculateDirections reply with
      | Resolved directionsResult =>
          if negb (String.eqb (GoogleMapsService.status directionsResult) "OK")
          then []
          else
            match scoreRoutes (GoogleMapsService.routes directionsResult) with
            | Resolved routes =>
                match userId request with
                | Some (String c u) =>
                    let formattedDestination :=
                      formatLocationForDisplay (formatted_address destinationPlace)
                                               (Some (GoogleMapsService.name destinationPlace)) in
                    saveRoutesToDatabase request routes formattedDestination
                                         (Some destinationPlace)
                | _ => []
                end
            | Rejected _ => []
            end
      | Rejected _ => []
      end
  | _ => []
  end.

End RouteService.

(* ================================================================== *)
(** * Better-route panel *)
(* ================================================================== *)

Module AlternativeRoutes.

Import RouteService.

(** [AlternativeRoute]: a route result with two more fields. *)
Record AlternativeRoute : Type := {
  route : RouteResult;
  timeSavings : number;
  distanceDifference : number;
}.

(** The routes of the panel: those after the first that take less time in
    traffic than the main route. *)
Definition alternativeRoutes (providedRoutes : list RouteResult)
    (mainRoute : option RouteResult) : list RouteResult :=
  filter_from (fun index route =>
      match mainRoute with
      | None => false
      | Some main =>
          if Nat.eqb index 0 then false
          else
            let timeSavings := (durationWithTraffic main - durationWithTraffic route)%js in
            (timeSavings >? Fin 0)%js
      end)
    0 providedRoutes.

Definition routesWithSavings (providedRoutes : list RouteResult)
    (mainRoute : option RouteResult) : list AlternativeRoute :=
  map (fun route =>
         {| route := route;
            timeSavings :=
              match mainRoute with
              | Some main => (durationWithTraffic main - durationWithTraffic route)%js
              | None => Fin 0
              end;
            distanceDifference :=
              match mainRoute with
              | Some main => (distance route - distance main)%js
              | None => Fin 0
              end |})
      (alternativeRoutes providedRoutes mainRoute).

(** [getBestAlternative], on the list [routesWithSavings] holds. *)
Definition getBestAlternative (routesWithSavings : list AlternativeRoute)
  : outcome (option AlternativeRoute) :=
  if Nat.eqb (length routesWithSavings) 0 then Resolved None
  else
    best ← reduce (fun best current =>
        if (timeSavings current >? timeSavings best)%js then current else best)
      routesWithSavings;
    Resolved (Some best).

Definition calculateRating (alternative : AlternativeRoute) : number :=
  let rating := Fin 5.0 in
  let rating :=
    match trafficLevel (route alternative) with
    | severe => (rating - Fin 2.5)%js
    | high => (rating - Fin 1.5)%js
    | moderate => (rating - Fin 0.5)%js
    | low => (rating + Fin 0)%js
    end in
  let rating :=
    if isRecommended (route alternative) then (rating + Fin 0.5)%js else rating in
  let rating :=
    if JS.truthy (timeSavings alternative) && (timeSavings alternative >? Fin 0)%js
    then (rating + JS.min (Fin 1.0) (timeSavings alternative / Fin 10))%js
    else rating in
  JS.max (Fin 1.0) (JS.min (Fin 5.0) rating).

End AlternativeRoutes.

(* ================================================================== *)
(** * Traffic derivation pipeline *)
(* ================================================================== *)

Module TrafficService.

Record Location : Type := {
  lat : number;
  lng : number;
  address : string;
}.

Record TrafficCondition : Type := {
  id : string;
  location : Location;
  severity : Severity;
  speed : number;
  duration : number;
  confidence : number;
  timestamp : Date;
  predictedDuration : number;
  affectedRoutes : list string;
  cause : option string;
  description : option string;
}.

Definition calculateSeverityFromDelay (delay normalDuration : number) : Severity :=
  let delayPercentage := ((delay / normalDuration) * Fin 100)%js in
  if (delayPercentage >=? Fin 50)%js then severe
  else if (delayPercentage >=? Fin 25)%js then high
  else if (delayPercentage >=? Fin 10)%js then moderate
  else low.

(** ** Great-circle distance and the radius, over the reals *)

Definition calculateDistance (lat1 lng1 lat2 lng2 : R) : R :=
  (let R := 6371 in
   let dLat := (lat2 - lat1) * PI / 180 in
   let dLng := (lng2 - lng1) * PI / 180 in
   let a :=
     sin (dLat / 2) * sin (dLat / 2) +
     cos (lat1 * PI / 180) * cos (lat2 * PI / 180) *
     sin (dLng / 2) * sin (dLng / 2) in
   let c := 2 * Math_atan2 (sqrt a) (sqrt (1 - a)) in
   R * c)%R.

(** The distance test of [findNearbyPlaces] on one place, given by its
    coordinates. *)
Definition withinRadius (center : R * R) (radius : R) (place : R * R) : bool :=
  if Rle_dec (calculateDistance (fst center) (snd center) (fst place) (snd place)) radius
  then true else false.

(** The places of one search that [findNearbyPlaces] keeps. *)
Definition filterByDistance (center : R * R) (radius : R) (places : list (R * R))
  : list (R * R) :=
  List.filter (withinRadius center radius) places.

(** Where the [radius] of [getCurrentTrafficConditions(location, radius)]
    goes: to [SupabaseService.getTrafficConditions(location, radius)] for
    the cached rows, and through [fetchRealTrafficData(location, radius)]
    to [findNearbyPlaces(center, radius)] for the places of a search. *)
Definition radiusSelections (location : R * R) (radius : R)
    (rows places : list (R * R)) : list (R * R) * list (R * R) :=
  (SupabaseService.filterByDistance location radius rows,
   filterByDistance location radius places).

(** ** Current conditions: cache, live fetch, simulation *)

(** The callback of [supabaseConditions.map]. *)
Definition fromRecord (record : SupabaseService.TrafficRecord) : TrafficCondition :=
  {| id := SupabaseService.tr_id record;
     location := {| lat := SupabaseService.tr_location_lat record;
                    lng := SupabaseService.tr_location_lng record;
                    address := SupabaseService.tr_location_address record |};
     severity := SupabaseService.tr_severity record;
     speed := SupabaseService.tr_speed record;
     duration := SupabaseService.tr_duration record;
     confidence := SupabaseService.tr_confidence record;
     timestamp := SupabaseService.tr_timestamp record;
     predictedDuration := SupabaseService.tr_predicted_duration record;
     affectedRoutes := SupabaseService.tr_affected_routes record;
     cause := SupabaseService.tr_cause record;
     description := SupabaseService.tr_description record |}.

(** The callback of [conditions.filter]; [now] is what [Date.now()] reads
    when the entry is examined. *)
Definition isRecentReal (now : Z) (condition : TrafficCondition) : bool :=
  let isRecent :=
    ((JS.int now - getTime (timestamp condition)) <? (Fin 5 * Fin 60 * Fin 1000))%js in
  let isReal := String.prefix "real-traffic-" (id condition) in
  isRecent && isReal.

(** What the surroundings of one call of [getCurrentTrafficConditions]
    answer: whether the SDK loads and is on the page, the rows the
    persistence client returns for the centre and radius, the clock at each
    entry of the filter, and what the live fetch and the simulation would
    produce. *)
Record World : Type := {
  sdk : outcome bool;
  cached : list SupabaseService.TrafficRecord;
  clock : nat -> Z;
  live : list TrafficCondition;
  simulated : list TrafficCondition;
}.

(** The collaborators a call reaches, in order. *)
Inductive call : Type :=
  | GetTrafficConditions
  | FetchRealTrafficData
  | SaveConditionsToCache (conditions : list TrafficCondition)
  | GenerateLocationAwareSimulation.

Definition getCurrentTrafficConditions (w : World) : list call * list TrafficCondition :=
  match sdk w with
  | Rejected _ => ([], [])
  | Resolved false => ([], [])
  | Resolved true =>
      let conditions := map fromRecord (cached w) in
      let recentRealConditions :=
        if (0 <? length conditions)%nat
        then filter_from (fun index condition => isRecentReal (clock w index) condition)
                         0 conditions
        else [] in
      if (0 <? length recentRealConditions)%nat
      then ([GetTrafficConditions], recentRealConditions)
      else
        let realConditions := live w in
        if (0 <? length realConditions)%nat
        then ([GetTrafficConditions; FetchRealTrafficData;
               SaveConditionsToCache realConditions], realConditions)
        else ([GetTrafficConditions; FetchRealTrafficData;
               GenerateLocationAwareSimulation], simulated w)
  end.

(** ** Hourly forecast, on doubles *)

Record HourPrediction : Type := {
  time : string;
  congestionLevel : float;
  hourConfidence : float;
}.

Record Factors : Type := {
  weather : float;
  events : float;
  historical : float;
  realTime : float;
}.

Record TrafficPrediction : Type := {
  predictionTimestamp : Date;
  predictions : list HourPrediction;
  accuracy : float;
  factors : Factors;
}.

Definition severityValue (s : Severity) : float :=
  match s with
  | low => 25
  | moderate => 50
  | high => 75
  | severe => 90
  end%float.

Definition calculateCurrentCongestionLevel (conditions : list TrafficCondition) : float :=
  if Nat.eqb (length conditions) 0 then 20%float
  else
    let avgSeverity :=
      (fold_left (fun sum condition => sum + severityValue (severity condition))
                 conditions 0
       / Double.of_nat (length conditions))%float in
    Double.Math_round avgSeverity.

Definition trafficPatterns (hour : nat) : option float :=
  match hour with
  | 0 => Some 0.2 | 1 => Some 0.15 | 2 => Some 0.1
  | 3 => Some 0.1 | 4 => Some 0.15 | 5 => Some 0.3
  | 6 => Some 0.6 | 7 => Some 0.9 | 8 => Some 1.2
  | 9 => Some 0.8 | 10 => Some 0.6 | 11 => Some 0.7
  | 12 => Some 0.8 | 13 => Some 0.7 | 14 => Some 0.6
  | 15 => Some 0.7 | 16 => Some 0.9 | 17 => Some 1.3
  | 18 => Some 1.1 | 19 => Some 0.8 | 20 => Some 0.6
  | 21 => Some 0.5 | 22 => Some 0.4 | 23 => Some 0.3
  | _ => None
  end%float%nat.

(** [trafficPatterns[hour] || 0.5] *)
Definition getHourlyTrafficFactor (hour : nat) : float :=
  match trafficPatterns hour with
  | Some factor => if Double.truthy factor then factor else 0.5%float
  | None => 0.5%float
  end.

Definition formatHour (hour : nat) : string :=
  let period := if (12 <=? hour)%nat then "PM" else "AM" in
  let displayHour :=
    if Nat.eqb hour 0 then 12%nat
    else if (12 <? hour)%nat then (hour - 12)%nat else hour in
  pretty displayHour +:+ " " +:+ period.

(** The body of [for (let i = 0; i < 12; i++)], [n] turns from [i] on. *)
Fixpoint predictions_loop (n i : nat) (currentHour : nat)
    (currentConditions : list TrafficCondition) (predictions : list HourPrediction)
  : list HourPrediction :=
  match n with
  | O => predictions
  | S n' =>
      let hour := ((currentHour + i) mod 24)%nat in
      let timeString := formatHour hour in
      let baseCongestion := calculateCurrentCongestionLevel currentConditions in
      let hourlyFactor := getHourlyTrafficFactor hour in
      let level := Double.Math_round (baseCongestion * hourlyFactor)%float in
      predictions_loop n' (S i) currentHour currentConditions
        (predictions ++
         [{| time := timeString;
             congestionLevel := Double.Math_min 100 (Double.Math_max 0 level);
             hourConfidence :=
               Double.Math_max 60 (95 - Double.of_nat i * 3)%float |}])
  end.

(** [generateRealTimePredictions]; [currentHour] is [new Date().getHours()],
    [now] the clock and [random] the draw behind [accuracy]. *)
Definition generateRealTimePredictions (currentHour : nat) (now : Z) (random : float)
    (currentConditions : list TrafficCondition) : TrafficPrediction :=
  {| predictionTimestamp := Some now;
     predictions := predictions_loop 12 0 currentHour currentConditions [];
     accuracy := (85 + random * 10)%float;
     factors := {| weather := 15; events := 10;
                   historical := 25; realTime := 50 |}%float |}.

Definition getEmptyPrediction (now : Z) : TrafficPrediction :=
  {| predictionTimestamp := Some now;
     predictions := [];
     accuracy := 0%float;
     factors := {| weather := 0; events := 0;
                   historical := 0; realTime := 0 |}%float |}.

(** [getTrafficPredictions]: neither callee throws, the handler is kept for
    the shape of the source. *)
Definition getTrafficPredictions (w : World) (currentHour : nat) (now : Z)
    (random : float) : TrafficPrediction :=
  try_catch
    (Resolved (generateRealTimePredictions currentHour now random
                 (snd (getCurrentTrafficConditions w))))
    (fun _ => getEmptyPrediction now).

(** ** Hour-of-day simulation *)

(** What the simulation reads from outside: the successive values of
    [Math.random()], the successive readings of the clock, the address the
    reverse geocoder gives for a point (none on any failure), and the
    number routines that exact rationals cannot compute (cosine, sine, pi,
    and [toFixed(4)]). *)
Record SimWorld : Type := {
  random : nat -> Q;
  now : nat -> Z;
  reverseGeocodedAddress : number -> number -> option string;
  Math_cos : number -> number;
  Math_sin : number -> number;
  Math_PI : number;
  toFixed4 : number -> string;
}.

(** How many draws and clock readings have been consumed. *)
Record SimState : Type := {
  draws : nat;
  ticks : nat;
}.

Definition Sim (A : Type) : Type := SimState -> A * SimState.

#[export] Instance Sim_ret : MRet Sim := fun A a s => (a, s).
#[export] Instance Sim_bind : MBind Sim := fun A B f m s =>
  let (a, s') := m s in f a s'.

Definition Math_random (w : SimWorld) : Sim number :=
  fun s => (Fin (random w (draws s)), {| draws := S (draws s); ticks := ticks s |}).

Definition Date_now (w : SimWorld) : Sim Z :=
  fun s => (now w (ticks s), {| draws := draws s; ticks := S (ticks s) |}).

(** The number of turns of [for (let i = 0; i < n; i++)]. *)
Definition trip_count (n : number) : nat :=
  match n with
  | Fin q => Z.to_nat (Qceiling q)
  | _ => 0
  end.

Definition capitalize (s : string) : string :=
  match s with
  | EmptyString => EmptyString
  | String c s' =>
      let n := nat_of_ascii c in
      String (if (97 <=? n)%nat && (n <=? 122)%nat then ascii_of_nat (n - 32) else c) s'
  end.

(** Severity, speed and cause for the hour of the day. *)
Definition hourProfile (w : SimWorld) (currentHour : nat)
  : Sim (Severity * number * string) :=
  if (7 <=? currentHour)%nat && (currentHour <=? 9)%nat then
    r1 ← Math_random w;
    r2 ← Math_random w;
    mret (if (r1 >? Fin 0.5)%js then high else moderate,
          (JS.floor (r2 * Fin 20) + Fin 15)%js,
          "Morning rush hour traffic")
  else if (17 <=? currentHour)%nat && (currentHour <=? 19)%nat then
    r1 ← Math_random w;
    r2 ← Math_random w;
    mret (if (r1 >? Fin 0.3)%js then high else severe,
          (JS.floor (r2 * Fin 15) + Fin 10)%js,
          "Evening rush hour congestion")
  else if (22 <=? currentHour)%nat || (currentHour <=? 5)%nat then
    r2 ← Math_random w;
    mret (low, (JS.floor (r2 * Fin 20) + Fin 45)%js, "Light traffic")
  else
    r1 ← Math_random w;
    r2 ← Math_random w;
    mret (if (r1 >? Fin 0.7)%js then moderate else low,
          (JS.floor (r2 * Fin 25) + Fin 30)%js,
          "Normal traffic flow").

(** One turn of the generating loop. *)
Definition simulateOne (w : SimWorld) (center : number * number) (cityName : string)
    (currentHour : nat) (numConditions : number) (i : nat) : Sim TrafficCondition :=
  let angle := (JS.int (Z.of_nat i) / numConditions * Fin 2 * Math_PI w)%js in
  r ← Math_random w;
  let distance := (Fin 0.01 * (Fin 0.5 + r * Fin 0.5))%js in
  let conditionLat := (fst center + Math_cos w angle * distance)%js in
  let conditionLng := (snd center + Math_sin w angle * distance)%js in
  let address := reverseGeocodedAddress w conditionLat conditionLng in
  profile ← hourProfile w currentHour;
  let '(level, speed, cause) := profile in
  r ← Math_random w;
  let duration := (JS.floor (r * Fin 20) + Fin 10)%js in
  idClock ← Date_now w;
  stamp ← Date_now w;
  r ← Math_random w;
  mret {| id := "simulation-" +:+ pretty idClock +:+ "-" +:+ pretty i;
          location :=
            {| lat := conditionLat;
               lng := conditionLng;
               address :=
                 match address with
                 | Some (String c a) => String c a
                 | _ => "Near " +:+ cityName +:+ " (" +:+ toFixed4 w conditionLat
                        +:+ ", " +:+ toFixed4 w conditionLng +:+ ")"
                 end |};
          severity := level;
          speed := speed;
          duration := duration;
          confidence := Fin 70;
          timestamp := Some stamp;
          predictedDuration := (duration + JS.floor (r * Fin 5))%js;
          affectedRoutes := ["Routes near " +:+ cityName; "Local roads"];
          cause := Some cause;
          description :=
            Some ("⚠️ Simulated: " +:+ capitalize (severity_name level)
                  +:+ " conditions near " +:+ cityName +:+ " - " +:+ cause) |}.

(** [for (let i = 0; i < numConditions; i++) { ...; conditions.push(...) }] *)
Fixpoint simulate_loop (w : SimWorld) (center : number * number) (cityName : string)
    (currentHour : nat) (numConditions : number) (n i : nat)
    (conditions : list TrafficCondition) : Sim (list TrafficCondition) :=
  match n with
  | O => mret conditions
  | S n' =>
      condition ← simulateOne w center cityName currentHour numConditions i;
      simulate_loop w center cityName currentHour numConditions n' (S i)
                    (conditions ++ [condition])
  end.

Definition generateLocationAwareSimulation (w : SimWorld) (center : number * number)
    (currentHour : nat) : Sim (list TrafficCondition) :=
  let mainLocationName := reverseGeocodedAddress w (fst center) (snd center) in
  let cityName :=
    match mainLocationName with
    | Some (String c a) => default EmptyString (head (split "," (String c a)))
    | _ => "Your Area"
    end in
  r ← Math_random w;
  let numConditions := (JS.floor (r * Fin 3) + Fin 2)%js in
  simulate_loop w center cityName currentHour numConditions
                (trip_count numConditions) 0 [].

(** ** Live fetch *)

(** [getReverseGeocodedAddress]: no address on any failure. *)
Definition getReverseGeocodedAddress (reply : GoogleMapsService.geocode_reply)
  : option string :=
  try_catch (GoogleMapsService.reverseGeocode reply) (fun _ => None).

Definition calculateSpeedFromDurations (distanceMeters durationSeconds : number)
  : number :=
  let distanceMiles := (distanceMeters * Fin 0.000621371)%js in
  let durationHours := (durationSeconds / Fin 3600)%js in
  JS.round (distanceMiles / durationHours)%js.

(** [causes[severity]], [undefined] for any other name. *)
Definition causes (severity : string) : option (list string) :=
  if String.eqb severity "severe"
  then Some ["Major accident"; "Road closure"; "Construction work"]
  else if String.eqb severity "high"
  then Some ["Heavy traffic"; "Event traffic"; "Rush hour congestion"]
  else if String.eqb severity "moderate"
  then Some ["Normal traffic"; "Minor delays"; "School zone"]
  else if String.eqb severity "low"
  then Some ["Light traffic"; "Normal flow"; "Clear roads"]
  else None.

(** [xs[n]]: the element at a whole, non-negative index, else [undefined]. *)
Definition at_index {A} (xs : list A) (n : number) : option A :=
  match n with
  | Fin q =>
      if Qeq_bool q (inject_Z (Qfloor q)) && (0 <=? Qfloor q)%Z
      then xs !! Z.to_nat (Qfloor q)
      else None
  | _ => None
  end.

Definition determineTrfficCause (w : SimWorld) (severity : string) (currentHour : nat)
  : Sim (option string) :=
  let severityCauses :=
    match causes severity with
    | Some names => names
    | None => default [] (causes "low")
    end in
  r ← Math_random w;
  mret (at_index severityCauses
          (JS.floor (r * JS.int (Z.of_nat (length severityCauses)))%js)).

(** The condition pushed for a place whose route has traffic data;
    [getHours] gives the hour of the day of a clock reading. *)
Definition realCondition (w : SimWorld) (getHours : Z -> nat) (i : nat)
    (place : GoogleMapsService.PlaceResult) (route : GoogleMapsService.GoogleRoute)
    (leg : GoogleMapsService.RouteLeg) (inTraffic : number) : Sim TrafficCondition :=
  let normalDuration := (GoogleMapsService.duration leg / Fin 60)%js in
  let trafficDuration := (inTraffic / Fin 60)%js in
  let delay := JS.max (Fin 0) (trafficDuration - normalDuration)%js in
  let level := calculateSeverityFromDelay delay normalDuration in
  let displayLocation :=
    GoogleMapsService.formatLocationForDisplay
      (GoogleMapsService.formatted_address place)
      (Some (GoogleMapsService.name place)) in
  idClock ← Date_now w;
  stamp ← Date_now w;
  hourClock ← Date_now w;
  reason ← determineTrfficCause w (severity_name level) (getHours hourClock);
  mret {| id := "real-traffic-" +:+ pretty idClock +:+ "-" +:+ pretty i;
          location :=
            {| lat := GoogleMapsService.location_lat place;
               lng := GoogleMapsService.location_lng place;
               address := displayLocation |};
          severity := level;
          speed := calculateSpeedFromDurations (GoogleMapsService.distance leg) inTraffic;
          duration := JS.round trafficDuration;
          confidence := Fin 95;
          timestamp := Some stamp;
          predictedDuration := JS.round (trafficDuration + delay * Fin 0.1)%js;
          affectedRoutes := [GoogleMapsService.summary route];
          cause := reason;
          description :=
            Some ("Real traffic to " +:+ displayLocation +:+ ": "
                  +:+ capitalize (severity_name level) +:+ " conditions via "
                  +:+ GoogleMapsService.summary route) |}.

(** One turn of the probing loop after its early-exit test: the route to
    one place.  A rejected request, an answer without a route, a route
    without a leg (the reads on it throw, and the handler moves on) and a
    leg without traffic data all add nothing. *)
Definition probe (w : SimWorld) (getHours : Z -> nat) (i : nat)
    (place : GoogleMapsService.PlaceResult) (reply : GoogleMapsService.directions_reply)
  : Sim (option TrafficCondition) :=
  match GoogleMapsService.calculateDirections reply with
  | Rejected _ => mret None
  | Resolved directionsResult =>
      if String.eqb (GoogleMapsService.status directionsResult) "OK"
         && (0 <? length (GoogleMapsService.routes directionsResult))%nat
      then
        match GoogleMapsService.routes directionsResult with
        | route :: _ =>
            match GoogleMapsService.legs route with
            | leg :: _ =>
                match GoogleMapsService.duration_in_traffic leg with
                | Some inTraffic =>
                    condition ← realCondition w getHours i place route leg inTraffic;
                    mret (Some condition)
                | None => mret None
                end
            | [] => mret None
            end
        | [] => mret None
        end
      else mret None
  end.

(** [for (let i = 0; i < Math.min(nearbyPlaces.length, 5); i++)], [n] turns
    from [i] on; [replies i] is what the provider answers for place [i]. *)
Fixpoint probe_loop (w : SimWorld) (getHours : Z -> nat)
    (nearbyPlaces : list GoogleMapsService.PlaceResult)
    (replies : nat -> GoogleMapsService.directions_reply)
    (n i : nat) (conditions : list TrafficCondition) : Sim (list TrafficCondition) :=
  match n with
  | O => mret conditions
  | S n' =>
      match nearbyPlaces !! i with
      | Some place =>
          if (3 <=? length conditions)%nat then mret conditions
          else
            found ← probe w getHours i place (replies i);
            probe_loop w getHours nearbyPlaces replies n' (S i)
              (match found with
               | Some condition => conditions ++ [condition]
               | None => conditions
               end)
      | None => mret conditions
      end
  end.

(** [fetchRealTrafficData], given whether the SDK loads and is on the page,
    the places [findNearbyPlaces] found, and whether the 30-second timer
    wins the race. *)
Definition fetchRealTrafficData (w : SimWorld) (getHours : Z -> nat)
    (sdk : outcome bool) (nearbyPlaces : list GoogleMapsService.PlaceResult)
    (replies : nat -> GoogleMapsService.directions_reply) (timedOut : bool)
  : Sim (list TrafficCondition) :=
  let fetchPromise : Sim (list TrafficCondition) :=
    match sdk with
    | Rejected _ => mret []
    | Resolved false => mret []
    | Resolved true =>
        if Nat.eqb (length nearbyPlaces) 0 then mret []
        else probe_loop w getHours nearbyPlaces replies
                        (Nat.min (length nearbyPlaces) 5) 0 []
    end in
  conditions ← fetchPromise;
  mret (if timedOut then [] else conditions).

(** The request the probing loop has [calculateDirections] send for a
    place. *)
Definition probeRequest (center : number * number)
    (place : GoogleMapsService.PlaceResult) : GoogleMapsService.DirectionsRequest :=
  GoogleMapsService.directionsRequest center
    (GoogleMapsService.formatted_address place)
    {| GoogleMapsService.option_travelMode := None;
       GoogleMapsService.option_avoidHighways := None;
       GoogleMapsService.option_avoidTolls := None;
       GoogleMapsService.option_provideRouteAlternatives := Some false |}.

(** [getCurrentTrafficConditions] with the live fetch and the simulation
    run on the same surroundings, the simulation after the fetch. *)
Definition currentTrafficConditions (w : SimWorld) (getHours : Z -> nat)
    (sdk : outcome bool) (cached : list SupabaseService.TrafficRecord)
    (clock : nat -> Z) (nearbyPlaces : list GoogleMapsService.PlaceResult)
    (replies : nat -> GoogleMapsService.directions_reply) (timedOut : bool)
    (center : number * number) (currentHour : nat) (s : SimState)
  : list call * list TrafficCondition :=
  let (realConditions, s') :=
    fetchRealTrafficData w getHours sdk nearbyPlaces replies timedOut s in
  getCurrentTrafficConditions
    {| sdk := sdk; cached := cached; clock := clock;
       live := realConditions;
       simulated := fst (generateLocationAwareSimulation w center currentHour s') |}.

(** ** Nearby places *)

(** A point with finite coordinates, over the reals. *)
Definition coordinates (lat lng : number) : option (R * R) :=
  match lat, lng with
  | Fin a, Fin b => Some (Q2R a, Q2R b)
  | _, _ => None
  end.

(** [distance <= radius] for a place; a coordinate that is not finite
    makes the distance NaN and the test false. *)
Definition near (center : number * number) (radius : Q)
    (place : GoogleMapsService.PlaceResult) : bool :=
  match coordinates (fst center) (snd center),
        coordinates (GoogleMapsService.location_lat place)
                    (GoogleMapsService.location_lng place) with
  | Some c, Some p => withinRadius c (Q2R radius) p
  | _, _ => false
  end.

(** The six queries; [toString] prints a coordinate. *)
Definition searchQueries (toString : number -> string) (center : number * number)
  : list string :=
  let point := toString (fst center) +:+ "," +:+ toString (snd center) in
  ["shopping malls near " +:+ point; "hospitals near " +:+ point;
   "schools near " +:+ point; "banks near " +:+ point;
   "restaurants near " +:+ point; "government offices near " +:+ point].

(** [for (const query of searchQueries)]: a failed search is skipped, and
    the loop stops once ten places are held. *)
Fixpoint search_loop (searchPlaces : string -> outcome (list GoogleMapsService.PlaceResult))
    (center : number * number) (radius : Q) (queries : list string)
    (allPlaces : list GoogleMapsService.PlaceResult)
  : list GoogleMapsService.PlaceResult :=
  match queries with
  | [] => allPlaces
  | query :: rest =>
      match searchPlaces query with
      | Resolved places =>
          let nearbyPlaces := List.filter (near center radius) places in
          let allPlaces := allPlaces ++ nearbyPlaces in
          if (10 <=? length allPlaces)%nat then allPlaces
          else search_loop searchPlaces center radius rest allPlaces
      | Rejected _ => search_loop searchPlaces center radius rest allPlaces
      end
  end.

(** [xs.findIndex(p)], nothing standing for -1. *)
Fixpoint findIndex {A} (p : A -> bool) (xs : list A) : option nat :=
  match xs with
  | [] => None
  | x :: xs' => if p x then Some 0%nat else S <$> findIndex p xs'
  end.

Definition findNearbyPlaces (toString : number -> string)
    (searchPlaces : string -> outcome (list GoogleMapsService.PlaceResult))
    (center : number * number) (radius : Q) : list GoogleMapsService.PlaceResult :=
  let allPlaces :=
    search_loop searchPlaces center radius (searchQueries toString center) [] in
  let uniquePlaces :=
    take 8 (filter_from (fun index place =>
                bool_decide
                  (Some index
                   = findIndex (fun p => String.eqb (GoogleMapsService.place_id p)
                                                    (GoogleMapsService.place_id place))
                               allPlaces))
              0 allPlaces) in
  uniquePlaces.

(** ** Writing to the cache *)

(** The row the table holds for a condition [saveConditionsToCache] wrote:
    the record is sent without an identifier and the table gives it one,
    [key]; [toISOString] throws on the invalid date, and that condition is
    skipped. *)
Definition cachedRow (key : string) (condition : TrafficCondition)
  : option SupabaseService.TrafficRecord :=
  match timestamp condition with
  | Some stamp =>
      Some {| SupabaseService.tr_id := key;
              SupabaseService.tr_location_lat := lat (location condition);
              SupabaseService.tr_location_lng := lng (location condition);
              SupabaseService.tr_location_address := address (location condition);
              SupabaseService.tr_severity := severity condition;
              SupabaseService.tr_speed := speed condition;
              SupabaseService.tr_duration := duration condition;
              SupabaseService.tr_confidence := confidence condition;
              SupabaseService.tr_timestamp := Some stamp;
              SupabaseService.tr_predicted_duration := predictedDuration condition;
              SupabaseService.tr_affected_routes := affectedRoutes condition;
              SupabaseService.tr_cause := cause condition;
              SupabaseService.tr_description := description condition |}
  | None => None
  end.

End TrafficService.

(* ================================================================== *)
(** * Traffic data hook *)
(* ================================================================== *)

Module useTrafficData.

(** [TrafficData]: a traffic condition without cause and description. *)
Record TrafficData : Type := {
  id : string;
  location : TrafficService.Location;
  severity : Severity;
  speed : number;
  duration : number;
  confidence : number;
  timestamp : Date;
  predictedDuration : number;
  affectedRoutes : list string;
}.

(** The state the hook keeps. *)
Record HookState : Type := {
  trafficData : list TrafficData;
  lastUpdated : Z;
  isLoading : bool;
  isAutoRefreshing : bool;
  error : option string;
}.

Definition convert (condition : TrafficService.TrafficCondition) : TrafficData :=
  {| id := TrafficService.id condition;
     location := TrafficService.location condition;
     severity := TrafficService.severity condition;
     speed := TrafficService.speed condition;
     duration := TrafficService.duration condition;
     confidence := TrafficService.confidence condition;
     timestamp := TrafficService.timestamp condition;
     predictedDuration := TrafficService.predictedDuration condition;
     affectedRoutes := TrafficService.affectedRoutes condition |}.

(** [fetchTrafficData(isManualRefresh)], from the state it starts in to the
    state it leaves, given whether the user location is known, what
    [getCurrentTrafficConditions] resolves with and the clock. *)
Definition fetchTrafficData (userLocation : bool) (isManualRefresh : bool)
    (conditions : list TrafficService.TrafficCondition) (now : Z)
    (state : HookState) : HookState :=
  if negb userLocation then
    {| trafficData := [];
       lastUpdated := lastUpdated state;
       isLoading := isLoading state;
       isAutoRefreshing := isAutoRefreshing state;
       error := error state |}
  else
    let convertedData := map convert conditions in
    {| trafficData := convertedData;
       lastUpdated := now;
       isLoading := if isManualRefresh then false else isLoading state;
       isAutoRefreshing := if isManualRefresh then isAutoRefreshing state else false;
       error :=
         if Nat.eqb (length convertedData) 0
         then Some "No traffic data available for your area. This could mean light traffic conditions."
         else None |}.

End useTrafficData.

(* ================================================================== *)
(** * LLM insight service: the response validator *)
(* ================================================================== *)

Module TogetherAIService.

(** What [JSON.parse] returns. *)
#[warnings="-register-all"]
Inductive json : Type :=
  | JNull
  | JBool (b : bool)
  | JNumber (n : number)
  | JString (s : string)
  | JArray (items : list json)
  | JObject (members : list (string * json)).

(** ** String to number (ECMAScript StringToNumber)

    Optional white space around a numeric literal: a signed decimal with
    optional fraction and exponent, [Infinity], or an unsigned literal in
    base 16, 8 or 2.  The empty text is 0, anything else is NaN.  Only the
    ASCII white space is recognised. *)

Definition is_space (c : ascii) : bool :=
  let n := nat_of_ascii c in
  (Nat.eqb n 9 || Nat.eqb n 10 || Nat.eqb n 11 || Nat.eqb n 12 || Nat.eqb n 13
   || Nat.eqb n 32)%bool.

Fixpoint trim_start (s : string) : string :=
  match s with
  | String c s' => if is_space c then trim_start s' else s
  | EmptyString => EmptyString
  end.

Definition trim (s : string) : string :=
  String.rev (trim_start (String.rev (trim_start s))).

Definition digit_value (base : N) (c : ascii) : option N :=
  let n := N_of_ascii c in
  let v :=
    if (48 <=? n)%N && (n <=? 57)%N then Some (n - 48)%N
    else if (97 <=? n)%N && (n <=? 102)%N then Some (n - 87)%N
    else if (65 <=? n)%N && (n <=? 70)%N then Some (n - 55)%N
    else None in
  match v with
  | Some d => if (d <? base)%N then Some d else None
  | None => None
  end.

(** The longest run of digits at the head of [s]: its value, its length,
    and what follows. *)
Fixpoint read_digits (base : N) (s : string) (acc : N) (count : nat)
  : N * nat * string :=
  match s with
  | String c s' =>
      match digit_value base c with
      | Some d => read_digits base s' (acc * base + d)%N (S count)
      | None => (acc, count, s)
      end
  | EmptyString => (acc, count, s)
  end.

(** The exponent part, which must end the text: nothing, or [e] and a signed
    run of digits. *)
Definition read_exponent (s : string) : option Z :=
  match s with
  | EmptyString => Some 0%Z
  | String c s' =>
      if Ascii.eqb c "e" || Ascii.eqb c "E" then
        let '(negative, s'') :=
          match s' with
          | String "-" t => (true, t)
          | String "+" t => (false, t)
          | _ => (false, s')
          end in
        match read_digits 10 s'' 0 0 with
        | (v, S _, EmptyString) => Some (if negative then - Z.of_N v else Z.of_N v)%Z
        | _ => None
        end
      else None
  end.

Definition unsigned_decimal (s : string) : option Q :=
  let '(whole, n1, rest) := read_digits 10 s 0 0 in
  let '(fraction, n2, rest') :=
    match rest with
    | String "." t => read_digits 10 t 0 0
    | _ => (0%N, 0%nat, rest)
    end in
  if Nat.eqb (n1 + n2) 0 then None
  else
    match read_exponent rest' with
    | Some e =>
        Some ((inject_Z (Z.of_N whole)
               + inject_Z (Z.of_N fraction) / inject_Z (10 ^ Z.of_nat n2))
              * Qpower 10 e)
    | None => None
    end.

Definition signed_decimal (negative : bool) (s : string) : number :=
  if String.eqb s "Infinity" then (if negative then JS.NInf else JS.PInf)
  else
    match unsigned_decimal s with
    | Some q => Fin (if negative then - q else q)
    | None => NaN
    end.

Definition non_decimal (s : string) : option number :=
  match s with
  | String "0" (String c t) =>
      let base :=
        if Ascii.eqb c "x" || Ascii.eqb c "X" then Some 16%N
        else if Ascii.eqb c "o" || Ascii.eqb c "O" then Some 8%N
        else if Ascii.eqb c "b" || Ascii.eqb c "B" then Some 2%N
        else None in
      match base with
      | Some b =>
          match read_digits b t 0 0 with
          | (v, S _, EmptyString) => Some (JS.int (Z.of_N v))
          | _ => Some NaN
          end
      | None => None
      end
  | _ => None
  end.

Definition StringToNumber (s : string) : number :=
  let t := trim s in
  match t with
  | EmptyString => Fin 0
  | String c u =>
      match non_decimal t with
      | Some n => n
      | None =>
          if Ascii.eqb c "+" then signed_decimal false u
          else if Ascii.eqb c "-" then signed_decimal true u
          else signed_decimal false t
      end
  end.

(** ** Coercions *)

Definition ToBoolean (v : json) : bool :=
  match v with
  | JNull => false
  | JBool b => b
  | JNumber n => JS.truthy n
  | JString s => negb (String.eqb s "")
  | JArray _ | JObject _ => true
  end.

(** The number read back from the text of a value, as needed for an array:
    an array prints its elements separated by commas, [null] as nothing, and
    a plain object as [[object Object]]. *)
Fixpoint textToNumber (v : json) : number :=
  match v with
  | JNull => Fin 0
  | JBool _ => NaN
  | JNumber n => n
  | JString s => StringToNumber s
  | JArray [] => Fin 0
  | JArray [x] => textToNumber x
  | JArray _ => NaN
  | JObject _ => NaN
  end.

Definition ToNumber (v : json) : number :=
  match v with
  | JNull => Fin 0
  | JBool b => if b then Fin 1 else Fin 0
  | JNumber n => n
  | JString s => StringToNumber s
  | JArray _ => textToNumber v
  | JObject _ => NaN
  end.

(** ** The validator *)

(** [object.key]: the last member of that name, [undefined] without one. *)
Fixpoint member (key : string) (members : list (string * json)) : option json :=
  match members with
  | [] => None
  | (k, v) :: rest =>
      match member key rest with
      | Some later => Some later
      | None => if String.eqb k key then Some v else None
      end
  end.

(** [value || fallback] *)
Definition or_default (value : option json) (fallback : json) : json :=
  match value with
  | Some v => if ToBoolean v then v else fallback
  | None => fallback
  end.

(** [AITrafficInsight]; fields passed through unchecked keep whatever [JSON]
    value they had. *)
Record AITrafficInsight : Type := {
  severity : json;
  confidence : number;
  summary : json;
  recommendations : list json;
  predictedCongestion : number;
  bestTimeToTravel : json;
  alternativeRoutesSuggestion : json;
  estimatedDelay : number;
}.

Definition formatObject (analysis : list (string * json)) : AITrafficInsight :=
  {| severity := or_default (member "severity" analysis) (JString "moderate");
     confidence :=
       JS.min (JS.max (ToNumber (or_default (member "confidence" analysis)
                                            (JNumber (Fin 0.7))))
                      (Fin 0))
              (Fin 1);
     summary := or_default (member "summary" analysis)
                           (JString "Traffic analysis completed");
     recommendations :=
       match member "recommendations" analysis with
       | Some (JArray items) => items
       | _ => [JString "Check traffic before traveling"]
       end;
     predictedCongestion :=
       JS.min (JS.max (ToNumber (or_default (member "predictedCongestion" analysis)
                                            (JNumber (Fin 50))))
                      (Fin 0))
              (Fin 100);
     bestTimeToTravel := or_default (member "bestTimeToTravel" analysis) (JString "Now");
     alternativeRoutesSuggestion :=
       or_default (member "alternativeRoutesSuggestion" analysis)
                  (JString "Consider alternative routes");
     estimatedDelay :=
       JS.min (JS.max (ToNumber (or_default (member "estimatedDelay" analysis)
                                            (JNumber (Fin 0))))
                      (Fin 0))
              (Fin 60) |}.

(** [validateAndFormatResponse(analysis)]: reading a property of [null]
    throws; a property of any other value that is not an object is
    [undefined]. *)
Definition validateAndFormatResponse (analysis : json) : outcome AITrafficInsight :=
  match analysis with
  | JNull => Rejected (TypeError "Cannot read properties of null")
  | JObject members => Resolved (formatObject members)
  | _ => Resolved (formatObject [])
  end.

Definition getFallbackAnalysis : AITrafficInsight :=
  {| severity := JString "moderate";
     confidence := Fin 0.6;
     summary := JString "Traffic analysis temporarily unavailable. Using basic traffic data.";
     recommendations := [JString "Check current traffic conditions";
                         JString "Allow extra travel time"];
     predictedCongestion := Fin 45;
     bestTimeToTravel := JString "Now";
     alternativeRoutesSuggestion := JString "Consider checking alternative routes";
     estimatedDelay := Fin 5 |}.

(** The tail of [analyzeTrafficConditions], from the parsed content on. *)
Definition analyzeParsed (analysis : json) : AITrafficInsight :=
  try_catch (validateAndFormatResponse analysis) (fun _ => getFallbackAnalysis).

(** ** The call *)

(** What [fetch] resolves with: the [ok] flag, the status, and what
    [response.json()] settles to. *)
Record HttpResponse : Type := {
  ok : bool;
  httpStatus : Z;
  parsedBody : outcome json;
}.

(** [x?.message?.content] *)
Definition messageContent (x : json) : option json :=
  match x with
  | JObject members =>
      match member "message" members with
      | Some (JObject inner) => member "content" inner
      | _ => None
      end
  | _ => None
  end.

(** [data.choices[0]?.message?.content]: reading [choices] of [null], or
    element 0 of a [choices] that is missing or [null], throws; an element
    that is missing, and one that is not an object, has no content. *)
Definition choiceContent (data : json) : outcome (option json) :=
  match data with
  | JNull => Rejected (TypeError "Cannot read properties of null")
  | JObject members =>
      match member "choices" members with
      | None => Rejected (TypeError "Cannot read properties of undefined")
      | Some JNull => Rejected (TypeError "Cannot read properties of null")
      | Some (JArray (first :: _)) => Resolved (messageContent first)
      | Some (JObject indexed) =>
          Resolved (match member "0" indexed with
                    | Some first => messageContent first
                    | None => None
                    end)
      | Some _ => Resolved None
      end
  | _ => Rejected (TypeError "Cannot read properties of undefined")
  end.

(** [getApiKey]: the key of the environment, which must be there and not
    empty. *)
Definition getApiKey (environment : option string) : outcome string :=
  match environment with
  | Some (String c key) => Resolved (String c key)
  | _ => Rejected (Error "Together AI API key not found. Please add VITE_TOGETHER_API_KEY to your environment variables.")
  end.

(** [analyzeTrafficConditions], given the key of the environment, what
    [fetch] settles to, and what [JSON.parse] makes of the content. *)
Definition analyzeTrafficConditions (environment : option string)
    (fetched : outcome HttpResponse) (JSON_parse : json -> outcome json)
  : AITrafficInsight :=
  try_catch
    (_ ← getApiKey environment;
     response ← fetched;
     if negb (ok response)
     then Rejected (Error ("Together AI API error: " +:+ pretty (httpStatus response)))
     else
       data ← parsedBody response;
       content ← choiceContent data;
       match content with
       | Some text =>
           if ToBoolean text
           then analysis ← JSON_parse text; validateAndFormatResponse analysis
           else Rejected (Error "No response content from Together AI")
       | None => Rejected (Error "No response content from Together AI")
       end)
    (fun _ => getFallbackAnalysis).

End TogetherAIService.

(* ================================================================== *)
(** * The specification's own wording, as definitions *)
(* ================================================================== *)

Module Spec.

(** Severity from the delay as a percentage of the base duration:
    at least 50 is severe, at least 25 high, at least 10 moderate, else low. *)
Definition severity_of_percentage (p : Q) : Severity :=
  if Qle_bool 50 p then severe
  else if Qle_bool 25 p then high
  else if Qle_bool 10 p then moderate
  else low.

(** A provider leg whose durations are ordinary numbers. *)
Definition finite (a : number) : Prop := exists q, a = Fin q.

Definition finite_leg (leg : GoogleMapsService.RouteLeg) : Prop :=
  finite (GoogleMapsService.duration leg) /\
  forall v, GoogleMapsService.duration_in_traffic leg = Some v -> finite v.

Definition finite_reply (reply : GoogleMapsService.directions_reply) : Prop :=
  forall st alternatives route leg,
    reply = GoogleMapsService.Reply st (Some alternatives) ->
    In route alternatives -> In leg (GoogleMapsService.legs route) ->
    finite_leg leg.

(** [m] is the fastest with-traffic duration among the routes other than
    the one at [index]. *)
Definition fastest_other (routes : list RouteService.RouteResult) (index : nat)
    (m : number) : Prop :=
  (exists j r, j <> index /\ routes !! j = Some r
               /\ RouteService.durationWithTraffic r = m) /\
  (forall j r, j <> index -> routes !! j = Some r ->
               (m <=? RouteService.durationWithTraffic r)%js = true).

(** Savings of a route against the fastest other: the gap when positive. *)
Definition savings_against (m current : number) : option number :=
  if (m - current >? Fin 0)%js then Some (m - current)%js else None.

(** A cache entry is usable when it is recent -- less than five minutes
    old at the moment [now] -- and real -- its identifier starts with
    [real-traffic-]. *)
Definition recent (now : Z) (condition : TrafficService.TrafficCondition) : Prop :=
  match TrafficService.timestamp condition with
  | Some stamp => (now - stamp < 5 * 60 * 1000)%Z
  | None => False
  end.

Definition real (condition : TrafficService.TrafficCondition) : Prop :=
  String.prefix "real-traffic-" (TrafficService.id condition) = true.

(** The forecast, on doubles.  The base level is an unweighted average of
    the levels mapped to 25, 50, 75 and 90, or 20 without conditions; each
    hour's congestion is the base times the factor of that hour, rounded
    and clamped to [0, 100]; confidence falls from 95 by 3 a step down to
    60. *)
Definition level_value (s : Severity) : float :=
  match s with
  | low => 25
  | moderate => 50
  | high => 75
  | severe => 90
  end%float.

Definition sum_of (values : list float) : float :=
  fold_left PrimFloat.add values 0%float.

Definition mean_severity (conditions : list TrafficService.TrafficCondition) : float :=
  match conditions with
  | [] => 20%float
  | _ =>
      (sum_of (map (fun c => level_value (TrafficService.severity c)) conditions)
       / Double.of_nat (length conditions))%float
  end.

Definition hour_factor (hour : nat) : float :=
  TrafficService.getHourlyTrafficFactor hour.

Definition forecast_level (base : float) (hour : nat) : float :=
  Double.Math_min 100 (Double.Math_max 0 (Double.Math_round (base * hour_factor hour)%float)).

Definition forecast_confidence (i : nat) : float :=
  Double.Math_max 60 (95 - 3 * Double.of_nat i)%float.

(** What the specification says of one simulated condition, at a given
    hour of the day. *)
Definition well_simulated (currentHour : nat)
    (c : TrafficService.TrafficCondition) : Prop :=
  String.prefix "simulation-" (TrafficService.id c) = true /\
  TrafficService.confidence c = Fin 70 /\
  ((7 <= currentHour <= 9)%nat ->
     (TrafficService.severity c = moderate \/ TrafficService.severity c = high) /\
     exists v : Z, TrafficService.speed c = JS.int v /\ (15 <= v <= 35)%Z) /\
  ((22 <= currentHour \/ currentHour <= 5)%nat ->
     TrafficService.severity c = low /\
     exists v : Z, TrafficService.speed c = JS.int v /\ (45 <= v <= 65)%Z).

(** A field of the parsed analysis that stands for a number: absent,
    [null], a boolean or a number, or any other value whose conversion to a
    number is not NaN (a numeric string, say). *)
Definition numeric_field (v : option TogetherAIService.json) : Prop :=
  match v with
  | None
  | Some TogetherAIService.JNull
  | Some (TogetherAIService.JBool _)
  | Some (TogetherAIService.JNumber _) => True
  | Some other => TogetherAIService.ToNumber other <> NaN
  end.

(** [lo <= n <= hi], false for NaN. *)
Definition within (lo hi : Q) (n : number) : Prop :=
  JS.leb (Fin lo) n = true /\ JS.leb n (Fin hi) = true.

(** The message of the handler around [calculateDirections]. *)
Definition unreachable_by_car : string :=
  "Unable to calculate routes. Please try again or check if the destination is reachable by car.".

(** Notions used by the proofs about batches: a number that is an integer,
    the comparison [calculateSavings] folds with, and a batch in which no
    route after the first is recommended. *)
Definition integral (a : number) : Prop := exists k : Z, a = JS.int k.

Definition faster (fastest route : RouteService.RouteResult)
  : RouteService.RouteResult :=
  if (RouteService.durationWithTraffic route
      <? RouteService.durationWithTraffic fastest)%js
  then route else fastest.

Definition tail_plain (routes : list RouteService.RouteResult) : Prop :=
  forall j r, (1 <= j)%nat -> routes !! j = Some r ->
              RouteService.isRecommended r = false.

End Spec.

(* ================================================================== *)
(** * Sample inputs *)
(* ================================================================== *)

Module Examples.

Import GoogleMapsService.

(** A ten-mile leg of [seconds] without traffic and [inTraffic] with. *)
Definition leg (seconds inTraffic : Z) : RouteLeg :=
  {| distance := Fin 16093.4;
     duration := JS.int seconds;
     duration_in_traffic := Some (JS.int inTraffic) |}.

Definition alternative (name : string) (seconds inTraffic : Z) : GoogleRoute :=
  {| legs := [leg seconds inTraffic];
     overview_polyline := "_p~iF~ps|U_ulLnnqC";
     summary := name |}.

Definition request : RouteService.RouteRequest :=
  {| RouteService.origin := (Fin 6.5244, Fin 3.3792);
     RouteService.destination := "Ikeja City Mall";
     RouteService.travelMode := None;
     RouteService.avoidTolls := None;
     RouteService.avoidHighways := None;
     RouteService.userId := None |}.

Definition places : outcome (list PlaceResult) :=
  Resolved [{| place_id := "ChIJ-ikeja";
               formatted_address := "Obafemi Awolowo Way, Ikeja";
               location_lat := Fin 6.6142;
               location_lng := Fin 3.3581;
               name := "Ikeja City Mall" |}].

(** With-traffic durations of 30, 25 and 40 minutes, none delayed. *)
Definition reply_30_25_40 : directions_reply :=
  Reply "OK" (Some [alternative "Ikorodu Rd" 1800 1800;
                    alternative "Third Mainland Bridge" 1500 1500;
                    alternative "Lagos-Ibadan Expy and Ikorodu Rd" 2400 2400]).

(** With-traffic durations of 25, 30 and 40 minutes, none delayed. *)
Definition reply_25_30_40 : directions_reply :=
  Reply "OK" (Some [alternative "Third Mainland Bridge" 1500 1500;
                    alternative "Ikorodu Rd" 1800 1800;
                    alternative "Lagos-Ibadan Expy and Ikorodu Rd" 2400 2400]).

(** With-traffic durations of 40, 30 and 25 minutes, none delayed. *)
Definition reply_40_30_25 : directions_reply :=
  Reply "OK" (Some [alternative "Lagos-Ibadan Expy and Ikorodu Rd" 2400 2400;
                    alternative "Ikorodu Rd" 1800 1800;
                    alternative "Third Mainland Bridge" 1500 1500]).

(** A first alternative of 20 minutes that traffic stretches to 32. *)
Definition reply_severe_first : directions_reply :=
  Reply "OK" (Some [alternative "Ikorodu Rd" 1200 1920;
                    alternative "Third Mainland Bridge" 1500 1500]).

(** Cached rows: one real and one simulated, both stamped four minutes
    before the clock reading [noon]. *)
Definition noon : Z := 1751198400000.

Definition row (key : string) (stamp : Z) : SupabaseService.TrafficRecord :=
  {| SupabaseService.tr_id := key;
     SupabaseService.tr_location_lat := Fin 6.6018;
     SupabaseService.tr_location_lng := Fin 3.3515;
     SupabaseService.tr_location_address := "Allen Avenue, Ikeja";
     SupabaseService.tr_severity := moderate;
     SupabaseService.tr_speed := Fin 24;
     SupabaseService.tr_duration := Fin 18;
     SupabaseService.tr_confidence := Fin 95;
     SupabaseService.tr_timestamp := Some stamp;
     SupabaseService.tr_predicted_duration := Fin 19;
     SupabaseService.tr_affected_routes := ["Allen Ave"];
     SupabaseService.tr_cause := Some "Normal traffic";
     SupabaseService.tr_description := None |}.

Definition real_row : SupabaseService.TrafficRecord :=
  row "real-traffic-123" (noon - 4 * 60 * 1000).

Definition simulated_row : SupabaseService.TrafficRecord :=
  row "simulation-456" (noon - 4 * 60 * 1000).

(** A condition of a given severity. *)
Definition condition (level : Severity) : TrafficService.TrafficCondition :=
  TrafficService.fromRecord
    {| SupabaseService.tr_id := "real-traffic-1751198400000-0";
       SupabaseService.tr_location_lat := Fin 6.6018;
       SupabaseService.tr_location_lng := Fin 3.3515;
       SupabaseService.tr_location_address := "Allen Avenue, Ikeja";
       SupabaseService.tr_severity := level;
       SupabaseService.tr_speed := Fin 24;
       SupabaseService.tr_duration := Fin 18;
       SupabaseService.tr_confidence := Fin 95;
       SupabaseService.tr_timestamp := Some noon;
       SupabaseService.tr_predicted_duration := Fin 19;
       SupabaseService.tr_affected_routes := ["Allen Ave"];
       SupabaseService.tr_cause := Some "Normal traffic";
       SupabaseService.tr_description := None |}.

Definition world (rows : list SupabaseService.TrafficRecord) : TrafficService.World :=
  {| TrafficService.sdk := Resolved true;
     TrafficService.cached := rows;
     TrafficService.clock := fun _ => noon;
     TrafficService.live := [];
     TrafficService.simulated := [] |}.

(** Surroundings for a simulation: draws 0.41, 0.78, 0.15, 0.52, ... , a
    clock ticking from [noon], a geocoder that knows the centre only, and
    stand-ins for the trigonometry and the coordinate printer. *)
Definition sim_world : TrafficService.SimWorld :=
  {| TrafficService.random := fun n => inject_Z ((Z.of_nat n * 37 + 41) mod 100) / 100;
     TrafficService.now := fun n => (noon + Z.of_nat n)%Z;
     TrafficService.reverseGeocodedAddress :=
       fun lat _ => if Qeq_bool (match lat with Fin q => q | _ => 0 end) 6.6018
                    then Some "Ikeja, Lagos" else None;
     TrafficService.Math_cos := fun _ => Fin 1;
     TrafficService.Math_sin := fun _ => Fin 0;
     TrafficService.Math_PI := Fin 3.141592653589793;
     TrafficService.toFixed4 := fun _ => "6.6118" |}.

Definition sim_start : TrafficService.SimState :=
  {| TrafficService.draws := 0; TrafficService.ticks := 0 |}.

Definition ikeja : number * number := (Fin 6.6018, Fin 3.3515).

(** Parsed model answers: one with its three numbers at zero, one with a
    word where the confidence should be. *)
Definition zeros : list (string * TogetherAIService.json) :=
  [("severity", TogetherAIService.JString "low");
   ("confidence", TogetherAIService.JNumber (Fin 0));
   ("summary", TogetherAIService.JString "Roads are clear");
   ("predictedCongestion", TogetherAIService.JNumber (Fin 0));
   ("estimatedDelay", TogetherAIService.JNumber (Fin 0))].

Definition wordy : list (string * TogetherAIService.json) :=
  [("severity", TogetherAIService.JString "high");
   ("confidence", TogetherAIService.JString "high");
   ("predictedCongestion", TogetherAIService.JString "85");
   ("estimatedDelay", TogetherAIService.JNumber (Fin 75))].

(** What the geocoder may return for a point it only knows by Plus Code. *)
Definition geocoded_plus_code : geocode_reply :=
  Geocoded "OK"
    (Some [{| geocoded_address := "8Q7X+2F Lagos";
              address_components :=
                Some [{| long_name := "8Q7X+2F"; short_name := "8Q7X+2F";
                         component_types := ["plus_code"] |};
                      {| long_name := "Ikeja GRA"; short_name := "Ikeja GRA";
                         component_types := ["neighborhood"; "political"] |};
                      {| long_name := "Ikeja"; short_name := "Ikeja";
                         component_types := ["locality"; "political"] |};
                      {| long_name := "Lagos"; short_name := "LA";
                         component_types := ["administrative_area_level_1"] |}];
              result_types := ["plus_code"] |}]).

(** Places around the centre, and what the provider answers for the route
    to each: ten minutes stretched to fifteen, no route, five minutes
    without delay. *)
Definition nearby : list PlaceResult :=
  [{| place_id := "ChIJ-mall"; formatted_address := "Obafemi Awolowo Way, Ikeja";
      location_lat := Fin 6.6142; location_lng := Fin 3.3581;
      name := "Ikeja City Mall" |};
   {| place_id := "ChIJ-bank"; formatted_address := "Allen Avenue, Ikeja";
      location_lat := Fin 6.6001; location_lng := Fin 3.3520;
      name := "First Bank" |};
   {| place_id := "ChIJ-school"; formatted_address := "8Q7X+2F Lagos";
      location_lat := Fin 6.6050; location_lng := Fin 3.3490;
      name := "Grace Schools" |}].

Definition answers (i : nat) : directions_reply :=
  match i with
  | 0%nat => Reply "OK" (Some [alternative "Obafemi Awolowo Way" 600 900])
  | 1%nat => Reply "ZERO_RESULTS" None
  | _ => Reply "OK" (Some [alternative "Allen Ave" 300 300])
  end.

(** The hour of a clock reading, in universal time. *)
Definition hour_of (ms : Z) : nat := Z.to_nat ((ms / 3600000) mod 24).

(** A row keyed the way the table keys it, stamped a minute before [noon]. *)
Definition keyed_row : SupabaseService.TrafficRecord :=
  row "39a0d227-c4d2-4bfc-9bac-147f2afc879e" (noon - 60 * 1000).

(** The request of a signed-in user. *)
Definition signed_request : RouteService.RouteRequest :=
  {| RouteService.origin := (Fin 6.5244, Fin 3.3792);
     RouteService.destination := "ikeja mall";
     RouteService.travelMode := Some "driving";
     RouteService.avoidTolls := None;
     RouteService.avoidHighways := None;
     RouteService.userId := Some "a3270edb-ac1b-413f-a05c-360fd97446d1" |}.

(** What the model endpoint may resolve with: an answer whose first choice
    carries a content, and an HTTP error. *)
Definition http_answer : TogetherAIService.HttpResponse :=
  {| TogetherAIService.ok := true;
     TogetherAIService.httpStatus := 200;
     TogetherAIService.parsedBody :=
       Resolved (TogetherAIService.JObject
         [("choices",
           TogetherAIService.JArray
             [TogetherAIService.JObject
                [("message",
                  TogetherAIService.JObject
                    [("role", TogetherAIService.JString "assistant");
                     ("content", TogetherAIService.JString "{...}")])]])]) |}.

Definition http_error : TogetherAIService.HttpResponse :=
  {| TogetherAIService.ok := false;
     TogetherAIService.httpStatus := 429;
     TogetherAIService.parsedBody := Resolved TogetherAIService.JNull |}.

(** A printer for the coordinates of the samples. *)
Definition coordinate (n : number) : string :=
  match n with
  | JS.Fin q =>
      if Qeq_bool q 6.5244 then "6.5244"
      else if Qeq_bool q 3.3792 then "3.3792"
      else "0"
  | _ => "NaN"
  end.

(** A route result of 25 minutes at a given traffic level. *)
Definition scored (level : Severity) (recommended : bool) : RouteService.RouteResult :=
  {| RouteService.id := "route-1";
     RouteService.name := "Third Mainland Bridge";
     RouteService.distance := Fin 10;
     RouteService.duration := Fin 25;
     RouteService.durationWithTraffic := Fin 25;
     RouteService.trafficDelay := Fin 0;
     RouteService.trafficLevel := level;
     RouteService.description := "Third Mainland Bridge - Light traffic conditions";
     RouteService.isRecommended := recommended;
     RouteService.savings := None;
     RouteService.waypoints := Some ["Third Mainland Bridge"];
     RouteService.polyline := None |}.

End Examples.

(* ================================================================== *)
(** * Notions the further properties are stated with *)
(* ================================================================== *)

Module Terms.

(** The characters a Plus Code is written with: its letters and the plus. *)
Definition codeChar (c : ascii) : bool :=
  GoogleMapsService.plusCodeLetter c || Ascii.eqb c "+".

Fixpoint takeWhile (p : ascii -> bool) (s : string) : string :=
  match s with
  | EmptyString => EmptyString
  | String c s' => if p c then String c (takeWhile p s') else EmptyString
  end.

Fixpoint every (p : ascii -> bool) (s : string) : bool :=
  match s with
  | EmptyString => true
  | String c s' => p c && every p s'
  end.

(** The run of Plus Code characters a text starts with, after its leading
    white space. *)
Definition codePrefix (text : string) : string :=
  takeWhile codeChar (JSString.trimStart text).

Definition plusCodeItems : list RegExp.item :=
  [RegExp.Repeat GoogleMapsService.plusCodeLetter 2 8; RegExp.Literal "+";
   RegExp.Repeat GoogleMapsService.plusCodeLetter 2 3].

(** An item of a pattern that only matches characters of [p]. *)
Definition item_within (p : ascii -> bool) (i : RegExp.item) : Prop :=
  match i with
  | RegExp.Repeat class _ _ => forall c, class c = true -> p c = true
  | RegExp.Literal c => p c = true
  end.

(** The text the table prints for a [uuid] key: lower-case hexadecimal
    digits in groups of 8, 4, 4, 4 and 12, separated by hyphens. *)
Definition hexDigit (c : ascii) : bool :=
  let n := nat_of_ascii c in
  ((48 <=? n) && (n <=? 57) || (97 <=? n) && (n <=? 102))%nat.

(** What follows [n] hexadecimal digits at the head of [s]. *)
Fixpoint afterHex (n : nat) (s : string) : option string :=
  match n with
  | O => Some s
  | S n' =>
      match s with
      | String c s' => if hexDigit c then afterHex n' s' else None
      | EmptyString => None
      end
  end.

Definition afterHyphen (s : option string) : option string :=
  match s with
  | Some (String "-" s') => Some s'
  | _ => None
  end.

Definition isUuid (s : string) : bool :=
  match afterHyphen (afterHex 8 s) ≫= afterHex 4 with
  | Some s1 =>
      match afterHyphen (Some s1) ≫= afterHex 4 with
      | Some s2 =>
          match afterHyphen (Some s2) ≫= afterHex 4 with
          | Some s3 =>
              match afterHyphen (Some s3) ≫= afterHex 12 with
              | Some EmptyString => true
              | _ => false
              end
          | None => false
          end
      | None => false
      end
  | None => false
  end.

(** A condition made by the live fetch from the route to one of the first
    five places. *)
Definition from_probe (nearbyPlaces : list GoogleMapsService.PlaceResult)
    (replies : nat -> GoogleMapsService.directions_reply)
    (c : TrafficService.TrafficCondition) : Prop :=
  exists i place route others leg legs inTraffic,
    (i < 5)%nat /\ nearbyPlaces !! i = Some place /\
    replies i = GoogleMapsService.Reply "OK" (Some (route :: others)) /\
    GoogleMapsService.legs route = leg :: legs /\
    GoogleMapsService.duration_in_traffic leg = Some inTraffic /\
    let normal := (GoogleMapsService.duration leg / Fin 60)%js in
    let inMinutes := (inTraffic / Fin 60)%js in
    let delay := JS.max (Fin 0) (inMinutes - normal)%js in
    TrafficService.lat (TrafficService.location c)
    = GoogleMapsService.location_lat place /\
    TrafficService.lng (TrafficService.location c)
    = GoogleMapsService.location_lng place /\
    TrafficService.address (TrafficService.location c)
    = GoogleMapsService.formatLocationForDisplay
        (GoogleMapsService.formatted_address place)
        (Some (GoogleMapsService.name place)) /\
    TrafficService.severity c = TrafficService.calculateSeverityFromDelay delay normal /\
    TrafficService.speed c
    = TrafficService.calculateSpeedFromDurations (GoogleMapsService.distance leg)
                                                 inTraffic /\
    TrafficService.duration c = JS.round inMinutes /\
    TrafficService.predictedDuration c = JS.round (inMinutes + delay * Fin 0.1)%js /\
    TrafficService.affectedRoutes c = [GoogleMapsService.summary route].

(** A route result without its identifier. *)
Definition unkeyed (route : RouteService.RouteResult) : RouteService.RouteResult :=
  {| RouteService.id := EmptyString;
     RouteService.name := RouteService.name route;
     RouteService.distance := RouteService.distance route;
     RouteService.duration := RouteService.duration route;
     RouteService.durationWithTraffic := RouteService.durationWithTraffic route;
     RouteService.trafficDelay := RouteService.trafficDelay route;
     RouteService.trafficLevel := RouteService.trafficLevel route;
     RouteService.description := RouteService.description route;
     RouteService.isRecommended := RouteService.isRecommended route;
     RouteService.savings := RouteService.savings route;
     RouteService.waypoints := RouteService.waypoints route;
     RouteService.polyline := RouteService.polyline route |}.

(** What a simulated condition holds at every hour, and in the evening
    rush and the ordinary hours of the day. *)
Definition banded (currentHour : nat) (c : TrafficService.TrafficCondition) : Prop :=
  ((17 <= currentHour <= 19)%nat ->
     (TrafficService.severity c = high \/ TrafficService.severity c = severe) /\
     (exists v : Z, TrafficService.speed c = JS.int v /\ (10 <= v <= 24)%Z) /\
     TrafficService.cause c = Some "Evening rush hour congestion") /\
  ((currentHour = 6 \/ 10 <= currentHour <= 16 \/ 20 <= currentHour <= 21)%nat ->
     (TrafficService.severity c = low \/ TrafficService.severity c = moderate) /\
     (exists v : Z, TrafficService.speed c = JS.int v /\ (30 <= v <= 54)%Z) /\
     TrafficService.cause c = Some "Normal traffic flow") /\
  (exists d p : Z,
     TrafficService.duration c = JS.int d /\ (10 <= d <= 29)%Z /\
     TrafficService.predictedDuration c = JS.int p /\ (d <= p <= d + 4)%Z) /\
  length (TrafficService.affectedRoutes c) = 2%nat /\
  (exists stamp, TrafficService.timestamp c = Some stamp) /\
  JSString.truthy (TrafficService.address (TrafficService.location c)) = true.

(** What every condition of the live fetch carries. *)
Definition marked_real (c : TrafficService.TrafficCondition) : Prop :=
  String.prefix "real-traffic-" (TrafficService.id c) = true /\
  TrafficService.confidence c = Fin 95 /\
  (exists stamp, TrafficService.timestamp c = Some stamp) /\
  GoogleMapsService.isPlusCode (TrafficService.address (TrafficService.location c))
  = false.

(** A character that has no meaning of its own in a URL: unreserved, or
    part of a percent escape. *)
Definition urlSafe (c : ascii) : bool :=
  NavigationService.unreserved c || Ascii.eqb c "%".

(** The web address is opened, at once or later. *)
Fixpoint opens (address : string) (effects : list NavigationService.effect) : Prop :=
  match effects with
  | [] => False
  | NavigationService.WindowOpen u :: rest => u = address \/ opens address rest
  | NavigationService.Later _ [NavigationService.RemoveIframe;
                               NavigationService.WindowOpen u] :: rest =>
      u = address \/ opens address rest
  | _ :: rest => opens address rest
  end.

End Terms.


(* ================================================================== *)
(** * Facts about numbers *)
(* ================================================================== *)

Module JSFacts.

Lemma leb_Fin (x y : Q) : JS.leb (Fin x) (Fin y) = true <-> x <= y.
Proof. apply Qle_bool_iff. Qed.

Lemma leb_Fin_false (x y : Q) : JS.leb (Fin x) (Fin y) = false <-> y < x.
Proof.
  simpl. split; intros H.
  - apply Qnot_le_lt. intros Hle. apply Qle_bool_iff in Hle. congruence.
  - destruct (Qle_bool x y) eqn:E; [|reflexivity].
    apply Qle_bool_iff in E. exfalso. apply (Qlt_not_le _ _ H E).
Qed.

Lemma ltb_Fin (x y : Q) : JS.ltb (Fin x) (Fin y) = true <-> x < y.
Proof.
  simpl. rewrite negb_true_iff. apply (leb_Fin_false y x).
Qed.

Lemma ltb_Fin_false (x y : Q) : JS.ltb (Fin x) (Fin y) = false <-> y <= x.
Proof.
  simpl. rewrite negb_false_iff. apply Qle_bool_iff.
Qed.

Lemma sgn_Eq (q : Q) : JS.sgn q = Eq <-> q == 0.
Proof. unfold JS.sgn. symmetry. apply Qeq_alt. Qed.

Lemma div_Fin (x y : Q) : ~ y == 0 -> JS.div (Fin x) (Fin y) = Fin (x / y).
Proof.
  intros Hy. unfold JS.div.
  destruct (JS.sgn y) eqn:E; try reflexivity.
  apply sgn_Eq in E. contradiction.
Qed.

Lemma Qfloor_half (n : Z) : Qfloor (inject_Z n + (1 # 2)) = n.
Proof.
  unfold Qplus, inject_Z. simpl.
  rewrite Z.mul_1_l. symmetry.
  apply (Z.div_unique_pos (n * 2 + 1) 2 n 1); lia.
Qed.

Lemma int_sub (a b : Z) : (JS.int a - JS.int b)%js = JS.int (a - b).
Proof.
  unfold JS.sub, JS.int, JS.neg, JS.add, Qplus, Qopp, inject_Z. simpl.
  rewrite !Z.mul_1_r. reflexivity.
Qed.

Lemma add_int (a b : Z) : (JS.int a + JS.int b)%js = JS.int (a + b).
Proof.
  unfold JS.add, JS.int, Qplus, inject_Z. simpl. rewrite !Z.mul_1_r. reflexivity.
Qed.

Lemma round_int (a : Z) : JS.round (JS.int a) = JS.int a.
Proof. unfold JS.round, JS.int. rewrite Qfloor_half. reflexivity. Qed.

Lemma round_finite (q : Q) : Spec.integral (JS.round (Fin q)).
Proof. eexists. reflexivity. Qed.

Lemma leb_int (a b : Z) : JS.leb (JS.int a) (JS.int b) = true <-> (a <= b)%Z.
Proof. unfold JS.int. rewrite leb_Fin, <- Zle_Qle. reflexivity. Qed.

Lemma ltb_int (a b : Z) : JS.ltb (JS.int a) (JS.int b) = true <-> (a < b)%Z.
Proof. unfold JS.int. rewrite ltb_Fin, <- Zlt_Qlt. reflexivity. Qed.

Lemma ltb_int_false (a b : Z) : JS.ltb (JS.int a) (JS.int b) = false <-> (b <= a)%Z.
Proof. unfold JS.int. rewrite ltb_Fin_false, <- Zle_Qle. reflexivity. Qed.

End JSFacts.

(* ================================================================== *)
(** * Facts about arrays and strings *)
(* ================================================================== *)

Module ArrayFacts.

Lemma map_from_lookup {A B} (f : nat -> A -> outcome B) :
  forall xs k ys, map_from f k xs = Resolved ys ->
  forall i y, ys !! i = Some y ->
  exists x, xs !! i = Some x /\ f (k + i)%nat x = Resolved y.
Proof.
  induction xs as [|x xs IH]; intros k ys H i y Hy; simpl in H.
  - inversion H; subst. rewrite lookup_nil in Hy. discriminate.
  - destruct (f k x) as [y0|e] eqn:E0; simpl in H; [|discriminate].
    destruct (map_from f (S k) xs) as [ys'|e] eqn:E; simpl in H; [|discriminate].
    inversion H; subst. destruct i as [|i]; simpl in *.
    + inversion Hy; subst. exists x. rewrite Nat.add_0_r. auto.
    + destruct (IH _ _ E _ _ Hy) as (x' & Hx' & Hf).
      exists x'. split; [exact Hx'|].
      replace (k + S i)%nat with (S k + i)%nat by lia. exact Hf.
Qed.

Lemma filter_from_In {A} (p : nat -> A -> bool) (x : A) :
  forall xs k,
    In x (filter_from p k xs) <->
    exists j, xs !! j = Some x /\ p (k + j)%nat x = true.
Proof.
  induction xs as [|y ys IH]; intros k; simpl.
  - split; [tauto|]. intros (j & Hj & _). rewrite lookup_nil in Hj. discriminate.
  - assert (Hshift : In x (filter_from p (S k) ys) <->
                     exists j, (y :: ys) !! S j = Some x /\ p (k + S j)%nat x = true).
    { rewrite IH. split; intros (j & Hj & Hp); exists j; split; auto;
        [replace (k + S j)%nat with (S k + j)%nat by lia
        |replace (S k + j)%nat with (k + S j)%nat by lia]; exact Hp. }
    destruct (p k y) eqn:Epk.
    + simpl. rewrite Hshift. split.
      * intros [-> | (j & Hj)].
        -- exists 0%nat. rewrite Nat.add_0_r. auto.
        -- exists (S j). exact Hj.
      * intros ([|j] & Hj & Hp).
        -- simpl in Hj. inversion Hj. auto.
        -- right. exists j. auto.
    + rewrite Hshift. split.
      * intros (j & Hj). exists (S j). exact Hj.
      * intros ([|j] & Hj & Hp).
        -- simpl in Hj. inversion Hj; subst. rewrite Nat.add_0_r in Hp. congruence.
        -- exists j. auto.
Qed.

Lemma length_pos_In {A} (l : list A) :
  (0 <? length l)%nat = true <-> exists x, In x l.
Proof.
  rewrite Nat.ltb_lt. destruct l as [|x l]; simpl; split.
  - lia.
  - intros [x []].
  - exists x. auto.
  - lia.
Qed.

Lemma prefix_append (a b : string) : String.prefix a (a +:+ b) = true.
Proof.
  induction a as [|c a IH].
  - destruct b; reflexivity.
  - change (String c a +:+ b) with (String c (a +:+ b)).
    change (String.prefix (String c a) (String c (a +:+ b)))
      with (if ascii_dec c c then String.prefix a (a +:+ b) else false).
    destruct (ascii_dec c c) as [_ | Hne]; [exact IH | contradiction].
Qed.

Lemma real_not_simulated (s : string) :
  String.prefix "real-traffic-" s = true -> String.prefix "simulation-" s = false.
Proof.
  destruct s as [|a s]; [discriminate|].
  change (String.prefix "real-traffic-" (String a s))
    with (if ascii_dec "r" a then String.prefix "eal-traffic-" s else false).
  change (String.prefix "simulation-" (String a s))
    with (if ascii_dec "s" a then String.prefix "imulation-" s else false).
  destruct (ascii_dec "r" a) as [<- | _]; [|discriminate].
  intros _. destruct (ascii_dec "s" "r"); [discriminate|reflexivity].
Qed.

End ArrayFacts.

(* ================================================================== *)
(** * Severity bands *)
(* ================================================================== *)

Section SeverityBands.

Import JSFacts.

Lemma severity_of_percentage_bands (p : Q) :
  let level := Spec.severity_of_percentage p in
  (level = severe <-> 50 <= p) /\
  (level = high <-> 25 <= p /\ p < 50) /\
  (level = moderate <-> 10 <= p /\ p < 25) /\
  (level = low <-> p < 10).
Proof.
  unfold Spec.severity_of_percentage.
  change (Qle_bool 50 p) with (JS.leb (Fin 50) (Fin p)).
  change (Qle_bool 25 p) with (JS.leb (Fin 25) (Fin p)).
  change (Qle_bool 10 p) with (JS.leb (Fin 10) (Fin p)).
  cbv zeta.
  destruct (JS.leb (Fin 50) (Fin p)) eqn:E50;
  [apply leb_Fin in E50 | apply leb_Fin_false in E50];
  (destruct (JS.leb (Fin 25) (Fin p)) eqn:E25;
   [apply leb_Fin in E25 | apply leb_Fin_false in E25]);
  (destruct (JS.leb (Fin 10) (Fin p)) eqn:E10;
   [apply leb_Fin in E10 | apply leb_Fin_false in E10]);
  repeat split; intros;
    repeat match goal with H : _ /\ _ |- _ => destruct H end;
    try discriminate; try reflexivity; try lra; exfalso; lra.
Qed.



(** On whole minutes, doubles put a delay in the same band as exact
    arithmetic: checked by evaluation for every delay up to four hours and
    every base duration from one minute to four hours. *)
Lemma bands_on_doubles_agree :
  forallb (fun d =>
    forallb (fun b =>
      Nat.eqb (Double.severityBand (Double.of_nat d) (Double.of_nat b))
              (match RouteService.calculateTrafficLevel
                       (JS.int (Z.of_nat d)) (JS.int (Z.of_nat b)) with
               | low => 0 | moderate => 1 | high => 2 | severe => 3
               end)%nat)
      (seq 1 240))
    (seq 0 241) = true.
Proof. vm_compute. reflexivity. Qed.

End SeverityBands.

(* ================================================================== *)
(** * Route batches *)
(* ================================================================== *)

Section RouteBatches.

Import JSFacts ArrayFacts RouteService Spec.

(** What [convertRoute] puts in the fields the batch rules read. *)
Lemma convertRoute_fields index route r :
  convertRoute index route = Resolved r ->
  savings r = None /\
  trafficLevel r = calculateTrafficLevel (trafficDelay r) (duration r) /\
  isRecommended r = Nat.eqb index 0 && negb (bool_decide (trafficLevel r = severe)).
Proof.
  unfold convertRoute. destruct (GoogleMapsService.legs route) as [|leg ?]; [discriminate|].
  intros H. inversion H; subst; clear H. simpl. auto.
Qed.

Lemma savings_loop_tail routes :
  tail_plain routes ->
  forall n i, (1 <= i)%nat -> savings_loop n i routes = Resolved routes.
Proof.
  intros Htail. induction n as [|n IH]; intros i Hi; simpl; [reflexivity|].
  unfold savings_step.
  destruct (routes !! i) as [r|] eqn:E; simpl.
  - rewrite (Htail i r Hi E). simpl. apply IH. lia.
  - apply IH. lia.
Qed.

Lemma converted_tail_plain alternatives routes :
  map_from convertRoute 0 alternatives = Resolved routes -> tail_plain routes.
Proof.
  intros H j r Hj Hr.
  destruct (map_from_lookup _ _ _ _ H _ _ Hr) as (x & _ & Hx).
  apply convertRoute_fields in Hx. destruct Hx as (_ & _ & Hrec).
  rewrite Hrec. destruct j; [lia|reflexivity].
Qed.

(** The whole back-fill comes down to one write at index 0. *)
Lemma savings_loop_head r0 rest :
  tail_plain (r0 :: rest) ->
  savings_loop (length (r0 :: rest)) 0 (r0 :: rest) =
  if isRecommended r0
  then s ← calculateSavings (r0 :: rest) 0; Resolved (with_savings r0 s :: rest)
  else Resolved (r0 :: rest).
Proof.
  intros Htail. simpl. unfold savings_step. simpl.
  destruct (isRecommended r0) eqn:Erec; simpl.
  - destruct (calculateSavings (r0 :: rest) 0) as [s|e]; simpl; [|reflexivity].
    apply savings_loop_tail; [|lia].
    intros j r Hj Hr. destruct j; [lia|]. simpl in Hr.
    apply (Htail (S j) r); [lia|exact Hr].
  - apply savings_loop_tail; [exact Htail|lia].
Qed.

(** A response with a route in it comes from a provider answer with status
    OK, scored without an exception. *)
Lemma calculateRoutes_routes request places reply i r :
  routes (calculateRoutes request places reply) !! i = Some r ->
  exists st alternatives,
    reply = GoogleMapsService.Reply st (Some alternatives) /\
    scoreRoutes alternatives = Resolved (routes (calculateRoutes request places reply)).
Proof.
  unfold calculateRoutes, calculateRoutesWithJSSDK, try_catch.
  destruct places as [[|place ?]|?]; simpl; try (rewrite lookup_nil; discriminate).
  destruct reply as [m|st [alts|]]; simpl; try (rewrite lookup_nil; discriminate).
  destruct (String.eqb st "OK") eqn:Est; simpl; try (rewrite lookup_nil; discriminate).
  rewrite Est. simpl.
  destruct (scoreRoutes alts) as [rs|e] eqn:E; simpl; try (rewrite lookup_nil; discriminate).
  intros _. exists st, alts. auto.
Qed.

(** Scoring keeps every field of the converted routes but [savings]. *)
Lemma scoreRoutes_lookup alternatives routes i r :
  scoreRoutes alternatives = Resolved routes ->
  routes !! i = Some r ->
  exists route r0,
    alternatives !! i = Some route /\
    convertRoute i route = Resolved r0 /\
    r = with_savings r0 (savings r).
Proof.
  unfold scoreRoutes.
  destruct (map_from convertRoute 0 alternatives) as [rs|e] eqn:E; simpl; [|discriminate].
  pose proof (converted_tail_plain _ _ E) as Htail.
  destruct rs as [|r0 rest].
  - simpl. intros H. inversion H; subst. rewrite lookup_nil. discriminate.
  - rewrite (savings_loop_head r0 rest Htail).
    intros H Hr.
    assert (Hcase : exists s, routes = with_savings r0 s :: rest \/ routes = r0 :: rest).
    { destruct (isRecommended r0).
      - destruct (calculateSavings (r0 :: rest) 0) as [s|?]; simpl in H; [|discriminate].
        inversion H. exists s. auto.
      - inversion H. exists None. auto. }
    destruct Hcase as (s & Hcase).
    destruct i as [|i].
    + destruct (map_from_lookup _ _ _ _ E 0%nat r0 eq_refl) as (route & Hroute & Hconv).
      exists route, r0. repeat split; auto.
      destruct Hcase as [-> | ->]; simpl in Hr; inversion Hr; subst; [reflexivity|].
      destruct r; reflexivity.
    + assert (Hrest : rest !! i = Some r).
      { destruct Hcase as [-> | ->]; exact Hr. }
      destruct (map_from_lookup _ _ _ _ E (S i) r Hrest) as (route & Hroute & Hconv).
      exists route, r. repeat split; auto. destruct r; reflexivity.
Qed.

(** C5.  In the batch a call of [calculateRoutes] returns, the route at
    index 0 is recommended iff its own severity level -- the classification
    of its own delay and duration -- is not [severe]; no route at a later
    index is recommended; so at most one route is recommended, and none when
    the first is [severe]. *)
Theorem recommended_is_first_unless_severe :
  forall request places reply,
    let batch := routes (calculateRoutes request places reply) in
    (forall i r, batch !! i = Some r ->
        trafficLevel r = calculateTrafficLevel (trafficDelay r) (duration r) /\
        (isRecommended r = true <-> i = 0%nat /\ trafficLevel r <> severe)) /\
    (forall i j ri rj, batch !! i = Some ri -> batch !! j = Some rj ->
        isRecommended ri = true -> isRecommended rj = true -> i = j) /\
    (forall r0, batch !! 0%nat = Some r0 -> trafficLevel r0 = severe ->
        forall i r, batch !! i = Some r -> isRecommended r = false).
Proof.
  intros request places reply batch.
  assert (Hmain : forall i r, batch !! i = Some r ->
      trafficLevel r = calculateTrafficLevel (trafficDelay r) (duration r) /\
      (isRecommended r = true <-> i = 0%nat /\ trafficLevel r <> severe)).
  { intros i r Hr.
    destruct (calculateRoutes_routes _ _ _ _ _ Hr) as (st & alts & _ & Hscore).
    destruct (scoreRoutes_lookup _ _ _ _ Hscore Hr) as (route & r0 & _ & Hconv & Hr0).
    apply convertRoute_fields in Hconv. destruct Hconv as (_ & Hlevel & Hrec).
    rewrite Hr0. simpl. split; [exact Hlevel|].
    rewrite Hrec, andb_true_iff, Nat.eqb_eq, negb_true_iff, bool_decide_eq_false.
    reflexivity. }
  split; [exact Hmain|]. split.
  - intros i j ri rj Hi Hj Hri Hrj.
    apply (Hmain i ri Hi) in Hri. apply (Hmain j rj Hj) in Hrj.
    destruct Hri as [-> _], Hrj as [-> _]. reflexivity.
  - intros r0 H0 Hsev i r Hr.
    destruct (isRecommended r) eqn:E; [|reflexivity].
    apply (Hmain i r Hr) in E. destruct E as [-> Hne].
    rewrite H0 in Hr. inversion Hr; subst. contradiction.
Qed.


(** ** Savings *)

(** With finite leg durations the durations of a converted route are
    integers. *)
Lemma convertRoute_integral index route r :
  convertRoute index route = Resolved r ->
  (forall leg, In leg (GoogleMapsService.legs route) -> finite_leg leg) ->
  integral (durationWithTraffic r).
Proof.
  unfold convertRoute.
  destruct (GoogleMapsService.legs route) as [|leg ?] eqn:Elegs; [discriminate|].
  intros H Hfin. inversion H; subst; clear H. simpl.
  destruct (Hfin leg (or_introl eq_refl)) as [[q Hq] Htraffic].
  destruct (GoogleMapsService.duration_in_traffic leg) as [v|] eqn:Ev.
  - destruct (Htraffic v eq_refl) as [qv ->]. apply round_finite.
  - rewrite Hq. apply round_finite.
Qed.

Lemma fold_faster_min :
  forall xs x,
    (forall y, In y (x :: xs) -> integral (durationWithTraffic y)) ->
    In (fold_left faster xs x) (x :: xs) /\
    forall y, In y (x :: xs) ->
      JS.leb (durationWithTraffic (fold_left faster xs x)) (durationWithTraffic y) = true.
Proof.
  induction xs as [|z zs IH]; intros x Hint; simpl.
  - split; [auto|]. intros y [<- | []].
    destruct (Hint x (or_introl eq_refl)) as [k ->]. apply leb_int. lia.
  - assert (Hint' : forall y, In y (faster x z :: zs) -> integral (durationWithTraffic y)).
    { intros y [<- | Hy].
      - unfold faster. destruct (_ <? _)%js; apply Hint; simpl; auto.
      - apply Hint. simpl. auto. }
    destruct (IH (faster x z) Hint') as [Hin Hmin].
    destruct (Hint x (or_introl eq_refl)) as [kx Hkx].
    destruct (Hint z (or_intror (or_introl eq_refl))) as [kz Hkz].
    split.
    + destruct Hin as [Hin | Hin]; [|auto].
      rewrite <- Hin. unfold faster. destruct (_ <? _)%js; auto.
    + intros y Hy.
      pose proof (Hmin (faster x z) (or_introl eq_refl)) as Hpick.
      destruct (Hint' _ (proj1 (IH (faster x z) Hint'))) as [kf Hkf].
      rewrite Hkf in *.
      assert (Hfx : exists kp, durationWithTraffic (faster x z) = JS.int kp
                               /\ (kp <= kx)%Z /\ (kp <= kz)%Z).
      { unfold faster. rewrite Hkx, Hkz.
        destruct (JS.int kz <? JS.int kx)%js eqn:E.
        - apply ltb_int in E. exists kz. rewrite Hkz. repeat split; lia.
        - apply ltb_int_false in E. exists kx. rewrite Hkx. repeat split; lia. }
      destruct Hfx as (kp & Hkp & Hpx & Hpz).
      rewrite Hkp in Hpick. apply leb_int in Hpick.
      destruct Hy as [<- | [<- | Hy]].
      * rewrite Hkx. apply leb_int. lia.
      * rewrite Hkz. apply leb_int. lia.
      * apply (Hmin y). simpl. auto.
Qed.

(** On a batch of at least two routes with integer durations,
    [calculateSavings] returns the gap to the fastest other route when that
    gap is positive, and the fastest other duration is unique. *)
Lemma calculateSavings_spec routes index current :
  (2 <= length routes)%nat ->
  routes !! index = Some current ->
  (forall j r, routes !! j = Some r -> integral (durationWithTraffic r)) ->
  exists m,
    fastest_other routes index m /\
    (forall m', fastest_other routes index m' -> m' = m) /\
    calculateSavings routes index
    = Resolved (savings_against m (durationWithTraffic current)).
Proof.
  intros Hlen Hcur Hint.
  unfold calculateSavings.
  destruct (length routes <=? 1)%nat eqn:El; [apply Nat.leb_le in El; lia|].
  rewrite Hcur. simpl.
  set (others := filter_from (fun idx _ => negb (Nat.eqb idx index)) 0 routes).
  assert (Hmem : forall r, In r others <-> exists j, j <> index /\ routes !! j = Some r).
  { intros r. unfold others. rewrite filter_from_In. simpl.
    split; intros (j & H1 & H2); exists j.
    - rewrite negb_true_iff, Nat.eqb_neq in H2. auto.
    - rewrite negb_true_iff, Nat.eqb_neq. auto. }
  assert (Hne : exists r, In r others).
  { destruct (Nat.eq_dec index 0%nat) as [-> | Hi].
    - destruct (lookup_lt_is_Some_2 routes 1%nat) as [r Hr]; [lia|].
      exists r. apply Hmem. exists 1%nat. auto.
    - destruct (lookup_lt_is_Some_2 routes 0%nat) as [r Hr]; [lia|].
      exists r. apply Hmem. exists 0%nat. auto. }
  destruct others as [|x xs] eqn:Eothers.
  { destruct Hne as [r []]. }
  simpl. fold faster.
  assert (Hint' : forall y, In y (x :: xs) -> integral (durationWithTraffic y)).
  { intros y Hy. apply Hmem in Hy. destruct Hy as (j & _ & Hj). eapply Hint; eauto. }
  destruct (fold_faster_min xs x Hint') as [Hin Hmin].
  set (fastest := fold_left faster xs x) in *.
  destruct (Hint' fastest Hin) as [kf Hkf].
  destruct (Hint index current Hcur) as [kc Hkc].
  assert (Hfo : fastest_other routes index (durationWithTraffic fastest)).
  { split.
    - apply Hmem in Hin. destruct Hin as (j & Hj & Hr). exists j, fastest. auto.
    - intros j r Hj Hr. apply Hmin. apply Hmem. exists j. auto. }
  exists (durationWithTraffic fastest). split; [exact Hfo|]. split.
  - intros m' [(j & r & Hj & Hr & Hm') Hle'].
    destruct (Hint j r Hr) as [kr Hkr].
    destruct Hfo as [(j0 & r0 & Hj0 & Hr0 & Hm0) Hle0].
    pose proof (Hle0 j r Hj Hr) as H1.
    pose proof (Hle' j0 r0 Hj0 Hr0) as H2.
    rewrite <- Hm', Hkr in *. rewrite Hm0, Hkf in *.
    apply leb_int in H1. apply leb_int in H2. f_equal. f_equal. lia.
  - unfold savings_against. rewrite Hkf, Hkc, int_sub, round_int. reflexivity.
Qed.

Lemma fastest_other_ext routes routes' index m :
  (forall j, durationWithTraffic <$> routes !! j = durationWithTraffic <$> routes' !! j) ->
  fastest_other routes index m -> fastest_other routes' index m.
Proof.
  intros Hext [(j & r & Hj & Hr & Hm) Hle]. split.
  - pose proof (Hext j) as E. rewrite Hr in E. simpl in E.
    destruct (routes' !! j) as [r'|] eqn:Er'; [|discriminate].
    simpl in E. inversion E. exists j, r'. repeat split; auto. congruence.
  - intros j' r' Hj' Hr'.
    pose proof (Hext j') as E. rewrite Hr' in E. simpl in E.
    destruct (routes !! j') as [r0|] eqn:Er0; [|discriminate].
    simpl in E.
    replace (durationWithTraffic r') with (durationWithTraffic r0) by congruence.
    eapply Hle; eauto.
Qed.

Lemma converted_integral alternatives routes :
  map_from convertRoute 0 alternatives = Resolved routes ->
  (forall route leg, In route alternatives -> In leg (GoogleMapsService.legs route) ->
                     finite_leg leg) ->
  forall j r, routes !! j = Some r -> integral (durationWithTraffic r).
Proof.
  intros H Hfin j r Hr.
  destruct (map_from_lookup _ _ _ _ H _ _ Hr) as (route & Hroute & Hconv).
  eapply convertRoute_integral; [exact Hconv|].
  intros leg Hleg. eapply Hfin; [|exact Hleg].
  apply list_elem_of_In. eapply list_elem_of_lookup_2. exact Hroute.
Qed.

Lemma converted_savings_None alternatives routes j r :
  map_from convertRoute 0 alternatives = Resolved routes ->
  routes !! j = Some r -> savings r = None.
Proof.
  intros H Hr.
  destruct (map_from_lookup _ _ _ _ H _ _ Hr) as (route & _ & Hconv).
  apply convertRoute_fields in Hconv. tauto.
Qed.

(** C3.  In the batch a call of [calculateRoutes] returns (the provider's
    leg durations being ordinary numbers), a route that is not recommended
    has no savings; the recommended route of a single-route batch has none;
    and in a batch of two or more the recommended route's savings is the
    fastest with-traffic duration among the other routes minus its own,
    present only when that difference is positive. *)
Theorem savings_only_for_recommended :
  forall request places reply,
    finite_reply reply ->
    let batch := routes (calculateRoutes request places reply) in
    forall i r, batch !! i = Some r ->
      (isRecommended r = false -> savings r = None) /\
      (isRecommended r = true -> (length batch <= 1)%nat -> savings r = None) /\
      (isRecommended r = true -> (2 <= length batch)%nat ->
         exists m,
           fastest_other batch i m /\
           (forall m', fastest_other batch i m' -> m' = m) /\
           savings r = savings_against m (durationWithTraffic r)).
Proof.
  intros request places reply Hfinite batch i r Hr.
  destruct (calculateRoutes_routes _ _ _ _ _ Hr) as (st & alts & Hreply & Hscore).
  fold batch in Hscore.
  assert (Hfin : forall route leg, In route alts ->
                   In leg (GoogleMapsService.legs route) -> finite_leg leg).
  { intros route leg. apply (Hfinite st alts route leg Hreply). }
  clear Hreply Hfinite.
  unfold scoreRoutes in Hscore.
  destruct (map_from convertRoute 0 alts) as [rs|e] eqn:E; simpl in Hscore; [|discriminate].
  pose proof (converted_tail_plain _ _ E) as Htail.
  pose proof (converted_integral _ _ E Hfin) as Hint.
  destruct rs as [|r0 rest].
  { simpl in Hscore. inversion Hscore as [Hb]. rewrite <- Hb in Hr.
    rewrite lookup_nil in Hr. discriminate. }
  rewrite (savings_loop_head r0 rest Htail) in Hscore.
  destruct (isRecommended r0) eqn:Erec.
  - destruct (calculateSavings (r0 :: rest) 0) as [s|?] eqn:Ecalc;
      simpl in Hscore; [|discriminate].
    inversion Hscore as [Hb]. rewrite <- Hb in *. clear Hscore.
    assert (Hext : forall j,
      durationWithTraffic <$> (r0 :: rest) !! j
      = durationWithTraffic <$> (with_savings r0 s :: rest) !! j).
    { intros [|j]; reflexivity. }
    destruct i as [|i]; simpl in Hr.
    + inversion Hr; subst r; clear Hr.
      simpl. split; [rewrite Erec; discriminate|]. split.
      * intros _ Hlen. unfold calculateSavings in Ecalc.
        destruct (length (r0 :: rest) <=? 1)%nat eqn:El.
        -- inversion Ecalc. reflexivity.
        -- apply Nat.leb_gt in El. simpl in *. lia.
      * intros _ Hlen.
        destruct (calculateSavings_spec (r0 :: rest) 0 r0) as (m & Hm & Huniq & Hcalc);
          [simpl in *; lia | reflexivity | exact Hint |].
        exists m. split; [|split].
        -- eapply fastest_other_ext; [exact Hext | exact Hm].
        -- intros m' Hm'. apply Huniq.
           eapply fastest_other_ext; [|exact Hm']. intros j. symmetry. apply Hext.
        -- rewrite Hcalc in Ecalc. inversion Ecalc. reflexivity.
    + assert (Hplain : isRecommended r = false).
      { apply (Htail (S i) r); [lia | exact Hr]. }
      assert (Hnone : savings r = None).
      { eapply (converted_savings_None _ _ (S i) r E). exact Hr. }
      rewrite Hplain. repeat split; auto; discriminate.
  - inversion Hscore as [Hb]. rewrite <- Hb in *. clear Hscore.
    assert (Hnone : savings r = None).
    { eapply (converted_savings_None _ _ i r E). exact Hr. }
    assert (Hplain : isRecommended r = false).
    { destruct i as [|i]; [simpl in Hr; inversion Hr; subst; exact Erec|].
      apply (Htail (S i) r); [lia | exact Hr]. }
    rewrite Hplain. repeat split; auto; discriminate.
Qed.

Lemma examples_finite_reply alternatives :
  (forall route leg, In route alternatives -> In leg (GoogleMapsService.legs route) ->
                     finite_leg leg) ->
  finite_reply (GoogleMapsService.Reply "OK" (Some alternatives)).
Proof.
  intros H st alts route leg Heq. inversion Heq; subst. apply H.
Defined.

Lemma example_leg_finite seconds inTraffic : finite_leg (Examples.leg seconds inTraffic).
Proof.
  split.
  - eexists. reflexivity.
  - intros v Hv. inversion Hv. eexists. reflexivity.
Defined.

Lemma example_replies_finite :
  finite_reply Examples.reply_30_25_40 /\
  finite_reply Examples.reply_25_30_40 /\
  finite_reply Examples.reply_severe_first.
Proof.
  split; [|split]; apply examples_finite_reply; intros route leg Hroute Hleg;
    simpl in Hroute;
    repeat (destruct Hroute as [<- | Hroute];
            [destruct Hleg as [<- | []]; apply example_leg_finite|]);
    destruct Hroute.
Defined.

(** The regression case of the specification: with-traffic durations
    [30; 25; 40], the first route recommended, and no savings since
    [min 25 40 - 30] is negative; and, with [25; 30; 40], savings of 5. *)
Lemma savings_only_for_recommended_witness :
  finite_reply Examples.reply_30_25_40 /\
  (let batch := routes (calculateRoutes Examples.request Examples.places
                                        Examples.reply_30_25_40) in
   map durationWithTraffic batch = [JS.int 30; JS.int 25; JS.int 40] /\
   map isRecommended batch = [true; false; false] /\
   map savings batch = [None; None; None]) /\
  (let batch := routes (calculateRoutes Examples.request Examples.places
                                        Examples.reply_25_30_40) in
   map durationWithTraffic batch = [JS.int 25; JS.int 30; JS.int 40] /\
   map isRecommended batch = [true; false; false] /\
   map savings batch = [Some (JS.int 30 - JS.int 25)%js; None; None]).
Proof.
  destruct example_replies_finite as (Hfin1 & Hfin2 & _).
  split; [exact Hfin1|].
  split.
  - set (batch := routes (calculateRoutes Examples.request Examples.places
                                          Examples.reply_30_25_40)).
    assert (Hd : map durationWithTraffic batch = [JS.int 30; JS.int 25; JS.int 40])
      by (vm_compute; reflexivity).
    assert (Hr : map isRecommended batch = [true; false; false])
      by (vm_compute; reflexivity).
    split; [exact Hd|]. split; [exact Hr|].
    pose proof (savings_only_for_recommended Examples.request Examples.places
                  Examples.reply_30_25_40 Hfin1) as H.
    cbv zeta in H. fold batch in H. clearbody batch.
    destruct batch as [|r0 [|r1 [|r2 [|? ?]]]]; try discriminate Hd.
    simpl in Hd, Hr. injection Hd as Hd0 Hd1 Hd2. injection Hr as Hr0 Hr1 Hr2.
    destruct (H 0%nat r0 eq_refl) as (_ & _ & H0).
    destruct (H 1%nat r1 eq_refl) as (H1 & _).
    destruct (H 2%nat r2 eq_refl) as (H2 & _).
    destruct (H0 Hr0) as (m & _ & Huniq & Hs0); [simpl; lia|].
    assert (Hm : JS.int 25 = m).
    { apply Huniq. split.
      - exists 1%nat, r1. repeat split; auto.
      - intros [|[|[|j]]] r Hj Hlook; simpl in Hlook; inversion Hlook; subst;
          try congruence.
        + rewrite Hd1. reflexivity.
        + rewrite Hd2. reflexivity. }
    simpl. rewrite Hs0, (H1 Hr1), (H2 Hr2), <- Hm, Hd0. reflexivity.
  - set (batch := routes (calculateRoutes Examples.request Examples.places
                                          Examples.reply_25_30_40)).
    assert (Hd : map durationWithTraffic batch = [JS.int 25; JS.int 30; JS.int 40])
      by (vm_compute; reflexivity).
    assert (Hr : map isRecommended batch = [true; false; false])
      by (vm_compute; reflexivity).
    split; [exact Hd|]. split; [exact Hr|].
    pose proof (savings_only_for_recommended Examples.request Examples.places
                  Examples.reply_25_30_40 Hfin2) as H.
    cbv zeta in H. fold batch in H. clearbody batch.
    destruct batch as [|r0 [|r1 [|r2 [|? ?]]]]; try discriminate Hd.
    simpl in Hd, Hr. injection Hd as Hd0 Hd1 Hd2. injection Hr as Hr0 Hr1 Hr2.
    destruct (H 0%nat r0 eq_refl) as (_ & _ & H0).
    destruct (H 1%nat r1 eq_refl) as (H1 & _).
    destruct (H 2%nat r2 eq_refl) as (H2 & _).
    destruct (H0 Hr0) as (m & _ & Huniq & Hs0); [simpl; lia|].
    assert (Hm : JS.int 30 = m).
    { apply Huniq. split.
      - exists 1%nat, r1. repeat split; auto.
      - intros [|[|[|j]]] r Hj Hlook; simpl in Hlook; inversion Hlook; subst;
          try congruence.
        + rewrite Hd1. reflexivity.
        + rewrite Hd2. reflexivity. }
    simpl. rewrite Hs0, (H1 Hr1), (H2 Hr2), <- Hm, Hd0. reflexivity.
Defined.

(** Two sample batches: the first route recommended when it is not severe,
    nothing recommended when it is. *)
Lemma recommended_is_first_unless_severe_witness :
  (let batch := routes (calculateRoutes Examples.request Examples.places
                                        Examples.reply_30_25_40) in
   map trafficLevel batch = [low; low; low] /\
   map isRecommended batch = [true; false; false]) /\
  (let batch := routes (calculateRoutes Examples.request Examples.places
                                        Examples.reply_severe_first) in
   map trafficLevel batch = [severe; low] /\
   map isRecommended batch = [false; false]).
Proof.
  split.
  - set (batch := routes (calculateRoutes Examples.request Examples.places
                                          Examples.reply_30_25_40)).
    assert (Hl : map trafficLevel batch = [low; low; low]) by (vm_compute; reflexivity).
    split; [exact Hl|].
    destruct (recommended_is_first_unless_severe Examples.request Examples.places
                Examples.reply_30_25_40) as (Hmain & _ & _).
    fold batch in Hmain. clearbody batch.
    destruct batch as [|r0 [|r1 [|r2 [|? ?]]]]; try discriminate Hl.
    simpl in Hl. injection Hl as Hl0 Hl1 Hl2.
    destruct (Hmain 0%nat r0 eq_refl) as (_ & H0).
    destruct (Hmain 1%nat r1 eq_refl) as (_ & H1).
    destruct (Hmain 2%nat r2 eq_refl) as (_ & H2).
    simpl.
    assert (E0 : isRecommended r0 = true).
    { apply H0. split; [reflexivity | rewrite Hl0; discriminate]. }
    assert (E1 : isRecommended r1 = false).
    { destruct (isRecommended r1); [|reflexivity].
      destruct (proj1 H1 eq_refl) as [? _]. discriminate. }
    assert (E2 : isRecommended r2 = false).
    { destruct (isRecommended r2); [|reflexivity].
      destruct (proj1 H2 eq_refl) as [? _]. discriminate. }
    rewrite E0, E1, E2. reflexivity.
  - set (batch := routes (calculateRoutes Examples.request Examples.places
                                          Examples.reply_severe_first)).
    assert (Hl : map trafficLevel batch = [severe; low]) by (vm_compute; reflexivity).
    split; [exact Hl|].
    destruct (recommended_is_first_unless_severe Examples.request Examples.places
                Examples.reply_severe_first) as (_ & _ & Hnone).
    fold batch in Hnone. clearbody batch.
    destruct batch as [|r0 [|r1 [|? ?]]]; try discriminate Hl.
    simpl in Hl. injection Hl as Hl0 Hl1.
    simpl.
    rewrite (Hnone r0 eq_refl Hl0 0%nat r0 eq_refl).
    rewrite (Hnone r0 eq_refl Hl0 1%nat r1 eq_refl).
    reflexivity.
Defined.
End RouteBatches.

(* ================================================================== *)
(** * Provider failures *)
(* ================================================================== *)

Section ProviderFailures.

Import GoogleMapsService RouteService Spec.

(** A resolved [calculateDirections] always carries status OK: the branch
    of [calculateRoutesWithJSSDK] that consults the status table is never
    taken. *)
Lemma calculateDirections_resolves_OK reply result :
  calculateDirections reply = Resolved result -> GoogleMapsService.status result = "OK".
Proof.
  destruct reply as [m|st [rs|]]; simpl; try discriminate.
  destruct (String.eqb st "OK") eqn:E; [|discriminate].
  intros H. inversion H; subst. simpl. apply String.eqb_eq. exact E.
Qed.

(** Every provider status other than OK ends in the handler's message. *)
Lemma non_OK_status_response request place others st result :
  st <> "OK" ->
  calculateRoutes request (Resolved (place :: others)) (Reply st result)
  = failure unreachable_by_car.
Proof.
  intros Hst. apply String.eqb_neq in Hst.
  unfold calculateRoutes, calculateRoutesWithJSSDK, calculateDirections. simpl.
  destruct result as [rs|]; [rewrite Hst|]; reflexivity.
Qed.

(** The handler's message is none of the eight of the table. *)
Lemma unreachable_by_car_not_in_table st :
  getDirectionsErrorMessage st <> unreachable_by_car.
Proof.
  unfold getDirectionsErrorMessage.
  repeat match goal with |- context [String.eqb ?a ?b] => destruct (String.eqb a b) end;
    discriminate.
Qed.

(** C2 (code defect).  For each of the seven named failure statuses and for
    an unnamed one, reported by the provider after a successful destination
    search, [calculateRoutes] returns no routes and status [error] without
    throwing -- but the message is the fixed text of the handler around
    [calculateDirections], which differs from the entry the status table
    holds for that status. *)
Theorem directions_failure_bypasses_status_table :
  Forall (fun st =>
            calculateRoutes Examples.request Examples.places (Reply st None)
            = {| routes := []; status := error; message := Some unreachable_by_car |}
            /\ String.eqb (getDirectionsErrorMessage st) unreachable_by_car = false)
         ["NOT_FOUND"; "ZERO_RESULTS"; "MAX_WAYPOINTS_EXCEEDED"; "INVALID_REQUEST";
          "OVER_QUERY_LIMIT"; "REQUEST_DENIED"; "UNKNOWN_ERROR"; "ERROR"].
Proof.
  repeat constructor.
Qed.

End ProviderFailures.

(* ================================================================== *)
(** * Persistence round trip *)
(* ================================================================== *)

Section RoundTrip.

Import RouteService.

(** C8.  Writing a route result as a route record, the way
    [saveRoutesToDatabase] does, and reading that record back, the way
    [getSavedRoutes] does, returns the distance, duration, duration with
    traffic, traffic level and waypoints it started from. *)
Theorem saved_route_round_trip :
  forall request formattedDestination destinationPlace route,
    let back := fromRouteRecord
                  (toRouteRecord request formattedDestination destinationPlace route) in
    distance back = distance route /\
    duration back = duration route /\
    durationWithTraffic back = durationWithTraffic route /\
    trafficLevel back = trafficLevel route /\
    waypoints back = waypoints route.
Proof.
  intros request formattedDestination destinationPlace route back.
  unfold back, fromRouteRecord, toRouteRecord. simpl. repeat split.
Qed.

(** The same holds with the key and the time stamps the table adds to the
    row, and extends to every field but the identifier. *)
Lemma saved_route_round_trip_row request formattedDestination destinationPlace route
      key created updated :
  let record := toRouteRecord request formattedDestination destinationPlace route in
  let row :=
    {| SupabaseService.id := Some key;
       SupabaseService.user_id := SupabaseService.user_id record;
       SupabaseService.origin_lat := SupabaseService.origin_lat record;
       SupabaseService.origin_lng := SupabaseService.origin_lng record;
       SupabaseService.destination := SupabaseService.destination record;
       SupabaseService.destination_lat := SupabaseService.destination_lat record;
       SupabaseService.destination_lng := SupabaseService.destination_lng record;
       SupabaseService.route_name := SupabaseService.route_name record;
       SupabaseService.distance := SupabaseService.distance record;
       SupabaseService.duration := SupabaseService.duration record;
       SupabaseService.duration_with_traffic := SupabaseService.duration_with_traffic record;
       SupabaseService.traffic_delay := SupabaseService.traffic_delay record;
       SupabaseService.traffic_level := SupabaseService.traffic_level record;
       SupabaseService.description := SupabaseService.description record;
       SupabaseService.is_recommended := SupabaseService.is_recommended record;
       SupabaseService.savings := SupabaseService.savings record;
       SupabaseService.waypoints := SupabaseService.waypoints record;
       SupabaseService.polyline := SupabaseService.polyline record;
       SupabaseService.created_at := Some created;
       SupabaseService.updated_at := Some updated |} in
  fromRouteRecord row
  = {| id := key; name := name route; distance := distance route;
       duration := duration route; durationWithTraffic := durationWithTraffic route;
       trafficDelay := trafficDelay route; trafficLevel := trafficLevel route;
       description := description route; isRecommended := isRecommended route;
       savings := savings route; waypoints := waypoints route;
       polyline := polyline route |}.
Proof. reflexivity. Qed.

End RoundTrip.

(* ================================================================== *)
(** * Cache acceptance *)
(* ================================================================== *)

Section CacheAcceptance.

Import JSFacts ArrayFacts TrafficService Spec.

Lemma five_minutes : (Fin 5 * Fin 60 * Fin 1000)%js = JS.int 300000.
Proof. reflexivity. Qed.

Lemma isRecentReal_spec now condition :
  isRecentReal now condition = true <-> recent now condition /\ real condition.
Proof.
  unfold isRecentReal, recent, real. rewrite andb_true_iff.
  destruct (timestamp condition) as [stamp|]; simpl getTime.
  - rewrite five_minutes.
    change (JS.int now - JS.int stamp)%js with (JS.sub (JS.int now) (JS.int stamp)).
    assert (E : JS.sub (JS.int now) (JS.int stamp) = JS.int (now - stamp)).
    { unfold JS.sub, JS.int, JS.neg, JS.add, Qplus, Qopp, inject_Z. simpl.
      rewrite !Z.mul_1_r. reflexivity. }
    rewrite E. unfold JS.int. rewrite ltb_Fin, <- Zlt_Qlt. reflexivity.
  - simpl. split; [intros [H _]; discriminate | tauto].
Qed.

(** The entries the filter keeps, read off the rows. *)
Lemma accepted_entries (w : World) (c : TrafficCondition) :
  In c (filter_from (fun index condition => isRecentReal (clock w index) condition)
                    0 (map fromRecord (cached w)))
  <-> exists i record, cached w !! i = Some record /\ c = fromRecord record
                       /\ recent (clock w i) c /\ real c.
Proof.
  rewrite filter_from_In. simpl. split.
  - intros (i & Hi & Hok). rewrite list_lookup_fmap in Hi.
    destruct (cached w !! i) as [record|] eqn:E; simpl in Hi; [|discriminate].
    inversion Hi; subst. apply isRecentReal_spec in Hok.
    exists i, record. tauto.
  - intros (i & record & Hi & -> & Hrecent & Hreal).
    exists i. rewrite list_lookup_fmap, Hi. simpl. split; [reflexivity|].
    apply isRecentReal_spec. tauto.
Qed.

(** C4.  With the SDK on the page: the call answers from the cache, never
    reaching the live fetch, iff some cached entry is recent (less than five
    minutes old when examined) and real (identifier starting with
    [real-traffic-]); the entries it then returns are exactly the recent and
    real ones; otherwise the live fetch is made.  An entry whose identifier
    starts with [simulation-] is never among those served from the cache. *)
Theorem cache_serves_recent_real_only :
  forall w : World, sdk w = Resolved true ->
    let usable c := exists i record,
        cached w !! i = Some record /\ c = fromRecord record
        /\ recent (clock w i) c /\ real c in
    let calls := fst (getCurrentTrafficConditions w) in
    let conditions := snd (getCurrentTrafficConditions w) in
    (calls = [GetTrafficConditions] <-> exists c, usable c) /\
    (calls = [GetTrafficConditions] -> forall c, In c conditions <-> usable c) /\
    (calls <> [GetTrafficConditions] -> In FetchRealTrafficData calls) /\
    (calls = [GetTrafficConditions] -> forall c, In c conditions ->
       String.prefix "simulation-" (id c) = false).
Proof.
  intros w Hsdk usable calls conditions.
  unfold calls, conditions, getCurrentTrafficConditions. rewrite Hsdk.
  set (entries := map fromRecord (cached w)).
  set (kept := filter_from (fun index condition => isRecentReal (clock w index) condition)
                           0 entries).
  assert (Hkept : forall c, In c kept <-> usable c).
  { intros c. apply accepted_entries. }
  cbv zeta.
  destruct (0 <? length entries)%nat eqn:Eentries.
  - destruct (0 <? length kept)%nat eqn:Ekept.
    + simpl. apply length_pos_In in Ekept. destruct Ekept as [c0 Hc0].
      split; [|split; [|split]].
      * split; [|reflexivity]. intros _. exists c0. apply Hkept. exact Hc0.
      * intros _. exact Hkept.
      * intros Hne. contradiction Hne. reflexivity.
      * intros _ c Hc. apply Hkept in Hc.
        destruct Hc as (_ & _ & _ & _ & _ & Hreal). unfold real in Hreal.
        apply real_not_simulated. exact Hreal.
    + assert (Hnone : forall c, ~ usable c).
      { intros c Hc. apply Hkept in Hc.
        assert (H : (0 <? length kept)%nat = true) by (apply length_pos_In; eauto).
        congruence. }
      destruct (0 <? length (live w))%nat; simpl;
        (split; [|split; [|split]];
         [ split; [discriminate | intros [c Hc]; destruct (Hnone c Hc)]
         | discriminate
         | intros _; auto
         | discriminate ]).
  - assert (Hnone : forall c, ~ usable c).
    { intros c (i & record & Hi & _).
      apply Nat.ltb_ge in Eentries. unfold entries in Eentries.
      rewrite length_map in Eentries.
      apply lookup_lt_Some in Hi. lia. }
    simpl.
    destruct (0 <? length (live w))%nat; simpl;
      (split; [|split; [|split]];
       [ split; [discriminate | intros [c Hc]; destruct (Hnone c Hc)]
       | discriminate
       | intros _; auto
       | discriminate ]).
Qed.


(** The sample of the specification: a four-minute-old [real-traffic-123]
    entry is served from the cache and the [simulation-456] entry beside it
    is not; alone, the simulated entry sends the call on to the live
    fetch. *)
Lemma cache_serves_recent_real_only_witness :
  sdk (Examples.world [Examples.real_row; Examples.simulated_row]) = Resolved true /\
  (let answer := getCurrentTrafficConditions
                   (Examples.world [Examples.real_row; Examples.simulated_row]) in
   fst answer = [GetTrafficConditions] /\
   In (fromRecord Examples.real_row) (snd answer) /\
   ~ In (fromRecord Examples.simulated_row) (snd answer)) /\
  (let answer := getCurrentTrafficConditions (Examples.world [Examples.simulated_row]) in
   In FetchRealTrafficData (fst answer)).
Proof.
  split; [reflexivity|]. split.
  - destruct (cache_serves_recent_real_only
                (Examples.world [Examples.real_row; Examples.simulated_row]) eq_refl)
      as (Hhit & Hserved & _ & Hsim).
    assert (Hreal : exists i record,
               cached (Examples.world [Examples.real_row; Examples.simulated_row]) !! i
               = Some record
               /\ fromRecord Examples.real_row = fromRecord record
               /\ recent (clock (Examples.world [Examples.real_row; Examples.simulated_row]) i)
                         (fromRecord Examples.real_row)
               /\ real (fromRecord Examples.real_row)).
    { exists 0%nat, Examples.real_row. repeat split. }
    assert (Hcalls : fst (getCurrentTrafficConditions
                            (Examples.world [Examples.real_row; Examples.simulated_row]))
                     = [GetTrafficConditions]).
    { apply Hhit. exists (fromRecord Examples.real_row). exact Hreal. }
    split; [exact Hcalls|]. split.
    + apply (Hserved Hcalls). exact Hreal.
    + intros Hin. pose proof (Hsim Hcalls _ Hin) as Hprefix.
      vm_compute in Hprefix. discriminate Hprefix.
  - destruct (cache_serves_recent_real_only
                (Examples.world [Examples.simulated_row]) eq_refl)
      as (Hhit & _ & Hmiss & _).
    apply Hmiss. intros Hcalls. apply Hhit in Hcalls.
    destruct Hcalls as (c & i & record & Hlook & -> & _ & Hreal).
    destruct i as [|i]; simpl in Hlook; [|rewrite lookup_nil in Hlook; discriminate].
    inversion Hlook; subst. vm_compute in Hreal. discriminate Hreal.
Defined.

End CacheAcceptance.

(* ================================================================== *)
(** * Hourly forecast *)
(* ================================================================== *)

Section Forecast.

Import TrafficService Spec.

Lemma severityValue_level (s : Severity) : severityValue s = level_value s.
Proof. destruct s; reflexivity. Qed.

Lemma sum_of_levels (conditions : list TrafficCondition) :
  forall start : float,
    fold_left (fun sum condition => (sum + severityValue (severity condition))%float)
              conditions start
    = fold_left PrimFloat.add
                (map (fun c => level_value (severity c)) conditions) start.
Proof.
  induction conditions as [|c cs IH]; intros start; cbn [fold_left map].
  - reflexivity.
  - rewrite severityValue_level. apply IH.
Qed.

(** The base level of the code is the mean, rounded. *)
Lemma calculateCurrentCongestionLevel_spec (conditions : list TrafficCondition) :
  calculateCurrentCongestionLevel conditions
  = Double.Math_round (mean_severity conditions).
Proof.
  unfold calculateCurrentCongestionLevel, mean_severity, sum_of.
  destruct conditions as [|c cs]; [reflexivity|].
  change (Nat.eqb (length (c :: cs)) 0) with false. cbv iota zeta.
  rewrite sum_of_levels. reflexivity.
Qed.

(** The loop appends one entry for each index. *)
Lemma predictions_loop_spec currentHour conditions :
  forall n i acc,
    predictions_loop n i currentHour conditions acc
    = acc ++ map (fun k =>
                    {| time := formatHour ((currentHour + k) mod 24);
                       congestionLevel :=
                         forecast_level (calculateCurrentCongestionLevel conditions)
                                        ((currentHour + k) mod 24);
                       hourConfidence :=
                         Double.Math_max 60 (95 - Double.of_nat k * 3)%float |})
                 (seq i n).
Proof.
  induction n as [|n IH]; intros i acc; cbn [predictions_loop seq map].
  - rewrite app_nil_r. reflexivity.
  - rewrite IH, <- app_assoc. reflexivity.
Qed.

Lemma forecast_confidence_spec (i : nat) :
  (i < 12)%nat ->
  Double.Math_max 60 (95 - Double.of_nat i * 3)%float = forecast_confidence i.
Proof.
  intros Hi. do 12 (destruct i as [|i]; [reflexivity|]). lia.
Qed.

(** The factors of the 24 hours lie between 0.1 and 1.3. *)
Lemma hour_factor_bounds (hour : nat) :
  (hour < 24)%nat ->
  (0.1 <=? hour_factor hour)%float = true /\ (hour_factor hour <=? 1.3)%float = true.
Proof.
  intros H.
  do 24 (destruct hour as [|hour]; [split; reflexivity|]). lia.
Qed.

(** C6, as the code has it.  The forecast holds exactly 12 entries; entry
    [i] has congestion level [round (base * factor ((hour + i) mod 24))]
    clamped to [0, 100], where [base] is the unweighted average of the
    levels mapped to 25, 50, 75 and 90 (20 without conditions) rounded to
    the nearest integer, and confidence [max 60 (95 - 3 i)]; the factors of
    the 24 hours lie between 0.1, reached at hour 3, and 1.3, reached at
    hour 17.  [getTrafficPredictions] returns this forecast for the
    conditions [getCurrentTrafficConditions] gives it.  All arithmetic is
    that of doubles. *)
Theorem forecast_from_rounded_base :
  forall conditions hour now random,
    let forecast := generateRealTimePredictions hour now random conditions in
    let base := Double.Math_round (mean_severity conditions) in
    (forall w, conditions = snd (getCurrentTrafficConditions w) ->
               getTrafficPredictions w hour now random = forecast) /\
    length (predictions forecast) = 12%nat /\
    (forall i, (i < 12)%nat ->
       exists entry,
         predictions forecast !! i = Some entry /\
         congestionLevel entry = forecast_level base ((hour + i) mod 24) /\
         hourConfidence entry = forecast_confidence i) /\
    (forall h, (h < 24)%nat ->
       (0.1 <=? hour_factor h)%float = true /\ (hour_factor h <=? 1.3)%float = true) /\
    hour_factor 3 = 0.1%float /\ hour_factor 17 = 1.3%float.
Proof.
  intros conditions hour now random forecast base.
  split; [intros w ->; reflexivity|].
  unfold forecast, generateRealTimePredictions. cbn [predictions].
  rewrite predictions_loop_spec, app_nil_l.
  split; [rewrite length_map, length_seq; reflexivity|].
  split; [|split; [exact hour_factor_bounds | split; reflexivity]].
  intros i Hi. eexists. split.
  - rewrite list_lookup_fmap, lookup_seq_lt by exact Hi. reflexivity.
  - cbn [congestionLevel hourConfidence]. split.
    + rewrite calculateCurrentCongestionLevel_spec. reflexivity.
    + rewrite Nat.add_0_l. apply forecast_confidence_spec. exact Hi.
Qed.

(** Two conditions, low and moderate, from 8 o'clock: the mean is 37.5,
    rounded to 38, and the factors 1.2 and 0.8 give 46 and 30; the
    confidence starts at 95 and 92. *)
Lemma forecast_from_rounded_base_witness :
  let conditions := [Examples.condition low; Examples.condition moderate] in
  let forecast := generateRealTimePredictions 8 Examples.noon 0.5 conditions in
  mean_severity conditions = 37.5%float /\
  map congestionLevel (take 2 (predictions forecast)) = [46; 30]%float /\
  map hourConfidence (take 2 (predictions forecast)) = [95; 92]%float.
Proof.
  intros conditions forecast.
  destruct (forecast_from_rounded_base conditions 8 Examples.noon 0.5)
    as (_ & _ & Hentries & _).
  fold forecast in Hentries.
  destruct (Hentries 0%nat ltac:(lia)) as (e0 & H0 & Hl0 & Hc0).
  destruct (Hentries 1%nat ltac:(lia)) as (e1 & H1 & Hl1 & Hc1).
  split; [reflexivity|].
  assert (Htake : take 2 (predictions forecast) = [e0; e1]).
  { clear - H0 H1. generalize dependent (predictions forecast).
    intros [|p0 [|p1 rest]] H0 H1; try discriminate.
    injection H0 as ->. injection H1 as ->. reflexivity. }
  rewrite Htake. cbn [map]. rewrite Hl0, Hl1, Hc0, Hc1. split; reflexivity.
Defined.

(** With the unrounded average the formula fails on that input: the code
    forecasts 46 for the first hour, the formula gives 45. *)
Lemma forecast_unrounded_base_counterexample :
  let conditions := [Examples.condition low; Examples.condition moderate] in
  let forecast := generateRealTimePredictions 8 Examples.noon 0.5 conditions in
  congestionLevel <$> predictions forecast !! 0%nat = Some 46%float /\
  forecast_level (mean_severity conditions) 8 = 45%float.
Proof. split; reflexivity. Qed.

(** Where doubles show: five conditions with mean 45, at eleven o'clock.
    The product 45 * 0.7 is 31.499999999999996 and the forecast is 31. *)
Lemma forecast_of_45_at_11 :
  let conditions := Examples.condition low
                    :: repeat (Examples.condition moderate) 4 in
  mean_severity conditions = 45%float /\
  (45 * hour_factor 11)%float = 31.499999999999996%float /\
  forecast_level (Double.Math_round (mean_severity conditions)) 11 = 31%float.
Proof. repeat split. Qed.

(** For every whole base from 20 to 90 and every hour, the forecast level
    is a whole number between 0 and 100 (checked by evaluation). *)
Lemma forecast_levels_in_range :
  forallb (fun base =>
    forallb (fun hour =>
      let level := forecast_level (Double.of_nat base) hour in
      ((0 <=? level)%float && (level <=? 100)%float
       && (Double.Math_round level =? level)%float)%bool)
      (seq 0 24))
    (seq 20 71) = true.
Proof. vm_compute. reflexivity. Qed.

End Forecast.

(* ================================================================== *)
(** * Hour-of-day simulation *)
(* ================================================================== *)

Section Simulation.

Import JSFacts ArrayFacts TrafficService Spec.

Variable w : SimWorld.
Hypothesis random_range : forall n, 0 <= random w n /\ random w n < 1.

(** [Math.floor(Math.random() * k) + base], for a draw in [0, 1). *)
Lemma floor_draw (r : Q) (k base : Z) :
  0 <= r -> r < 1 -> (0 < k)%Z ->
  exists v : Z,
    (JS.floor (Fin r * JS.int k) + JS.int base)%js = JS.int v
    /\ (base <= v <= base + k - 1)%Z.
Proof.
  intros H0 H1 Hk.
  exists (Qfloor (r * inject_Z k) + base)%Z. split.
  - change (JS.floor (Fin r * JS.int k)%js) with (JS.int (Qfloor (r * inject_Z k))).
    apply add_int.
  - assert (Hk' : 0 < inject_Z k) by (change 0 with (inject_Z 0); rewrite <- Zlt_Qlt; lia).
    assert (Hlo : (0 <= Qfloor (r * inject_Z k))%Z).
    { change 0%Z with (Qfloor 0). apply Qfloor_resp_le. nra. }
    assert (Hhi : (Qfloor (r * inject_Z k) < k)%Z).
    { rewrite Zlt_Qlt. apply Qle_lt_trans with (r * inject_Z k).
      - apply Qfloor_le.
      - nra. }
    lia.
Qed.

Lemma hourProfile_props (currentHour : nat) (s : SimState) :
  let '(level, speed, _) := fst (hourProfile w currentHour s) in
  ((7 <= currentHour <= 9)%nat ->
     (level = moderate \/ level = high) /\
     exists v : Z, speed = JS.int v /\ (15 <= v <= 35)%Z) /\
  ((22 <= currentHour \/ currentHour <= 5)%nat ->
     level = low /\
     exists v : Z, speed = JS.int v /\ (45 <= v <= 65)%Z).
Proof.
  unfold hourProfile.
  destruct ((7 <=? currentHour)%nat && (currentHour <=? 9)%nat) eqn:Emorning.
  - apply andb_true_iff in Emorning. rewrite !Nat.leb_le in Emorning.
    cbn. split; [|lia]. intros _. split.
    + match goal with |- context [if ?b then _ else _] => destruct b end; auto.
    + destruct (random_range (S (draws s))) as [H0 H1].
      destruct (floor_draw _ 20 15 H0 H1) as (v & Hv & Hrange); [lia|].
      exists v. split; [exact Hv | lia].
  - apply andb_false_iff in Emorning. rewrite !Nat.leb_gt in Emorning.
    destruct ((17 <=? currentHour)%nat && (currentHour <=? 19)%nat) eqn:Eevening.
    + apply andb_true_iff in Eevening. rewrite !Nat.leb_le in Eevening.
      cbn. split; lia.
    + apply andb_false_iff in Eevening. rewrite !Nat.leb_gt in Eevening.
      destruct ((22 <=? currentHour)%nat || (currentHour <=? 5)%nat) eqn:Enight.
      * cbn. split; [lia|]. intros _. split; [reflexivity|].
        destruct (random_range (draws s)) as [H0 H1].
        destruct (floor_draw _ 20 45 H0 H1) as (v & Hv & Hrange); [lia|].
        exists v. split; [exact Hv | lia].
      * apply orb_false_iff in Enight. rewrite !Nat.leb_gt in Enight.
        cbn. split; lia.
Qed.

Lemma simulateOne_props center cityName currentHour numConditions i (s : SimState) :
  well_simulated currentHour
    (fst (simulateOne w center cityName currentHour numConditions i s)).
Proof.
  unfold simulateOne, mbind, Sim_bind, mret, Sim_ret, Math_random, Date_now.
  pose proof (hourProfile_props currentHour
                {| draws := S (draws s); ticks := ticks s |}) as Hprofile.
  destruct (hourProfile w currentHour {| draws := S (draws s); ticks := ticks s |})
    as [[[level speed] cause] s'].
  cbn [fst] in Hprofile. cbn [fst snd draws ticks].
  unfold well_simulated.
  cbn [id confidence severity TrafficService.speed].
  split; [apply prefix_append|]. split; [reflexivity|]. exact Hprofile.
Qed.

Lemma simulate_loop_props center cityName currentHour numConditions :
  forall n i conditions (s : SimState),
    Forall (well_simulated currentHour) conditions ->
    let result := fst (simulate_loop w center cityName currentHour numConditions
                                     n i conditions s) in
    Forall (well_simulated currentHour) result /\
    length result = (length conditions + n)%nat.
Proof.
  induction n as [|n IH]; intros i conditions s Hall.
  - cbn. split; [exact Hall | lia].
  - cbn [simulate_loop]. unfold mbind, Sim_bind.
    pose proof (simulateOne_props center cityName currentHour numConditions i s) as Hone.
    destruct (simulateOne w center cityName currentHour numConditions i s) as [c s'].
    cbn [fst] in Hone.
    destruct (IH (S i) (conditions ++ [c]) s') as [Hres Hlen].
    { apply Forall_app. split; [exact Hall | constructor; [exact Hone | constructor]]. }
    split; [exact Hres|].
    rewrite Hlen, length_app. simpl. lia.
Qed.

(** C7.  Whatever the draws of [Math.random()] in [0, 1) and whatever the
    clock and the geocoder answer, a simulated batch holds between 2 and 4
    conditions; each has an identifier starting with [simulation-] and
    confidence 70; generated at an hour from 7 to 9 each has severity
    moderate or high and a speed between 15 and 35; generated in the night
    band (22 to 5, so at 23) each has severity low and a speed between 45
    and 65. *)
Theorem simulation_by_hour :
  forall center currentHour (s : SimState),
    let batch := fst (generateLocationAwareSimulation w center currentHour s) in
    (2 <= length batch <= 4)%nat /\
    Forall (well_simulated currentHour) batch.
Proof.
  intros center currentHour s batch.
  unfold batch, generateLocationAwareSimulation, mbind, Sim_bind, Math_random.
  set (cityName := match reverseGeocodedAddress w (fst center) (snd center) with
                   | Some (String c a) => _
                   | _ => _
                   end).
  cbn [fst snd draws ticks].
  destruct (random_range (draws s)) as [H0 H1].
  destruct (floor_draw _ 3 2 H0 H1) as (v & Hv & Hrange); [lia|].
  change (Fin 3) with (JS.int 3). change (Fin 2) with (JS.int 2). rewrite Hv.
  assert (Hcount : trip_count (JS.int v) = Z.to_nat v).
  { unfold trip_count, JS.int. rewrite Qceiling_Z. reflexivity. }
  rewrite Hcount.
  destruct (simulate_loop_props center cityName currentHour (JS.int v)
              (Z.to_nat v) 0%nat [] {| draws := S (draws s); ticks := ticks s |})
    as [Hall Hlen]; [constructor|].
  split; [|exact Hall].
  rewrite Hlen. simpl. lia.
Qed.

End Simulation.

(** On doubles the largest value [Math.random()] can return,
    [1 - 2^-53], still floors below the multiplier after the product is
    rounded, for each multiplier of the simulation. *)
Lemma largest_draw_floors_below :
  forallb (fun k =>
             (Double.Math_floor (0x1.fffffffffffffp-1 * Double.of_nat k)
              =? Double.of_nat (k - 1))%float)
          [3; 5; 15; 20; 25]%nat = true.
Proof. vm_compute. reflexivity. Qed.

Section SimulationSample.

Import TrafficService Spec.

Lemma sample_draws_in_range :
  forall n, 0 <= random Examples.sim_world n /\ random Examples.sim_world n < 1.
Proof.
  intros n. cbn [random Examples.sim_world].
  pose proof (Z.mod_pos_bound (Z.of_nat n * 37 + 41) 100 ltac:(lia)) as Hmod.
  set (k := ((Z.of_nat n * 37 + 41) mod 100)%Z) in *.
  unfold Qle, Qlt, Qdiv, Qmult, Qinv, inject_Z. simpl. lia.
Defined.

(** Two sample runs, at 8 in the morning and at 23. *)
Lemma simulation_by_hour_witness :
  (forall n, 0 <= random Examples.sim_world n /\ random Examples.sim_world n < 1) /\
  (let batch := fst (generateLocationAwareSimulation
                       Examples.sim_world Examples.ikeja 8 Examples.sim_start) in
   (2 <= length batch <= 4)%nat /\
   Forall (well_simulated 8) batch /\
   map (fun c => (severity c, speed c)) batch
   = [(moderate, JS.int 25); (moderate, JS.int 22); (high, JS.int 19)]) /\
  (let batch := fst (generateLocationAwareSimulation
                       Examples.sim_world Examples.ikeja 23 Examples.sim_start) in
   (2 <= length batch <= 4)%nat /\
   Forall (well_simulated 23) batch /\
   map (fun c => (severity c, speed c)) batch
   = [(low, JS.int 48); (low, JS.int 57); (low, JS.int 47)]).
Proof.
  split; [exact sample_draws_in_range|]. split.
  - destruct (simulation_by_hour Examples.sim_world sample_draws_in_range
                Examples.ikeja 8 Examples.sim_start) as [Hlen Hall].
    split; [exact Hlen|]. split; [exact Hall|]. vm_compute. reflexivity.
  - destruct (simulation_by_hour Examples.sim_world sample_draws_in_range
                Examples.ikeja 23 Examples.sim_start) as [Hlen Hall].
    split; [exact Hlen|]. split; [exact Hall|]. vm_compute. reflexivity.
Defined.

End SimulationSample.

(* ================================================================== *)
(** * The two great-circle distances and the one radius *)
(* ================================================================== *)

Section Haversine.

Local Open Scope R_scope.

Lemma degrees_to_radians (x : R) : x * PI / 180 = SupabaseService.toRadians x.
Proof. unfold SupabaseService.toRadians. field. Qed.

Lemma calculateDistance_ratio (lat1 lng1 lat2 lng2 : R) :
  TrafficService.calculateDistance lat1 lng1 lat2 lng2
  = 6371 / 3959 * SupabaseService.calculateDistance lat1 lng1 lat2 lng2.
Proof.
  unfold TrafficService.calculateDistance, SupabaseService.calculateDistance.
  cbv zeta. rewrite !degrees_to_radians. field.
Qed.

Lemma withinRadius_rescaled (center : R * R) (radius : R) (point : R * R) :
  TrafficService.withinRadius center radius point
  = SupabaseService.withinRadius center (radius * 3959 / 6371) point.
Proof.
  unfold TrafficService.withinRadius, SupabaseService.withinRadius.
  rewrite calculateDistance_ratio.
  destruct (Rle_dec _ radius) as [H1 | H1], (Rle_dec _ (radius * 3959 / 6371)) as [H2 | H2];
    try reflexivity; exfalso; Lra.lra.
Qed.

Lemma atan2_up : Math_atan2 1 0 = PI / 2.
Proof.
  unfold Math_atan2.
  destruct (Rlt_dec 0 0) as [H | _]; [Lra.lra|].
  destruct (Rlt_dec 0 1) as [_ | H]; [reflexivity | Lra.lra].
Qed.

(** From a point of the equator to the opposite one: half the circumference. *)
Lemma antipodal_miles : SupabaseService.calculateDistance 0 0 0 180 = 3959 * PI.
Proof.
  unfold SupabaseService.calculateDistance, SupabaseService.toRadians. cbv zeta.
  replace ((0 - 0) * (PI / 180) / 2) with 0 by field.
  replace ((180 - 0) * (PI / 180) / 2) with (PI / 2) by field.
  replace (0 * (PI / 180)) with 0 by field.
  rewrite sin_0, cos_0, sin_PI2.
  replace (0 * 0 + 1 * 1 * 1 * 1) with 1 by ring.
  replace (1 - 1) with 0 by ring.
  rewrite sqrt_1, sqrt_0, atan2_up. field.
Qed.

Lemma PI_between : 3 < PI /\ PI <= 4.
Proof.
  split; [|exact PI_4]. pose proof PI2_3_2. Lra.lra.
Qed.


End Haversine.

(* ================================================================== *)
(** * The response validator *)
(* ================================================================== *)

Section Validator.

Import JSFacts TogetherAIService Spec.

(** Clamping a number that is not NaN lands in the interval. *)
Lemma clamp_within (lo hi : Q) (n : number) :
  lo <= hi -> n <> NaN -> within lo hi (JS.min (JS.max n (Fin lo)) (Fin hi)).
Proof.
  intros Hle Hn. unfold within.
  destruct n as [q | | |]; [| | |contradiction].
  - unfold JS.max.
    destruct (JS.leb (Fin q) (Fin lo)) eqn:E1.
    + unfold JS.min. destruct (JS.leb (Fin lo) (Fin hi)) eqn:E2.
      * split; [apply leb_Fin; lra | exact E2].
      * apply leb_Fin_false in E2. lra.
    + apply leb_Fin_false in E1. unfold JS.min.
      destruct (JS.leb (Fin q) (Fin hi)) eqn:E2.
      * split; [apply leb_Fin; lra | exact E2].
      * apply leb_Fin_false in E2. split; apply leb_Fin; lra.
  - simpl. split; [apply leb_Fin; exact Hle | apply leb_Fin; lra].
  - simpl. assert (E : JS.leb (Fin lo) (Fin hi) = true) by (apply leb_Fin; exact Hle).
    simpl in E. rewrite E. simpl. split; [apply Qle_bool_iff; lra | exact E].
Qed.

(** A field that stands for a number converts to one, with its default. *)
Lemma numeric_field_converts (v : option json) (fallback : Q) :
  numeric_field v -> ToNumber (or_default v (JNumber (Fin fallback))) <> NaN.
Proof.
  unfold numeric_field, or_default.
  destruct v as [[| b | n | s | items | members]|]; intros H; try discriminate.
  - destruct b; discriminate.
  - simpl. destruct n as [q | | |]; simpl; try discriminate.
    destruct (negb (Qeq_bool q 0)); discriminate.
  - destruct (ToBoolean (JString s)); [exact H | discriminate].
  - exact H.
  - exact H.
Qed.

(** A zero is falsy, however it is written. *)
Lemma zero_is_missing (q : Q) (fallback : json) :
  q == 0 -> or_default (Some (JNumber (Fin q))) fallback = fallback.
Proof.
  intros Hq. unfold or_default. simpl.
  apply Qeq_bool_iff in Hq. rewrite Hq. reflexivity.
Qed.




End Validator.

(* ================================================================== *)
(** * Texts, patterns and Plus Codes *)
(* ================================================================== *)

Module TextFacts.

Import Terms.

Lemma afterWhiteSpace_shorter s r :
  JSString.afterWhiteSpace s = Some r -> (String.length r < String.length s)%nat.
Proof.
  destruct s as [|c1 [|c2 [|c3 s3]]]; simpl; try discriminate.
  - destruct (JSString.asciiSpace c1); [|discriminate].
    intros H; inversion H; simpl; lia.
  - destruct (JSString.asciiSpace c1); [intros H; inversion H; simpl; lia|].
    destruct (_ && _); [intros H; inversion H; simpl; lia | discriminate].
  - destruct (JSString.asciiSpace c1); [intros H; inversion H; simpl; lia|].
    destruct (_ && _); [intros H; inversion H; simpl; lia |].
    destruct (JSString.whiteSpace3 _ _ _); [intros H; inversion H; simpl; lia | discriminate].
Qed.

Lemma trimStart_from_enough fuel s :
  (String.length s <= fuel)%nat ->
  JSString.trimStart_from fuel s = JSString.trimStart s.
Proof.
  unfold JSString.trimStart.
  remember (String.length s) as n eqn:Hn.
  revert fuel s Hn.
  induction n as [n IH] using lt_wf_ind. intros fuel s Hn Hle.
  destruct fuel as [|fuel].
  - assert (n = 0%nat) by lia. subst n. rewrite H. reflexivity.
  - destruct n as [|n].
    + destruct s; [reflexivity | discriminate].
    + simpl. destruct (JSString.afterWhiteSpace s) as [r|] eqn:E; [|reflexivity].
      pose proof (afterWhiteSpace_shorter _ _ E) as Hlt.
      rewrite (IH (String.length r)) with (fuel := fuel); try lia; try reflexivity.
      rewrite (IH (String.length r)) with (fuel := n); try lia; reflexivity.
Qed.

Lemma trimStart_unfold s :
  JSString.trimStart s =
  match JSString.afterWhiteSpace s with
  | Some r => JSString.trimStart r
  | None => s
  end.
Proof.
  unfold JSString.trimStart at 1.
  destruct s as [|c s'].
  - reflexivity.
  - cbn [String.length JSString.trimStart_from].
    destruct (JSString.afterWhiteSpace (String c s')) as [r|] eqn:E; [|reflexivity].
    apply trimStart_from_enough.
    pose proof (afterWhiteSpace_shorter _ _ E) as Hlt. simpl in Hlt. lia.
Qed.

Lemma append_cons c s t : String c s +:+ t = String c (s +:+ t).
Proof. reflexivity. Qed.

Lemma append_nil t : EmptyString +:+ t = t.
Proof. reflexivity. Qed.

Ltac push_append := rewrite ?append_cons, ?append_nil.

Lemma codeChar_not_space c r :
  codeChar c = true -> JSString.afterWhiteSpace (String c r) = None.
Proof.
  intros H.
  destruct c as [[] [] [] [] [] [] [] []]; try discriminate H;
    destruct r as [|c2 [|c3 r3]]; reflexivity.
Qed.

Lemma afterWhiteSpace_head s r :
  JSString.afterWhiteSpace s = Some r ->
  exists c s', s = String c s' /\ codeChar c = false.
Proof.
  destruct s as [|c s']; [discriminate|].
  intros H. exists c, s'. split; [reflexivity|].
  destruct (codeChar c) eqn:E; [|reflexivity].
  rewrite (codeChar_not_space c s' E) in H. discriminate.
Qed.

Lemma whiteSpace3_comma_2 a c : JSString.whiteSpace3 a 44 c = false.
Proof.
  unfold JSString.whiteSpace3.
  destruct (a =? 225)%nat, (a =? 226)%nat, (a =? 227)%nat, (a =? 239)%nat; reflexivity.
Qed.

Lemma whiteSpace3_comma_3 a b : JSString.whiteSpace3 a b 44 = false.
Proof.
  unfold JSString.whiteSpace3.
  destruct (a =? 225)%nat, (a =? 226)%nat, (a =? 227)%nat, (a =? 239)%nat,
           (b =? 154)%nat, (b =? 128)%nat, (b =? 129)%nat, (b =? 187)%nat; reflexivity.
Qed.

Lemma afterWhiteSpace_comma s t :
  JSString.afterWhiteSpace (s +:+ String "," t)
  = (fun r => r +:+ String "," t) <$> JSString.afterWhiteSpace s.
Proof.
  destruct s as [|c1 [|c2 [|c3 s3]]]; push_append; cbn [JSString.afterWhiteSpace].
  - destruct t as [|c2 [|c3 t3]]; reflexivity.
  - destruct (JSString.asciiSpace c1); [reflexivity|].
    change (JSString.byte ",") with 44%nat.
    rewrite andb_false_r.
    destruct t as [|c3 t3]; [reflexivity|].
    rewrite whiteSpace3_comma_2. reflexivity.
  - destruct (JSString.asciiSpace c1); [reflexivity|].
    destruct (_ && _); [reflexivity|].
    change (JSString.byte ",") with 44%nat.
    rewrite whiteSpace3_comma_3. reflexivity.
  - destruct (JSString.asciiSpace c1); [reflexivity|].
    destruct (_ && _); [reflexivity|].
    destruct (JSString.whiteSpace3 _ _ _); reflexivity.
Qed.

Lemma takeWhile_comma s t :
  takeWhile codeChar (s +:+ String "," t) = takeWhile codeChar s.
Proof.
  induction s as [|c s IH]; [reflexivity|].
  push_append. cbn [takeWhile]. rewrite IH. reflexivity.
Qed.

(** Text after a comma has no part in the Plus Code characters a text
    starts with. *)
Lemma codePrefix_comma s t : codePrefix (s +:+ String "," t) = codePrefix s.
Proof.
  unfold codePrefix.
  remember (String.length s) as n eqn:Hn. revert s Hn.
  induction n as [n IH] using lt_wf_ind. intros s Hn.
  rewrite (trimStart_unfold (s +:+ String "," t)), (trimStart_unfold s).
  rewrite afterWhiteSpace_comma.
  destruct (JSString.afterWhiteSpace s) as [r|] eqn:E; cbn [fmap option_fmap option_map].
  - apply (IH (String.length r)); [|reflexivity].
    pose proof (afterWhiteSpace_shorter _ _ E). lia.
  - apply takeWhile_comma.
Qed.

Lemma blank_head c s :
  JSString.blank (String c s) = true -> codeChar c = false.
Proof.
  unfold JSString.blank. rewrite trimStart_unfold.
  destruct (JSString.afterWhiteSpace (String c s)) as [r|] eqn:E; [|discriminate].
  intros _. destruct (afterWhiteSpace_head _ _ E) as (c' & s' & Heq & Hc).
  inversion Heq; subst. exact Hc.
Qed.

Lemma takeWhile_trimEnd s :
  takeWhile codeChar (JSString.trimEnd s) = takeWhile codeChar s.
Proof.
  induction s as [|c s IH]; [reflexivity|].
  cbn [JSString.trimEnd].
  destruct (JSString.blank (String c s)) eqn:E.
  - cbn [takeWhile]. rewrite (blank_head _ _ E). reflexivity.
  - cbn [takeWhile]. rewrite IH. reflexivity.
Qed.

Lemma codePrefix_trim text :
  takeWhile codeChar (JSString.trim text) = codePrefix text.
Proof. apply takeWhile_trimEnd. Qed.

(** ** Patterns *)

Lemma repeat_then_weaken class (next1 next2 : string -> bool) :
  (forall s, next1 s = true -> next2 s = true) ->
  forall atMost atLeast s,
    RegExp.repeat_then class next1 atLeast atMost s = true ->
    RegExp.repeat_then class next2 atLeast atMost s = true.
Proof.
  intros Hnext. induction atMost as [|atMost IH]; intros atLeast s; cbn [RegExp.repeat_then].
  - rewrite !andb_true_iff. intros [? ?]. auto.
  - rewrite !orb_true_iff, !andb_true_iff. intros [H | [? ?]]; [left | right; auto].
    destruct s as [|a s']; [discriminate|].
    apply andb_true_iff in H as [Ha H]. rewrite Ha. simpl. eauto.
Qed.

Lemma matchItems_to_end items s :
  RegExp.matchItems items true s = true -> RegExp.matchItems items false s = true.
Proof.
  revert s. induction items as [|[class atLeast atMost | c] items IH]; intros s;
    cbn [RegExp.matchItems].
  - reflexivity.
  - apply repeat_then_weaken. exact IH.
  - destruct s as [|a s']; [discriminate|].
    rewrite !andb_true_iff. intros [? ?]. auto.
Qed.

Lemma repeat_then_takeWhile p class (next : string -> bool) :
  (forall c, class c = true -> p c = true) ->
  (forall s, next s = next (takeWhile p s)) ->
  forall atMost atLeast s,
    RegExp.repeat_then class next atLeast atMost s
    = RegExp.repeat_then class next atLeast atMost (takeWhile p s).
Proof.
  intros Hclass Hnext. induction atMost as [|atMost IH]; intros atLeast s;
    cbn [RegExp.repeat_then].
  - rewrite (Hnext s). reflexivity.
  - rewrite (Hnext s). destruct s as [|a s']; [reflexivity|].
    cbn [takeWhile]. destruct (p a) eqn:Ep.
    + rewrite (IH (pred atLeast) s'). reflexivity.
    + destruct (class a) eqn:Ec; [rewrite (Hclass a Ec) in Ep; discriminate|].
      reflexivity.
Qed.

(** A pattern open at the end, written in the characters of [p], looks
    no further than the run of such characters the text starts with. *)
Lemma matchItems_takeWhile p items :
  Forall (item_within p) items ->
  forall s, RegExp.matchItems items false s
            = RegExp.matchItems items false (takeWhile p s).
Proof.
  induction 1 as [|[class atLeast atMost | c] items Hitem Hitems IH]; intros s;
    cbn [RegExp.matchItems].
  - reflexivity.
  - apply repeat_then_takeWhile; [exact Hitem | exact IH].
  - simpl in Hitem. destruct s as [|a s']; [reflexivity|].
    cbn [takeWhile]. destruct (p a) eqn:Ep.
    + rewrite (IH s'). reflexivity.
    + destruct (Ascii.eqb a c) eqn:Eac; [|reflexivity].
      apply Ascii.eqb_eq in Eac. subst a. congruence.
Qed.

Lemma plusCodeItems_within : Forall (item_within codeChar) plusCodeItems.
Proof.
  unfold plusCodeItems, codeChar.
  repeat constructor; simpl; intros; try (rewrite H); reflexivity.
Qed.

(** [isPlusCode] comes down to the open pattern on the Plus Code characters
    the text starts with: the closed pattern adds nothing, and neither does
    the trimming of the end. *)
Lemma isPlusCode_codePrefix text :
  GoogleMapsService.isPlusCode text
  = RegExp.matchItems plusCodeItems false (codePrefix text).
Proof.
  unfold GoogleMapsService.isPlusCode, RegExp.test.
  cbn [RegExp.items RegExp.toEnd]. fold plusCodeItems.
  rewrite <- codePrefix_trim.
  rewrite <- (matchItems_takeWhile codeChar plusCodeItems plusCodeItems_within).
  destruct (RegExp.matchItems plusCodeItems true (JSString.trim text)) eqn:E.
  - symmetry. apply matchItems_to_end. exact E.
  - destruct (RegExp.matchItems plusCodeItems false (JSString.trim text)); reflexivity.
Qed.

Lemma isPlusCode_comma s t :
  GoogleMapsService.isPlusCode (s +:+ ", " +:+ t) = GoogleMapsService.isPlusCode s.
Proof.
  rewrite !isPlusCode_codePrefix.
  change (", " +:+ t) with (String "," (String " " t)).
  rewrite codePrefix_comma. reflexivity.
Qed.

Lemma repeat_then_spec class (next : string -> bool) :
  forall atMost atLeast s,
    RegExp.repeat_then class next atLeast atMost s = true <->
    exists run rest,
      s = run +:+ rest /\ every class run = true /\
      (atLeast <= String.length run <= atMost)%nat /\ next rest = true.
Proof.
  induction atMost as [|atMost IH]; intros atLeast s; cbn [RegExp.repeat_then].
  - rewrite andb_true_iff, Nat.eqb_eq. split.
    + intros [-> Hn]. exists EmptyString, s. simpl. auto with lia.
    + intros (run & rest & -> & _ & Hlen & Hn).
      destruct run; simpl in *; [split; [lia | exact Hn] | lia].
  - rewrite orb_true_iff, andb_true_iff, Nat.eqb_eq. split.
    + intros [H | [-> Hn]].
      * destruct s as [|a s']; [discriminate|].
        apply andb_true_iff in H as [Ha H]. apply IH in H.
        destruct H as (run & rest & -> & Hrun & Hlen & Hn).
        exists (String a run), rest. push_append. simpl. rewrite Ha, Hrun.
        repeat split; auto; lia.
      * exists EmptyString, s. simpl. auto with lia.
    + intros (run & rest & -> & Hrun & Hlen & Hn).
      destruct run as [|a run]; push_append; simpl in *.
      * right. split; [lia | exact Hn].
      * left. apply andb_true_iff in Hrun as [Ha Hrun]. rewrite Ha. simpl.
        apply IH. exists run, rest. repeat split; auto; lia.
Qed.

End TextFacts.

Section PlusCodes.

Import Terms TextFacts GoogleMapsService.

(** X1.  A text is taken for a Plus Code exactly when, after its leading
    white space, it starts with two to eight Plus Code letters, a plus sign
    and two more Plus Code letters; what follows does not matter. *)
Theorem isPlusCode_shape :
  forall text,
    isPlusCode text = true <->
    exists area local rest,
      JSString.trimStart text = area +:+ "+" +:+ local +:+ rest /\
      (2 <= String.length area <= 8)%nat /\ String.length local = 2%nat /\
      every plusCodeLetter area = true /\ every plusCodeLetter local = true.
Proof.
  intros text. rewrite isPlusCode_codePrefix. unfold codePrefix.
  rewrite <- (matchItems_takeWhile codeChar plusCodeItems plusCodeItems_within).
  generalize (JSString.trimStart text). clear text. intros s.
  unfold plusCodeItems. cbn [RegExp.matchItems].
  rewrite repeat_then_spec. split.
  - intros (area & tail & -> & Harea & Hlen & Hnext).
    destruct tail as [|a tail]; [discriminate|].
    apply andb_true_iff in Hnext as [Ha Hnext]. apply Ascii.eqb_eq in Ha. subst a.
    apply repeat_then_spec in Hnext.
    destruct Hnext as (run & rest & -> & Hrun & Hlen2 & _).
    destruct run as [|c1 [|c2 run]]; simpl in Hlen2; try lia.
    simpl in Hrun. apply andb_true_iff in Hrun as [H1 Hrun].
    apply andb_true_iff in Hrun as [H2 Hrun].
    exists area, (String c1 (String c2 EmptyString)), (run +:+ rest).
    split; [reflexivity|]. split; [exact Hlen|]. split; [reflexivity|].
    split; [exact Harea|]. simpl. rewrite H1, H2. reflexivity.
  - intros (area & local & rest & -> & Hlen & Hlen2 & Harea & Hlocal).
    exists area, ("+" +:+ local +:+ rest). split; [reflexivity|].
    split; [exact Harea|]. split; [exact Hlen|].
    push_append. rewrite Ascii.eqb_refl. cbn [andb].
    apply repeat_then_spec. exists local, rest.
    split; [reflexivity|]. split; [exact Hlocal|]. split; [lia | reflexivity].
Qed.

Lemma isPlusCode_shape_witness :
  isPlusCode "  8Q7X+2F Lagos" = true.
Proof.
  apply (proj2 (isPlusCode_shape "  8Q7X+2F Lagos")).
  exists "8Q7X", "2F", " Lagos". repeat split; vm_compute; auto.
Defined.

Lemma formatLocationForDisplay_not_plus_code address placeName :
  isPlusCode (formatLocationForDisplay address placeName) = false.
Proof.
  unfold formatLocationForDisplay.
  assert (Hunknown : isPlusCode "Unknown Location" = false) by (vm_compute; reflexivity).
  destruct (isPlusCode address) eqn:Ea.
  - destruct placeName as [name|]; [|exact Hunknown].
    destruct (JSString.truthy name && negb (isPlusCode name)) eqn:En; [|exact Hunknown].
    apply andb_true_iff in En as [_ En]. apply negb_true_iff in En. exact En.
  - destruct placeName as [name|]; [|exact Ea].
    destruct (JSString.truthy name && negb (String.eqb name address)
              && negb (isPlusCode name)) eqn:En; [|exact Ea].
    apply andb_true_iff in En as [_ En]. apply negb_true_iff in En.
    destruct (_ && _); [exact En|]. destruct (_ || _); assumption.
Qed.

(** X2.  [formatLocationForDisplay] never shows a Plus Code: it answers
    with the address, with the place name or with "Unknown Location", and
    whichever it is, [isPlusCode] rejects it.  The placeholder is only
    shown for an address that is a Plus Code. *)
Theorem formatLocationForDisplay_readable :
  forall address placeName,
    let shown := formatLocationForDisplay address placeName in
    isPlusCode shown = false /\
    (shown = address \/ placeName = Some shown \/ shown = "Unknown Location") /\
    (isPlusCode address = false -> shown = address \/ placeName = Some shown).
Proof.
  intros address placeName. cbv zeta.
  split; [apply formatLocationForDisplay_not_plus_code|].
  unfold formatLocationForDisplay.
  destruct (isPlusCode address) eqn:Ea.
  - destruct placeName as [name|]; [|split; [auto | discriminate]].
    destruct (JSString.truthy name && negb (isPlusCode name));
      (split; [auto | discriminate]).
  - destruct placeName as [name|]; [|split; auto].
    destruct (JSString.truthy name && negb (String.eqb name address)
              && negb (isPlusCode name)); [|split; auto].
    destruct (_ && _); [split; auto|].
    destruct (_ || _); split; auto.
Qed.

Lemma readable_spec name :
  readable name = true ->
  exists text, name = Some text /\ isPlusCode text = false.
Proof.
  destruct name as [text|]; [|discriminate]. simpl.
  intros H. apply andb_true_iff in H as [_ H]. apply negb_true_iff in H. eauto.
Qed.

Lemma fromPreferredTypes_readable types addressComponents name :
  fromPreferredTypes types addressComponents = Some name -> isPlusCode name = false.
Proof.
  induction types as [|preferredType rest IH]; [discriminate|].
  cbn [fromPreferredTypes].
  destruct (List.find _ addressComponents) as [component|] eqn:E; [|exact IH].
  apply find_some in E as [_ E].
  apply andb_true_iff in E as [E _]. apply andb_true_iff in E as [_ E].
  apply negb_true_iff in E.
  intros H. inversion H; subst name; clear H.
  repeat match goal with |- context [if ?b then _ else _] => destruct b end;
    rewrite ?isPlusCode_comma; exact E.
Qed.

Lemma getReadableLocationName_readable result :
  isPlusCode (getReadableLocationName result) = false.
Proof.
  unfold getReadableLocationName.
  destruct (isPlusCode (geocoded_address result)) eqn:Ea; [|exact Ea].
  destruct (fromPreferredTypes _ _) as [name|] eqn:E.
  { eapply fromPreferredTypes_readable. exact E. }
  set (locality := long_name <$> componentOfType "locality" _).
  set (adminArea := long_name <$> componentOfType "administrative_area_level_1" _).
  set (country := long_name <$> componentOfType "country" _).
  destruct (readable locality) eqn:El.
  { destruct (readable_spec _ El) as (l & -> & Hl). simpl.
    repeat match goal with |- context [if ?b then _ else _] => destruct b end;
      rewrite ?isPlusCode_comma; exact Hl. }
  destruct (readable adminArea) eqn:Ead.
  { destruct (readable_spec _ Ead) as (a & -> & Ha). simpl.
    destruct (readable country); rewrite ?isPlusCode_comma; exact Ha. }
  destruct (readable country) eqn:Ec.
  { destruct (readable_spec _ Ec) as (c & -> & Hc). exact Hc. }
  vm_compute. reflexivity.
Qed.

Lemma firstReadableName_readable results name :
  firstReadableName results = Some name -> isPlusCode name = false.
Proof.
  induction results as [|result rest IH]; [discriminate|].
  cbn [firstReadableName].
  destruct (_ && _); [|exact IH].
  intros H. inversion H. apply getReadableLocationName_readable.
Qed.

(** X3.  Reverse geocoding never answers with a Plus Code: the readable
    name made of one geocoder result is none, and neither is the address
    [reverseGeocode] resolves with, whatever the geocoder returned. *)
Theorem reverseGeocode_never_plus_code :
  (forall result, isPlusCode (getReadableLocationName result) = false) /\
  (forall reply address,
      reverseGeocode reply = Resolved (Some address) -> isPlusCode address = false).
Proof.
  split; [exact getReadableLocationName_readable|].
  intros reply address. unfold reverseGeocode.
  destruct reply as [message | st results]; [discriminate|].
  destruct results as [[|first others]|]; try discriminate.
  destruct (String.eqb st "OK"); [|discriminate].
  cbv zeta.
  match goal with
  | |- Resolved (match ?best with _ => _ end) = _ -> _ =>
      remember best as bestAddress eqn:Hbest
  end.
  assert (Hname : forall name, bestAddress = Some name -> isPlusCode name = false).
  { intros name Hn. rewrite Hbest in Hn. clear Hbest.
    destruct (List.filter _ _) as [|bestResult ?].
    - eapply firstReadableName_readable. exact Hn.
    - inversion Hn. apply getReadableLocationName_readable. }
  clear Hbest. intros H.
  destruct bestAddress as [[|c a]|]; injection H as <-.
  - apply getReadableLocationName_readable.
  - apply Hname. reflexivity.
  - apply getReadableLocationName_readable.
Qed.

(** A result whose address is a Plus Code and whose components name a
    neighbourhood. *)
Lemma reverseGeocode_never_plus_code_witness :
  reverseGeocode Examples.geocoded_plus_code = Resolved (Some "Ikeja GRA, Ikeja, LA") /\
  isPlusCode "Ikeja GRA, Ikeja, LA" = false.
Proof.
  assert (H : reverseGeocode Examples.geocoded_plus_code
              = Resolved (Some "Ikeja GRA, Ikeja, LA")) by (vm_compute; reflexivity).
  split; [exact H|].
  exact (proj2 reverseGeocode_never_plus_code _ _ H).
Defined.

(** A Plus Code address with a name to show instead, and one without. *)
Lemma formatLocationForDisplay_readable_witness :
  formatLocationForDisplay "8Q7X+2F Lagos" (Some "Ikeja City Mall") = "Ikeja City Mall" /\
  formatLocationForDisplay "8Q7X+2F Lagos" None = "Unknown Location" /\
  isPlusCode (formatLocationForDisplay "8Q7X+2F Lagos" (Some "FGX6+58X")) = false.
Proof.
  split; [vm_compute; reflexivity|]. split; [vm_compute; reflexivity|].
  exact (proj1 (formatLocationForDisplay_readable "8Q7X+2F Lagos" (Some "FGX6+58X"))).
Defined.

End PlusCodes.

(* ================================================================== *)
(** * Better-route panel *)
(* ================================================================== *)

Module OrderFacts.

(** The order of numbers other than NaN. *)
Lemma gtb_not_NaN (a b : number) : (a >? b)%js = true -> a <> NaN /\ b <> NaN.
Proof. destruct a, b; simpl; intros H; split; congruence. Qed.

Lemma leb_refl (a : number) : a <> NaN -> (a <=? a)%js = true.
Proof.
  destruct a; simpl; try congruence. intros _. apply Qle_bool_iff. apply Qle_refl.
Qed.

Lemma ltb_false_leb (a b : number) :
  a <> NaN -> b <> NaN -> (a <? b)%js = false -> (b <=? a)%js = true.
Proof.
  destruct a, b; simpl; try congruence; intros _ _ H.
  apply negb_false_iff in H. exact H.
Qed.

Lemma leb_ltb_trans (a b c : number) :
  (a <=? b)%js = true -> (b <? c)%js = true -> (a <=? c)%js = true.
Proof.
  destruct a as [x| | |], b as [y| | |], c as [z| | |]; simpl; try congruence; intros H1 H2.
  apply Qle_bool_iff in H1. apply negb_true_iff in H2.
  apply Qle_bool_iff. destruct (Qlt_le_dec y z) as [Hlt | Hle].
  - apply Qlt_le_weak. eapply Qle_lt_trans; eassumption.
  - apply Qle_bool_iff in Hle. congruence.
Qed.

Lemma leb_trans (a b c : number) :
  (a <=? b)%js = true -> (b <=? c)%js = true -> (a <=? c)%js = true.
Proof.
  destruct a as [x| | |], b as [y| | |], c as [z| | |]; simpl; try congruence; intros H1 H2.
  apply Qle_bool_iff in H1, H2. apply Qle_bool_iff. eapply Qle_trans; eassumption.
Qed.

End OrderFacts.

Section BetterRoutes.

Import JSFacts ArrayFacts OrderFacts RouteService AlternativeRoutes Spec.

Lemma filter_from_nil {A} (p : nat -> A -> bool) :
  forall xs k,
    (forall j x, xs !! j = Some x -> p (k + j)%nat x = false) ->
    filter_from p k xs = [].
Proof.
  induction xs as [|x xs IH]; intros k H; [reflexivity|].
  cbn [filter_from].
  rewrite <- (Nat.add_0_r k) at 1. rewrite (H 0%nat x eq_refl).
  apply IH. intros j y Hy. replace (S k + j)%nat with (k + S j)%nat by lia.
  apply H. exact Hy.
Qed.

(** In a scored batch whose first route carries savings, every other route
    takes longer in traffic than the first. *)
Lemma savings_mean_slower_others alternatives batch main s :
  scoreRoutes alternatives = Resolved batch ->
  (forall route leg, In route alternatives -> In leg (GoogleMapsService.legs route) ->
                     finite_leg leg) ->
  batch !! 0%nat = Some main -> savings main = Some s ->
  forall j r, j <> 0%nat -> batch !! j = Some r ->
    (durationWithTraffic main <? durationWithTraffic r)%js = true.
Proof.
  intros Hscore Hfin Hmain Hs j r Hj Hr.
  unfold scoreRoutes in Hscore.
  destruct (map_from convertRoute 0 alternatives) as [rs|e] eqn:E;
    simpl in Hscore; [|discriminate].
  pose proof (converted_tail_plain _ _ E) as Htail.
  pose proof (converted_integral _ _ E Hfin) as Hint.
  destruct rs as [|r0 rest].
  { simpl in Hscore. injection Hscore as <-. discriminate. }
  rewrite (savings_loop_head r0 rest Htail) in Hscore.
  destruct (isRecommended r0) eqn:Erec.
  - destruct (calculateSavings (r0 :: rest) 0) as [s0|?] eqn:Ecalc;
      simpl in Hscore; [|discriminate].
    injection Hscore as <-. simpl in Hmain. injection Hmain as <-. simpl in Hs.
    subst s0.
    destruct rest as [|r1 rest'].
    { unfold calculateSavings in Ecalc. simpl in Ecalc. discriminate. }
    destruct (calculateSavings_spec (r0 :: r1 :: rest') 0 r0) as (m & Hm & _ & Hcalc);
      [simpl; lia | reflexivity | exact Hint |].
    rewrite Hcalc in Ecalc. injection Ecalc as Ecalc.
    unfold savings_against in Ecalc.
    destruct (m - durationWithTraffic r0 >? Fin 0)%js eqn:Egap; [|discriminate].
    destruct Hm as [(j' & r' & Hj' & Hr' & Hm') Hmin].
    destruct j as [|j]; [contradiction|]. simpl in Hr.
    specialize (Hmin (S j) r Hj Hr).
    destruct (Hint 0%nat r0 eq_refl) as (a & Ha).
    destruct (Hint j' r' Hr') as (b & Hb).
    destruct (Hint (S j) r Hr) as (c & Hc).
    simpl. rewrite Ha, Hc. rewrite <- Hm', Hb, Ha in Egap. rewrite <- Hm', Hb, Hc in Hmin.
    rewrite int_sub in Egap. change (Fin 0) with (JS.int 0) in Egap.
    unfold JS.gtb in Egap. apply ltb_int in Egap. apply leb_int in Hmin.
    apply ltb_int. lia.
  - injection Hscore as <-. simpl in Hmain. injection Hmain as <-.
    rewrite (converted_savings_None _ _ 0%nat r0 E eq_refl) in Hs. discriminate.
Qed.

(** What the filter and the map of the panel keep. *)
Lemma alternatives_listed_gap :
  (forall providedRoutes, alternativeRoutes providedRoutes None = []) /\
  (forall providedRoutes main alternative,
      In alternative (routesWithSavings providedRoutes (Some main)) ->
      (exists j, (1 <= j)%nat /\ providedRoutes !! j = Some (route alternative)) /\
      timeSavings alternative
      = (durationWithTraffic main - durationWithTraffic (route alternative))%js /\
      (timeSavings alternative >? Fin 0)%js = true).
Proof.
  split.
  - intros providedRoutes. unfold alternativeRoutes.
    apply filter_from_nil. reflexivity.
  - intros providedRoutes main alternative Hin.
    unfold routesWithSavings in Hin. apply in_map_iff in Hin.
    destruct Hin as (r & <- & Hin). unfold alternativeRoutes in Hin.
    apply filter_from_In in Hin. destruct Hin as (j & Hj & Hp).
    simpl in Hp. destruct j as [|j]; [discriminate|]. simpl in Hp.
    split; [exists (S j); split; [lia | exact Hj]|]. split; [reflexivity | exact Hp].
Qed.

(** X4.  The panel lists a route only if it comes after the first and takes
    less time in traffic than the main route, [timeSavings] being that gap;
    without a main route it lists nothing.  And in a batch returned by
    [calculateRoutes] (leg durations being ordinary numbers), shown with its
    first route as the main one, a first route that carries savings leaves
    the panel empty. *)
Theorem alternatives_save_time :
  (forall providedRoutes, alternativeRoutes providedRoutes None = []) /\
  (forall providedRoutes main alternative,
      In alternative (routesWithSavings providedRoutes (Some main)) ->
      (exists j, (1 <= j)%nat /\ providedRoutes !! j = Some (route alternative)) /\
      timeSavings alternative
      = (durationWithTraffic main - durationWithTraffic (route alternative))%js /\
      (timeSavings alternative >? Fin 0)%js = true) /\
  (forall request places reply,
      finite_reply reply ->
      let batch := routes (calculateRoutes request places reply) in
      forall main s,
        batch !! 0%nat = Some main -> savings main = Some s ->
        routesWithSavings batch (Some main) = []).
Proof.
  split; [exact (proj1 alternatives_listed_gap)|].
  split; [exact (proj2 alternatives_listed_gap)|].
  intros request places reply Hfinite batch main s Hmain Hs.
  destruct (calculateRoutes_routes _ _ _ _ _ Hmain) as (st & alts & Hreply & Hscore).
  fold batch in Hscore.
  assert (Hfin : forall route leg, In route alts ->
                   In leg (GoogleMapsService.legs route) -> finite_leg leg).
  { intros route leg. apply (Hfinite st alts route leg Hreply). }
  pose proof (savings_mean_slower_others alts batch main s Hscore Hfin Hmain Hs)
    as Hslower.
  unfold routesWithSavings, alternativeRoutes.
  rewrite filter_from_nil; [reflexivity|].
  intros j r Hr. simpl. destruct j as [|j]; [reflexivity|]. simpl.
  specialize (Hslower (S j) r ltac:(lia) Hr).
  destruct (durationWithTraffic main) as [a| | |], (durationWithTraffic r) as [c| | |];
    simpl in *; try congruence.
  apply negb_true_iff in Hslower. apply negb_false_iff.
  apply Qle_bool_iff.
  destruct (Qlt_le_dec c a) as [Hlt | Hle].
  - apply Qlt_le_weak in Hlt. apply Qle_bool_iff in Hlt. congruence.
  - unfold Qminus. lra.
Qed.

(** With-traffic durations of 25, 30 and 40 minutes: the first route saves
    five minutes and the panel is empty; with 30, 25 and 40 the panel lists
    the second route. *)
Lemma alternatives_save_time_witness :
  finite_reply Examples.reply_25_30_40 /\
  (let batch := routes (calculateRoutes Examples.request Examples.places
                                        Examples.reply_25_30_40) in
   exists main, batch !! 0%nat = Some main /\ savings main = Some (Fin 5) /\
                routesWithSavings batch (Some main) = []) /\
  (let batch := routes (calculateRoutes Examples.request Examples.places
                                        Examples.reply_30_25_40) in
   exists main, batch !! 0%nat = Some main /\
                map timeSavings (routesWithSavings batch (Some main)) = [Fin 5]).
Proof.
  pose proof (proj1 (proj2 example_replies_finite)) as Hfinite.
  split; [exact Hfinite|]. split.
  - cbv zeta.
    destruct (routes (calculateRoutes Examples.request Examples.places
                                      Examples.reply_25_30_40) !! 0%nat)
      as [main|] eqn:Emain; [|vm_compute in Emain; discriminate].
    exists main.
    assert (Hs : savings main = Some (Fin 5)).
    { vm_compute in Emain. injection Emain as <-. reflexivity. }
    split; [reflexivity|]. split; [exact Hs|].
    exact (proj2 (proj2 alternatives_save_time) Examples.request Examples.places
                 Examples.reply_25_30_40 Hfinite main (Fin 5) Emain Hs).
  - cbv zeta. eexists. split; vm_compute; reflexivity.
Defined.

Lemma fold_best_spec :
  forall xs best,
    timeSavings best <> NaN ->
    (forall x, In x xs -> timeSavings x <> NaN) ->
    let pick := fun best current : AlternativeRoute =>
                  if (timeSavings current >? timeSavings best)%js then current else best in
    In (fold_left pick xs best) (best :: xs) /\
    forall x, In x (best :: xs) ->
      (timeSavings x <=? timeSavings (fold_left pick xs best))%js = true.
Proof.
  induction xs as [|y xs IH]; intros best Hbest Hxs pick.
  - simpl. split; [auto|]. intros x [<- | []]. apply leb_refl. exact Hbest.
  - cbn [fold_left].
    assert (Hy : timeSavings y <> NaN) by (apply Hxs; left; reflexivity).
    assert (Hpick : timeSavings (pick best y) <> NaN).
    { unfold pick. destruct (_ >? _)%js; assumption. }
    destruct (IH (pick best y) Hpick (fun x Hx => Hxs x (or_intror Hx))) as [Hin Hmax].
    fold pick in Hin, Hmax. split.
    + destruct Hin as [Hin | Hin]; [|right; right; exact Hin].
      rewrite <- Hin. unfold pick. destruct (_ >? _)%js; simpl; auto.
    + intros x [<- | [<- | Hx]].
      * eapply leb_trans; [|apply Hmax; left; reflexivity].
        unfold pick. destruct (timeSavings y >? timeSavings best)%js eqn:E.
        -- unfold JS.gtb in E. eapply leb_ltb_trans; [apply leb_refl; exact Hbest | exact E].
        -- apply leb_refl. exact Hbest.
      * eapply leb_trans; [|apply Hmax; left; reflexivity].
        unfold pick. destruct (timeSavings y >? timeSavings best)%js eqn:E.
        -- apply leb_refl. exact Hy.
        -- unfold JS.gtb in E. apply ltb_false_leb; assumption.
      * apply Hmax. right. exact Hx.
Qed.

(** X5.  The highlighted alternative: none when the panel is empty;
    otherwise one of the listed routes, and no listed route saves more time
    than it does.  The choice never fails. *)
Theorem best_alternative_saves_most :
  forall providedRoutes mainRoute,
    let listed := routesWithSavings providedRoutes mainRoute in
    (listed = [] /\ getBestAlternative listed = Resolved None) \/
    (exists best,
        getBestAlternative listed = Resolved (Some best) /\
        In best listed /\
        forall alternative, In alternative listed ->
          (timeSavings alternative <=? timeSavings best)%js = true).
Proof.
  intros providedRoutes mainRoute listed.
  assert (Hlisted : forall x, In x listed -> timeSavings x <> NaN).
  { intros x Hx. destruct mainRoute as [main|].
    - apply (proj2 alternatives_listed_gap providedRoutes main x) in Hx.
      destruct Hx as (_ & _ & Hgap). apply gtb_not_NaN in Hgap. tauto.
    - unfold listed, routesWithSavings in Hx.
      rewrite (proj1 alternatives_listed_gap) in Hx. destruct Hx. }
  unfold getBestAlternative.
  destruct listed as [|first others]; [left; split; reflexivity|].
  right. cbn [length Nat.eqb reduce mbind outcome_bind].
  destruct (fold_best_spec others first) as [Hin Hmax].
  { apply Hlisted. left. reflexivity. }
  { intros x Hx. apply Hlisted. right. exact Hx. }
  eexists. split; [reflexivity|]. split; [exact Hin | exact Hmax].
Qed.

(** With-traffic durations of 40, 30 and 25 minutes: the panel lists the
    second and third routes, and highlights the third, which saves 15. *)
Lemma best_alternative_saves_most_witness :
  let batch := routes (calculateRoutes Examples.request Examples.places
                                       Examples.reply_40_30_25) in
  exists best,
    getBestAlternative (routesWithSavings batch (head batch)) = Resolved (Some best) /\
    timeSavings best = Fin 15 /\
    map timeSavings (routesWithSavings batch (head batch)) = [Fin 10; Fin 15].
Proof.
  cbv zeta.
  destruct (best_alternative_saves_most
              (routes (calculateRoutes Examples.request Examples.places
                                       Examples.reply_40_30_25))
              (head (routes (calculateRoutes Examples.request Examples.places
                                             Examples.reply_40_30_25))))
    as [[Hnil _] | (best & Hbest & _)].
  - vm_compute in Hnil. discriminate.
  - exists best. split; [exact Hbest|].
    vm_compute in Hbest. injection Hbest as <-. split; vm_compute; reflexivity.
Defined.

Lemma rating_clamp (q : Q) :
  within 1 5 (JS.max (Fin 1.0) (JS.min (Fin 5.0) (Fin q))).
Proof.
  unfold within. simpl.
  destruct (Qle_bool 5.0 q) eqn:E5; simpl.
  - split; reflexivity.
  - apply (leb_Fin_false 5.0 q) in E5.
    destruct (Qle_bool 1.0 q) eqn:E1; simpl.
    + apply Qle_bool_iff in E1. split; apply Qle_bool_iff; lra.
    + split; reflexivity.
Qed.

(** What time savings add to a rating: at most one star. *)
Lemma rating_bonus (rating : Q) (savings : number) :
  exists rated,
    (if JS.truthy savings && (savings >? Fin 0)%js
     then (Fin rating + JS.min (Fin 1.0) (savings / Fin 10))%js
     else Fin rating) = Fin rated /\
    rating <= rated <= rating + 1 /\
    ((savings >? Fin 0)%js = true -> rating < rated).
Proof.
  destruct savings as [t| | |].
  - destruct (JS.truthy (Fin t) && (Fin t >? Fin 0)%js) eqn:E.
    + apply andb_true_iff in E as [_ E]. unfold JS.gtb in E.
      apply (ltb_Fin 0 t) in E.
      change (Fin t / Fin 10)%js with (Fin (t / 10)).
      unfold JS.min. destruct (JS.leb (Fin 1.0) (Fin (t / 10))) eqn:E1.
      * eexists. split; [reflexivity|]. split; [lra | intros _; lra].
      * eexists. split; [reflexivity|].
        apply (leb_Fin_false 1.0 (t / 10)) in E1.
        assert (0 < t / 10) by (apply Qlt_shift_div_l; lra).
        split; [lra | intros _; lra].
    + eexists. split; [reflexivity|]. split; [lra|].
      intros Hgt. unfold JS.gtb in Hgt.
      assert (Ht : JS.truthy (Fin t) = true).
      { simpl. apply negb_true_iff. apply (ltb_Fin 0 t) in Hgt.
        destruct (Qeq_bool t 0) eqn:Eq; [|reflexivity].
        apply Qeq_bool_iff in Eq. lra. }
      unfold JS.gtb in E. rewrite Ht, Hgt in E. discriminate.
  - eexists. split; [reflexivity|]. split; [lra | intros _; lra].
  - eexists. split; [reflexivity|]. split; [lra | discriminate].
  - eexists. split; [reflexivity|]. split; [lra | discriminate].
Qed.

(** X6.  The star rating of an alternative always lies between 1 and 5,
    whatever the route holds; and an alternative with light traffic that
    saves time is rated 5. *)
Theorem rating_between_one_and_five :
  forall alternative,
    within 1 5 (calculateRating alternative) /\
    (trafficLevel (route alternative) = low ->
     (timeSavings alternative >? Fin 0)%js = true ->
     calculateRating alternative = Fin 5.0).
Proof.
  intros alternative. unfold calculateRating. cbv zeta.
  set (level := trafficLevel (route alternative)).
  set (afterLevel := match level with
                     | low => _ | moderate => _ | high => _ | severe => _ end).
  set (afterRecommended := if isRecommended (route alternative) then _ else _).
  assert (Hrec : exists r, afterRecommended = Fin r /\
                           (level = low -> 5 <= r)).
  { unfold afterRecommended, afterLevel.
    destruct level, (isRecommended (route alternative)); eexists;
      (split; [reflexivity|]); intros Hl; try discriminate Hl; lra. }
  destruct Hrec as (r & -> & Hlow).
  destruct (rating_bonus r (timeSavings alternative)) as (rated & -> & Hrange & Hgain).
  split; [apply rating_clamp|].
  intros Hl Hgt. specialize (Hlow Hl). specialize (Hgain Hgt).
  unfold JS.min. rewrite (proj2 (leb_Fin 5.0 rated)) by lra.
  reflexivity.
Qed.

(** A low-traffic alternative saving three minutes, and a severe one. *)
Lemma rating_between_one_and_five_witness :
  calculateRating {| route := Examples.scored low false; timeSavings := Fin 3;
                     distanceDifference := Fin 0 |} = Fin 5.0.
Proof.
  apply (proj2 (rating_between_one_and_five _)); reflexivity.
Defined.

End BetterRoutes.

(* ================================================================== *)
(** * Live traffic fetch *)
(* ================================================================== *)

Section LiveFetch.

Import JSFacts ArrayFacts TrafficService Spec Terms.

Variable w : SimWorld.
Variable getHours : Z -> nat.

Lemma calculateDirections_resolved reply result :
  GoogleMapsService.calculateDirections reply = Resolved result ->
  reply = GoogleMapsService.Reply "OK" (Some (GoogleMapsService.routes result)).
Proof.
  destruct reply as [message | st [rs|]]; simpl; try discriminate.
  destruct (String.eqb st "OK") eqn:E; [|discriminate].
  apply String.eqb_eq in E. subst st. intros H. injection H as <-. reflexivity.
Qed.

Lemma realCondition_props nearbyPlaces replies i place route others leg legs inTraffic s :
  (i < 5)%nat -> nearbyPlaces !! i = Some place ->
  replies i = GoogleMapsService.Reply "OK" (Some (route :: others)) ->
  GoogleMapsService.legs route = leg :: legs ->
  GoogleMapsService.duration_in_traffic leg = Some inTraffic ->
  let c := fst (realCondition w getHours i place route leg inTraffic s) in
  from_probe nearbyPlaces replies c /\ marked_real c.
Proof.
  intros Hi Hplace Hreply Hlegs Htraffic c. subst c.
  unfold realCondition, determineTrfficCause, mbind, Sim_bind, mret, Sim_ret,
    Math_random, Date_now.
  cbn [fst snd draws ticks]. split.
  - exists i, place, route, others, leg, legs, inTraffic.
    cbv zeta. cbn [location lat lng address severity speed duration predictedDuration
                   affectedRoutes].
    repeat split; assumption.
  - unfold marked_real. cbn [id confidence timestamp location address].
    split; [apply prefix_append|]. split; [reflexivity|]. split; [eauto|].
    apply formatLocationForDisplay_not_plus_code.
Qed.

Lemma probe_props nearbyPlaces replies i place s c :
  (i < 5)%nat -> nearbyPlaces !! i = Some place ->
  fst (probe w getHours i place (replies i) s) = Some c ->
  from_probe nearbyPlaces replies c /\ marked_real c.
Proof.
  intros Hi Hplace. unfold probe.
  destruct (GoogleMapsService.calculateDirections (replies i)) as [result|e] eqn:E;
    [|discriminate].
  apply calculateDirections_resolved in E.
  destruct (_ && _); [|discriminate].
  destruct (GoogleMapsService.routes result) as [|route others]; [discriminate|].
  destruct (GoogleMapsService.legs route) as [|leg legs] eqn:Elegs; [discriminate|].
  destruct (GoogleMapsService.duration_in_traffic leg) as [inTraffic|] eqn:Et;
    [|discriminate].
  unfold mbind, Sim_bind.
  pose proof (realCondition_props nearbyPlaces replies i place route others leg legs
                inTraffic s Hi Hplace E Elegs Et) as Hc.
  destruct (realCondition w getHours i place route leg inTraffic s) as [c' s'].
  cbn [fst] in *. intros H. injection H as <-. exact Hc.
Qed.

Lemma probe_loop_props nearbyPlaces replies :
  forall n i conditions (s : SimState),
    (i + n <= 5)%nat ->
    Forall (fun c => from_probe nearbyPlaces replies c /\ marked_real c) conditions ->
    (length conditions <= 3)%nat ->
    let result := fst (probe_loop w getHours nearbyPlaces replies n i conditions s) in
    Forall (fun c => from_probe nearbyPlaces replies c /\ marked_real c) result /\
    (length result <= 3)%nat.
Proof.
  induction n as [|n IH]; intros i conditions s Hn Hall Hlen.
  - cbn. split; assumption.
  - cbn [probe_loop].
    destruct (nearbyPlaces !! i) as [place|] eqn:Eplace; [|cbn; split; assumption].
    destruct (3 <=? length conditions)%nat eqn:Efull; [cbn; split; assumption|].
    apply Nat.leb_gt in Efull.
    unfold mbind, Sim_bind.
    pose proof (probe_props nearbyPlaces replies i place s) as Hprobe.
    destruct (probe w getHours i place (replies i) s) as [found s'].
    cbn [fst] in Hprobe.
    apply IH; [lia | |].
    + destruct found as [c|]; [|exact Hall].
      apply Forall_app. split; [exact Hall|].
      constructor; [|constructor]. apply Hprobe; [lia | exact Eplace | reflexivity].
    + destruct found as [c|]; [|lia]. rewrite length_app. simpl. lia.
Qed.

Lemma probe_loop_ext places1 places2 replies :
  forall n i conditions (s : SimState),
    (forall j, (i <= j < i + n)%nat -> places1 !! j = places2 !! j) ->
    probe_loop w getHours places1 replies n i conditions s
    = probe_loop w getHours places2 replies n i conditions s.
Proof.
  induction n as [|n IH]; intros i conditions s Hsame; [reflexivity|].
  cbn [probe_loop]. rewrite <- (Hsame i) by lia.
  destruct (places1 !! i) as [place|]; [|reflexivity].
  destruct (3 <=? length conditions)%nat; [reflexivity|].
  unfold mbind, Sim_bind.
  destruct (probe w getHours i place (replies i) s) as [found s'].
  apply IH. intros j Hj. apply Hsame. lia.
Qed.


End LiveFetch.

Section LiveFetchSample.

Import TrafficService Terms.


End LiveFetchSample.

Section Causes.

Import JSFacts ArrayFacts TrafficService Spec.

Variable w : SimWorld.
Hypothesis random_range : forall n, 0 <= random w n /\ random w n < 1.

Lemma at_index_int {A} (xs : list A) (v : Z) :
  (0 <= v)%Z -> at_index xs (JS.int v) = xs !! Z.to_nat v.
Proof.
  intros Hv. unfold at_index, JS.int. rewrite Qfloor_Z.
  rewrite (proj2 (Qeq_bool_iff _ _) (Qeq_refl _)).
  rewrite (proj2 (Z.leb_le 0 v) Hv). reflexivity.
Qed.


End Causes.

Section CausesSample.

Import TrafficService.


End CausesSample.

Section Speed.

Import JSFacts TrafficService Spec.

(** X9.  The speed of a live condition is a whole, non-negative number of
    miles per hour when the distance is not negative and the time in
    traffic is positive.  A time of zero is not guarded: it gives Infinity
    for a positive distance and NaN for a distance of zero. *)
Theorem speed_from_durations :
  (forall distance seconds : Q, 0 <= distance -> 0 < seconds ->
      exists v : Z,
        calculateSpeedFromDurations (Fin distance) (Fin seconds) = JS.int v /\
        (0 <= v)%Z) /\
  (forall distance : Q, 0 < distance ->
      calculateSpeedFromDurations (Fin distance) (Fin 0) = JS.PInf) /\
  calculateSpeedFromDurations (Fin 0) (Fin 0) = NaN.
Proof.
  split; [|split].
  - intros distance seconds Hd Hs.
    unfold calculateSpeedFromDurations. cbv zeta.
    change (Fin seconds / Fin 3600)%js with (Fin (seconds / 3600)).
    change (Fin distance * Fin 0.000621371)%js with (Fin (distance * 0.000621371)).
    assert (Hhours : 0 < seconds / 3600) by (apply Qlt_shift_div_l; lra).
    rewrite div_Fin by lra.
    eexists. split; [reflexivity|].
    change 0%Z with (Qfloor 0). apply Qfloor_resp_le.
    assert (0 <= distance * 0.000621371 / (seconds / 3600)).
    { apply Qle_shift_div_l; [exact Hhours|]. nra. }
    lra.
  - intros distance Hd. unfold calculateSpeedFromDurations. cbv zeta.
    change (Fin 0 / Fin 3600)%js with (Fin (0 / 3600)).
    change (Fin distance * Fin 0.000621371)%js with (Fin (distance * 0.000621371)).
    unfold JS.div. change (JS.sgn (0 / 3600)) with Eq. cbv iota.
    unfold JS.scale_inf, JS.sgn.
    assert (Hgt : (distance * 0.000621371 ?= 0) = Gt).
    { apply Qgt_alt. nra. }
    rewrite Hgt. reflexivity.
  - reflexivity.
Qed.

(** Ten miles in half an hour. *)
Lemma speed_from_durations_witness :
  calculateSpeedFromDurations (Fin 16093.4) (Fin 1800) = JS.int 20.
Proof.
  destruct (proj1 speed_from_durations 16093.4 1800 ltac:(lra) ltac:(lra))
    as (v & Hv & _).
  rewrite Hv. vm_compute in Hv. injection Hv as Hv. rewrite <- Hv. reflexivity.
Defined.

End Speed.

Section NearbyPlaces.

Import ArrayFacts TrafficService.

Variable toString : number -> string.
Variable searchPlaces : string -> outcome (list GoogleMapsService.PlaceResult).
Variable center : number * number.
Variable radius : Q.

Lemma search_loop_members queries0 :
  forall queries allPlaces,
    incl queries queries0 ->
    let found p :=
      near center radius p = true /\
      exists query places,
        In query queries0 /\ searchPlaces query = Resolved places /\ In p places in
    (forall p, In p allPlaces -> found p) ->
    forall p, In p (search_loop searchPlaces center radius queries allPlaces) -> found p.
Proof.
  induction queries as [|query rest IH]; intros allPlaces Hincl found Hall p Hp.
  - exact (Hall p Hp).
  - cbn [search_loop] in Hp.
    assert (Hrest : incl rest queries0).
    { intros q Hq. apply Hincl. right. exact Hq. }
    destruct (searchPlaces query) as [places|e] eqn:E.
    + assert (Hall' : forall p, In p (allPlaces ++ List.filter (near center radius) places)
                                -> found p).
      { intros p' Hp'. apply in_app_or in Hp' as [Hp' | Hp']; [exact (Hall p' Hp')|].
        apply filter_In in Hp' as [Hin Hnear]. split; [exact Hnear|].
        exists query, places. split; [apply Hincl; left; reflexivity|]. auto. }
      destruct (10 <=? length _)%nat.
      * exact (Hall' p Hp).
      * exact (IH _ Hrest Hall' p Hp).
    + exact (IH _ Hrest Hall p Hp).
Qed.

Lemma findIndex_first {A} (q : A -> bool) :
  forall xs j, findIndex q xs = Some j ->
  forall i x, (i < j)%nat -> xs !! i = Some x -> q x = false.
Proof.
  induction xs as [|y xs IH]; intros j Hj i x Hi Hx; [discriminate|].
  cbn [findIndex] in Hj. destruct (q y) eqn:Ey.
  - injection Hj as <-. lia.
  - destruct (findIndex q xs) as [k|] eqn:Ek; [|discriminate].
    injection Hj as <-. destruct i as [|i]; simpl in Hx.
    + injection Hx as <-. exact Ey.
    + apply (IH k eq_refl i x); [lia | exact Hx].
Qed.

(** Keeping each element at the first index that holds its key leaves no
    key twice. *)
Lemma first_occurrences_NoDup {A} (key : A -> string) (l : list A) :
  forall xs k,
    xs = drop k l ->
    NoDup (map key
             (filter_from (fun index x =>
                  bool_decide (Some index
                               = findIndex (fun y => String.eqb (key y) (key x)) l))
                k xs)).
Proof.
  induction xs as [|x xs IH]; intros k Hdrop; [constructor|].
  assert (Hx : l !! k = Some x).
  { rewrite <- (Nat.add_0_r k), <- lookup_drop, <- Hdrop. reflexivity. }
  assert (Hxs : xs = drop (S k) l).
  { rewrite <- (Nat.add_1_r k), <- drop_drop, <- Hdrop. reflexivity. }
  cbn [filter_from]. destruct (bool_decide _) eqn:Ekeep; [|exact (IH _ Hxs)].
  cbn [map]. constructor; [|exact (IH _ Hxs)].
  rewrite list_elem_of_In. intros Hin. apply in_map_iff in Hin.
  destruct Hin as (y & Hkey & Hy). apply filter_from_In in Hy.
  destruct Hy as (j & Hj & Hfirst). apply bool_decide_eq_true in Hfirst.
  symmetry in Hfirst.
  pose proof (findIndex_first _ _ _ Hfirst k x ltac:(lia) Hx) as Hne.
  cbn beta in Hne. rewrite Hkey, String.eqb_refl in Hne. discriminate.
Qed.


End NearbyPlaces.

Section CacheKeys.

Import ArrayFacts TrafficService Terms.

Lemma uuid_not_real (key : string) :
  isUuid key = true -> String.prefix "real-traffic-" key = false.
Proof.
  destruct key as [|c key]; [reflexivity|].
  intros H.
  assert (Hc : hexDigit c = true).
  { unfold isUuid in H. cbn [afterHex] in H. destruct (hexDigit c); [reflexivity|].
    discriminate H. }
  change (String.prefix "real-traffic-" (String c key))
    with (if ascii_dec "r" c then String.prefix "eal-traffic-" key else false).
  destruct (ascii_dec "r" c) as [<- | ?]; [discriminate Hc | reflexivity].
Qed.

Lemma filter_from_none {A} (p : nat -> A -> bool) :
  forall xs k, (forall j x, In x xs -> p j x = false) -> filter_from p k xs = [].
Proof.
  induction xs as [|x xs IH]; intros k H; [reflexivity|].
  cbn [filter_from]. rewrite (H k x (or_introl eq_refl)).
  apply IH. intros j y Hy. apply H. right. exact Hy.
Qed.

(** X11.  Rows keyed by a UUID, as the table keys them, are never served
    from the cache: whatever their age, the call goes on to the live fetch
    and answers with what it found or, failing that, with the simulation. *)
Theorem uuid_rows_bypass_cache :
  forall w,
    sdk w = Resolved true ->
    Forall (fun row => isUuid (SupabaseService.tr_id row) = true) (cached w) ->
    getCurrentTrafficConditions w
    = if (0 <? length (live w))%nat
      then ([GetTrafficConditions; FetchRealTrafficData; SaveConditionsToCache (live w)],
            live w)
      else ([GetTrafficConditions; FetchRealTrafficData; GenerateLocationAwareSimulation],
            simulated w).
Proof.
  intros w Hsdk Hkeys. unfold getCurrentTrafficConditions. rewrite Hsdk.
  assert (Hnone : filter_from (fun index condition => isRecentReal (clock w index) condition)
                              0 (map fromRecord (cached w)) = []).
  { apply filter_from_none. intros j c Hc. apply in_map_iff in Hc.
    destruct Hc as (row & <- & Hrow).
    rewrite Forall_forall in Hkeys. apply list_elem_of_In in Hrow.
    specialize (Hkeys row Hrow). cbv beta in Hkeys.
    unfold isRecentReal. cbn [id fromRecord].
    rewrite (uuid_not_real _ Hkeys). apply andb_false_r. }
  rewrite Hnone. destruct (0 <? length (map fromRecord (cached w)))%nat; reflexivity.
Qed.


(** A row a minute old, keyed by a UUID: the call goes to the live fetch. *)
Lemma uuid_rows_bypass_cache_witness :
  isUuid (SupabaseService.tr_id Examples.keyed_row) = true /\
  fst (getCurrentTrafficConditions (Examples.world [Examples.keyed_row]))
  = [GetTrafficConditions; FetchRealTrafficData; GenerateLocationAwareSimulation].
Proof.
  assert (Hkey : isUuid (SupabaseService.tr_id Examples.keyed_row) = true)
    by (vm_compute; reflexivity).
  split; [exact Hkey|].
  rewrite (uuid_rows_bypass_cache (Examples.world [Examples.keyed_row]) eq_refl
             (Forall_cons_2 _ _ _ Hkey (Forall_nil_2 _))).
  reflexivity.
Defined.

End CacheKeys.

(* ================================================================== *)
(** * Hour labels *)
(* ================================================================== *)

Section HourLabels.

Import TrafficService.

Lemma hour_labels_distinct : NoDup (map formatHour (seq 0 24)).
Proof.
  apply (bool_decide_unpack _). vm_compute. exact I.
Qed.

Lemma twelve_labels_distinct (hour : nat) :
  (hour < 24)%nat ->
  NoDup (map (fun i => formatHour ((hour + i) mod 24)) (seq 0 12)).
Proof.
  intros H.
  do 24 (destruct hour as [|hour];
         [apply (bool_decide_unpack _); vm_compute; exact I|]).
  lia.
Qed.

(** X13.  The forecast is labelled on a 12-hour clock: the label of hour
    [h] is [d AM] before noon and [d PM] from noon on, where [d] is [h]
    modulo 12 with 12 standing for 0, so midnight reads [12 AM] and noon
    [12 PM].  The 24 labels are all different, entry [i] of a forecast bears
    the label of hour [(hour + i) mod 24], and no label occurs twice in a
    forecast. *)
Theorem forecast_hour_labels :
  (forall h, (h < 24)%nat ->
     formatHour h
     = pretty (if Nat.eqb (h mod 12) 0 then 12%nat else (h mod 12)%nat)
       +:+ " " +:+ (if (h <? 12)%nat then "AM" else "PM")) /\
  (forall h1 h2, (h1 < 24)%nat -> (h2 < 24)%nat ->
     formatHour h1 = formatHour h2 -> h1 = h2) /\
  (forall conditions hour now random,
     let labels :=
       map time (predictions (generateRealTimePredictions hour now random conditions)) in
     labels = map (fun i => formatHour ((hour + i) mod 24)) (seq 0 12) /\
     NoDup labels).
Proof.
  split; [|split].
  - intros h Hh.
    do 24 (destruct h as [|h]; [reflexivity|]). lia.
  - intros h1 h2 H1 H2 Heq.
    pose proof hour_labels_distinct as Hnd.
    apply (proj1 (NoDup_alt _) Hnd h1 h2 (formatHour h1)).
    + rewrite list_lookup_fmap, lookup_seq_lt by exact H1. reflexivity.
    + rewrite list_lookup_fmap, lookup_seq_lt by exact H2. simpl. rewrite Heq. reflexivity.
  - intros conditions hour now random labels.
    assert (Hlabels : labels = map (fun i => formatHour ((hour + i) mod 24)) (seq 0 12)).
    { unfold labels, generateRealTimePredictions. cbn [predictions].
      rewrite predictions_loop_spec, app_nil_l, map_map. reflexivity. }
    split; [exact Hlabels|]. rewrite Hlabels.
    replace (map (fun i => formatHour ((hour + i) mod 24)) (seq 0 12))
      with (map (fun i => formatHour ((hour mod 24 + i) mod 24)) (seq 0 12)).
    + apply twelve_labels_distinct. apply Nat.mod_upper_bound. lia.
    + apply map_ext. intros i. rewrite Nat.Div0.add_mod_idemp_l. reflexivity.
Qed.

(** From ten in the evening: 10 PM, 11 PM, 12 AM, 1 AM, ... *)
Lemma forecast_hour_labels_witness :
  take 4 (map time (predictions (generateRealTimePredictions 22 Examples.noon 0.5 [])))
  = ["10 PM"; "11 PM"; "12 AM"; "1 AM"] /\
  (formatHour 0 = formatHour 12 -> 0 = 12)%nat.
Proof.
  split.
  - rewrite (proj1 (proj2 (proj2 forecast_hour_labels) [] 22%nat Examples.noon 0.5%float)).
    vm_compute. reflexivity.
  - apply (proj1 (proj2 forecast_hour_labels)); lia.
Defined.

End HourLabels.

(* ================================================================== *)
(** * Simulation: the other hours *)
(* ================================================================== *)

Section SimulationBands.

Import JSFacts ArrayFacts TrafficService Spec Terms.

Variable w : SimWorld.
Hypothesis random_range : forall n, 0 <= random w n /\ random w n < 1.

Lemma floor_draw_plain (r : Q) (k : Z) :
  0 <= r -> r < 1 -> (0 < k)%Z ->
  exists v : Z, JS.floor (Fin r * JS.int k)%js = JS.int v /\ (0 <= v <= k - 1)%Z.
Proof.
  intros H0 H1 Hk.
  destruct (floor_draw r k 0 H0 H1 Hk) as (v & Hv & Hrange).
  exists v. split; [|lia].
  rewrite <- Hv.
  change (JS.floor (Fin r * JS.int k)%js) with (JS.int (Qfloor (r * inject_Z k))).
  rewrite add_int, Z.add_0_r. reflexivity.
Qed.

Lemma hourProfile_bands (currentHour : nat) (s : SimState) :
  let '(level, speed, reason) := fst (hourProfile w currentHour s) in
  ((17 <= currentHour <= 19)%nat ->
     (level = high \/ level = severe) /\
     (exists v : Z, speed = JS.int v /\ (10 <= v <= 24)%Z) /\
     reason = "Evening rush hour congestion") /\
  ((currentHour = 6 \/ 10 <= currentHour <= 16 \/ 20 <= currentHour <= 21)%nat ->
     (level = low \/ level = moderate) /\
     (exists v : Z, speed = JS.int v /\ (30 <= v <= 54)%Z) /\
     reason = "Normal traffic flow").
Proof.
  unfold hourProfile.
  destruct ((7 <=? currentHour)%nat && (currentHour <=? 9)%nat) eqn:Emorning.
  - apply andb_true_iff in Emorning. rewrite !Nat.leb_le in Emorning.
    cbn. split; lia.
  - apply andb_false_iff in Emorning. rewrite !Nat.leb_gt in Emorning.
    destruct ((17 <=? currentHour)%nat && (currentHour <=? 19)%nat) eqn:Eevening.
    + apply andb_true_iff in Eevening. rewrite !Nat.leb_le in Eevening.
      cbn. split; [|lia]. intros _. split; [|split; [|reflexivity]].
      * match goal with |- context [if ?b then _ else _] => destruct b end; auto.
      * destruct (random_range (S (draws s))) as [H0 H1].
        destruct (floor_draw _ 15 10 H0 H1) as (v & Hv & Hrange); [lia|].
        exists v. split; [exact Hv | lia].
    + apply andb_false_iff in Eevening. rewrite !Nat.leb_gt in Eevening.
      destruct ((22 <=? currentHour)%nat || (currentHour <=? 5)%nat) eqn:Enight.
      * apply orb_true_iff in Enight. rewrite !Nat.leb_le in Enight.
        cbn. split; lia.
      * apply orb_false_iff in Enight. rewrite !Nat.leb_gt in Enight.
        cbn. split; [lia|]. intros _. split; [|split; [|reflexivity]].
        -- match goal with |- context [if ?b then _ else _] => destruct b end; auto.
        -- destruct (random_range (S (draws s))) as [H0 H1].
           destruct (floor_draw _ 25 30 H0 H1) as (v & Hv & Hrange); [lia|].
           exists v. split; [exact Hv | lia].
Qed.

Lemma simulateOne_banded center cityName currentHour numConditions i (s : SimState) :
  banded currentHour (fst (simulateOne w center cityName currentHour numConditions i s)).
Proof.
  unfold simulateOne, mbind, Sim_bind, mret, Sim_ret, Math_random, Date_now.
  pose proof (hourProfile_bands currentHour
                {| draws := S (draws s); ticks := ticks s |}) as Hprofile.
  destruct (hourProfile w currentHour {| draws := S (draws s); ticks := ticks s |})
    as [[[level speed] reason] s'].
  cbn [fst] in Hprofile. cbn [fst snd draws ticks].
  unfold banded.
  cbn [severity TrafficService.speed cause duration predictedDuration affectedRoutes
       timestamp location address].
  destruct Hprofile as [Hevening Hday].
  split; [|split; [|split; [|split; [reflexivity | split; [eauto|]]]]].
  - intros H. destruct (Hevening H) as (Hl & Hs & ->). auto.
  - intros H. destruct (Hday H) as (Hl & Hs & ->). auto.
  - destruct (random_range (draws s')) as [H0 H1].
    destruct (floor_draw _ 20 10 H0 H1) as (d & Hd & Hdr); [lia|].
    destruct (random_range (S (draws s'))) as [H0' H1'].
    destruct (floor_draw_plain _ 5 H0' H1') as (e & He & Her); [lia|].
    exists d, (d + e)%Z.
    change (Fin 20) with (JS.int 20). change (Fin 10) with (JS.int 10).
    change (Fin 5) with (JS.int 5).
    rewrite Hd, He, add_int. repeat split; lia.
  - destruct (reverseGeocodedAddress w _ _) as [[|c a]|]; reflexivity.
Qed.

Lemma simulate_loop_banded center cityName currentHour numConditions :
  forall n i conditions (s : SimState),
    Forall (banded currentHour) conditions ->
    Forall (banded currentHour)
      (fst (simulate_loop w center cityName currentHour numConditions n i conditions s)).
Proof.
  induction n as [|n IH]; intros i conditions s Hall; [exact Hall|].
  cbn [simulate_loop]. unfold mbind, Sim_bind.
  pose proof (simulateOne_banded center cityName currentHour numConditions i s) as Hone.
  destruct (simulateOne w center cityName currentHour numConditions i s) as [c s'].
  apply IH. apply Forall_app. split; [exact Hall|]. constructor; [exact Hone | constructor].
Qed.

(** X14.  Whatever the draws of [Math.random()] in [0, 1), every simulated
    condition has a travel time of 10 to 29 minutes, a predicted time of up
    to 4 minutes more, two affected routes, a valid time stamp and an
    address that is not empty.  Simulated from 17 to 19 o'clock it is high
    or severe at 10 to 24 mph, with the evening rush as cause; at 6, from
    10 to 16 and at 20 and 21 o'clock it is low or moderate at 30 to 54 mph,
    with normal traffic flow as cause. *)
Theorem simulation_other_hours :
  forall center currentHour (s : SimState),
    Forall (banded currentHour)
           (fst (generateLocationAwareSimulation w center currentHour s)).
Proof.
  intros center currentHour s.
  unfold generateLocationAwareSimulation, mbind, Sim_bind, Math_random.
  apply simulate_loop_banded. constructor.
Qed.

End SimulationBands.

Section SimulationBandsSample.

Import TrafficService Terms.

Lemma simulation_other_hours_witness :
  (forall n, 0 <= random Examples.sim_world n /\ random Examples.sim_world n < 1) /\
  map severity
      (fst (generateLocationAwareSimulation Examples.sim_world Examples.ikeja 18
                                            Examples.sim_start)) = [severe; severe; high] /\
  Forall (banded 18)
         (fst (generateLocationAwareSimulation Examples.sim_world Examples.ikeja 18
                                               Examples.sim_start)).
Proof.
  split; [exact sample_draws_in_range|]. split; [vm_compute; reflexivity|].
  exact (simulation_other_hours Examples.sim_world sample_draws_in_range
                                Examples.ikeja 18%nat Examples.sim_start).
Defined.

End SimulationBandsSample.

(* ================================================================== *)
(** * Waypoints and saved batches *)
(* ================================================================== *)

Section SavedBatches.

Import ArrayFacts TextFacts RouteService.

Lemma extractWaypoints_props route :
  (length (extractWaypoints route) <= 3)%nat /\
  Forall (fun w => JSString.truthy w = true) (extractWaypoints route).
Proof.
  unfold extractWaypoints. split.
  - rewrite length_take. lia.
  - apply Forall_take. apply Forall_forall. intros x Hx.
    apply list_elem_of_In, filter_In in Hx. destruct Hx as [_ Hx].
    destruct x; [discriminate Hx | reflexivity].
Qed.

(** X15.  A route has at most three waypoints and none of them is empty;
    they are the first pieces of the summary between [ and ] that are not
    empty.  The variant that starts from the summary text gives the same
    list for every summary, the empty one included. *)
Theorem waypoints_from_summary :
  forall route,
    (length (extractWaypoints route) <= 3)%nat /\
    Forall (fun w => JSString.truthy w = true) (extractWaypoints route) /\
    (forall w, In w (extractWaypoints route) ->
               In w (split " and " (GoogleMapsService.summary route))) /\
    extractWaypointsFromSummary (GoogleMapsService.summary route)
    = extractWaypoints route.
Proof.
  intros route.
  split; [apply extractWaypoints_props|]. split; [apply extractWaypoints_props|].
  unfold extractWaypoints, extractWaypointsFromSummary.
  destruct (GoogleMapsService.summary route) as [|c summary]; cbn [or_else].
  - split; [|reflexivity]. intros w Hw. vm_compute in Hw. destruct Hw.
  - split; [|reflexivity]. intros w Hw.
    apply list_elem_of_In, elem_of_take in Hw. destruct Hw as (i & Hw & _).
    apply list_elem_of_lookup_2, list_elem_of_In, filter_In in Hw. tauto.
Qed.

Lemma waypoints_from_summary_witness :
  extractWaypoints (Examples.alternative "A1 and  and M6 and A5 and B4 and" 600 600)
  = ["A1"; "M6"; "A5"] /\
  In "M6" (split " and " "A1 and  and M6 and A5 and B4 and").
Proof.
  split; [vm_compute; reflexivity|].
  apply (proj1 (proj2 (proj2 (waypoints_from_summary
           (Examples.alternative "A1 and  and M6 and A5 and B4 and" 600 600))))).
  vm_compute. auto.
Defined.

Lemma savedRoutes_cases request places reply :
  savedRoutes request places reply = [] \/
  exists place others user,
    places = Resolved (place :: others) /\
    userId request = Some user /\ JSString.truthy user = true /\
    status (calculateRoutes request places reply) = success /\
    savedRoutes request places reply
    = saveRoutesToDatabase request (routes (calculateRoutes request places reply))
        (GoogleMapsService.formatLocationForDisplay
           (GoogleMapsService.formatted_address place)
           (Some (GoogleMapsService.name place)))
        (Some place).
Proof.
  unfold savedRoutes, calculateRoutes, calculateRoutesWithJSSDK. cbn [try_catch].
  destruct places as [[|place others]|e]; auto.
  destruct (GoogleMapsService.calculateDirections reply) as [result|e]; auto.
  destruct (negb _); auto.
  destruct (scoreRoutes _) as [scored|e]; auto.
  destruct (userId request) as [[|c u]|] eqn:Euser; auto.
  right. exists place, others, (String c u). cbn. auto.
Qed.

(** X16.  What a call of [calculateRoutes] writes to the table.  Without a
    user on the request, or when the response is an error, nothing; with
    one, one record for each route of the response, in order, each under
    that user and reading back as its route without the identifier.  The
    destination written is the display name of the first place found --
    never a Plus Code -- and not the text that was typed. *)
Theorem saved_batch_matches_response :
  forall request places reply,
    let response := calculateRoutes request places reply in
    let written := savedRoutes request places reply in
    (match userId request with
     | Some user =>
         if JSString.truthy user
         then map fromRouteRecord written = map Terms.unkeyed (routes response)
         else written = []
     | None => written = []
     end) /\
    (status response = error -> written = []) /\
    Forall (fun record =>
              SupabaseService.user_id record = userId request /\
              GoogleMapsService.isPlusCode (SupabaseService.destination record) = false /\
              exists place others,
                places = Resolved (place :: others) /\
                SupabaseService.destination record
                = GoogleMapsService.formatLocationForDisplay
                    (GoogleMapsService.formatted_address place)
                    (Some (GoogleMapsService.name place)))
           written.
Proof.
  intros request places reply response written.
  destruct (savedRoutes_cases request places reply)
    as [Hnone | (place & others & user & Hplaces & Huser & Htruthy & Hstatus & Hsaved)].
  - unfold written. rewrite Hnone. split; [|split; [reflexivity | constructor]].
    destruct (userId request) as [user|] eqn:Euser; [|reflexivity].
    destruct (JSString.truthy user) eqn:Etruthy; [|reflexivity].
    (* a signed-in request that wrote nothing returned no route *)
    assert (Hroutes : routes response = []).
    { revert Hnone. unfold response, savedRoutes, calculateRoutes,
        calculateRoutesWithJSSDK. cbn [try_catch]. rewrite Euser.
      destruct places as [[|place others]|e]; try reflexivity.
      destruct (GoogleMapsService.calculateDirections reply) as [result|e];
        try reflexivity.
      destruct (negb _); try reflexivity.
      destruct (scoreRoutes _) as [scored|e]; try reflexivity.
      destruct user as [|c u]; [discriminate Etruthy|].
      unfold saveRoutesToDatabase. cbn.
      destruct scored; [reflexivity | discriminate]. }
    rewrite Hroutes. reflexivity.
  - unfold written, response. rewrite Hsaved, Huser, Htruthy.
    unfold saveRoutesToDatabase.
    split; [|split].
    + rewrite map_map. apply map_ext. intros route. reflexivity.
    + rewrite Hstatus. discriminate.
    + apply Forall_forall. intros record Hrecord.
      apply list_elem_of_In, in_map_iff in Hrecord. destruct Hrecord as (route & <- & _).
      cbn [toRouteRecord SupabaseService.user_id SupabaseService.destination].
      split; [exact Huser|].
      split; [apply formatLocationForDisplay_not_plus_code|].
      exists place, others. split; [exact Hplaces | reflexivity].
Qed.

(** A signed-in search for "ikeja mall": three records, one for each
    route, under the name of the place that was found. *)
Lemma saved_batch_matches_response_witness :
  map SupabaseService.destination
      (savedRoutes Examples.signed_request Examples.places Examples.reply_25_30_40)
  = ["Ikeja City Mall"; "Ikeja City Mall"; "Ikeja City Mall"] /\
  map fromRouteRecord
      (savedRoutes Examples.signed_request Examples.places Examples.reply_25_30_40)
  = map Terms.unkeyed
        (routes (calculateRoutes Examples.signed_request Examples.places
                                 Examples.reply_25_30_40)) /\
  savedRoutes Examples.request Examples.places Examples.reply_25_30_40 = [].
Proof.
  split; [vm_compute; reflexivity|]. split.
  - exact (proj1 (saved_batch_matches_response Examples.signed_request Examples.places
                    Examples.reply_25_30_40)).
  - exact (proj1 (saved_batch_matches_response Examples.request Examples.places
                    Examples.reply_25_30_40)).
Defined.

End SavedBatches.

(* ================================================================== *)
(** * Requests to the provider *)
(* ================================================================== *)

Section ProviderRequests.

Import GoogleMapsService.

(** X17.  Every request [calculateDirections] sends asks for route
    alternatives, whatever the caller passes -- also the probing loop of the
    live fetch, which passes [false] and reads only the first route.  The
    travel mode of a route search is driving unless the request says
    walking, transit or bicycling; the probes always drive and avoid
    nothing, and a route search avoids highways or tolls only when the
    request sets the flag. *)
Theorem requests_always_ask_alternatives :
  (forall origin destination options,
      request_provideRouteAlternatives (directionsRequest origin destination options)
      = true) /\
  (forall center place,
      let sent := TrafficService.probeRequest center place in
      request_provideRouteAlternatives sent = true /\
      request_travelMode sent = DRIVING /\
      request_avoidHighways sent = false /\ request_avoidTolls sent = false /\
      request_destination sent = formatted_address place) /\
  (forall request,
      let sent := RouteService.routesRequest request in
      (request_travelMode sent = WALKING
       <-> RouteService.travelMode request = Some "walking") /\
      (request_travelMode sent = TRANSIT
       <-> RouteService.travelMode request = Some "transit") /\
      (request_travelMode sent = BICYCLING
       <-> RouteService.travelMode request = Some "bicycling") /\
      (request_avoidHighways sent = true
       <-> RouteService.avoidHighways request = Some true) /\
      (request_avoidTolls sent = true <-> RouteService.avoidTolls request = Some true) /\
      request_destination sent = RouteService.destination request).
Proof.
  split; [|split].
  - intros origin destination [mode highways tolls [[|]|]]; reflexivity.
  - intros center place. cbv zeta. repeat split.
  - intros [origin destination mode tolls highways user]. cbv zeta.
    unfold RouteService.routesRequest, directionsRequest, RouteService.getTravelMode.
    cbn [request_travelMode request_avoidHighways request_avoidTolls request_destination
         option_travelMode option_avoidHighways option_avoidTolls
         RouteService.travelMode RouteService.avoidHighways RouteService.avoidTolls
         RouteService.destination RouteService.origin default].
    repeat split; try (destruct highways as [[|]|]; simpl; congruence);
      try (destruct tolls as [[|]|]; simpl; congruence).
    all: destruct mode as [text|]; try discriminate.
    all: try (intros H; injection H as ->; reflexivity).
    all: destruct (String.eqb text "walking") eqn:E1;
      [apply String.eqb_eq in E1; subst; try discriminate; reflexivity|];
      destruct (String.eqb text "transit") eqn:E2;
      [apply String.eqb_eq in E2; subst; try discriminate; reflexivity|];
      destruct (String.eqb text "bicycling") eqn:E3;
      [apply String.eqb_eq in E3; subst; try discriminate; reflexivity|];
      discriminate.
Qed.

Lemma requests_always_ask_alternatives_witness :
  request_travelMode (RouteService.routesRequest Examples.signed_request) = DRIVING /\
  (request_travelMode (RouteService.routesRequest Examples.signed_request) = WALKING
   -> RouteService.travelMode Examples.signed_request = Some "walking").
Proof.
  split; [reflexivity|].
  apply (proj1 (proj2 (proj2 requests_always_ask_alternatives) Examples.signed_request)).
Defined.

End ProviderRequests.

(* ================================================================== *)
(** * The traffic list *)
(* ================================================================== *)

Section TrafficList.

Import JSFacts ArrayFacts TrafficService Spec.

Variable w : SimWorld.
Hypothesis random_range : forall n, 0 <= random w n /\ random w n < 1.

Lemma simulation_size center currentHour (s : SimState) :
  (2 <= length (fst (generateLocationAwareSimulation w center currentHour s)) <= 4)%nat.
Proof.
  unfold generateLocationAwareSimulation, mbind, Sim_bind, Math_random.
  cbn [fst snd draws ticks].
  destruct (random_range (draws s)) as [H0 H1].
  destruct (floor_draw _ 3 2 H0 H1) as (v & Hv & Hrange); [lia|].
  change (Fin 3) with (JS.int 3). change (Fin 2) with (JS.int 2). rewrite Hv.
  assert (Hcount : trip_count (JS.int v) = Z.to_nat v).
  { unfold trip_count, JS.int. rewrite Qceiling_Z. reflexivity. }
  rewrite Hcount.
  match goal with
  | |- context [simulate_loop w center ?city currentHour ?n ?k ?i ?acc ?st] =>
      destruct (simulate_loop_props w random_range center city currentHour n k i acc st)
        as [_ Hlen]; [constructor|]
  end.
  rewrite Hlen. simpl. lia.
Qed.

(** X18.  With the SDK on the page and the draws of [Math.random()] in
    [0, 1), [getCurrentTrafficConditions] never answers with an empty list:
    it returns the usable cache entries, else the up to three conditions of
    the live fetch, else two to four simulated ones.  Without the SDK it
    returns nothing and reaches no collaborator.  So the hook that shows the
    list reports "No traffic data available for your area. This could mean
    light traffic conditions." exactly when the SDK is missing, and shows
    one entry for each condition otherwise. *)
Theorem traffic_list_empty_only_without_sdk :
  forall getHours sdk cached clock nearbyPlaces replies timedOut center currentHour
         (s : SimState) isManualRefresh now state,
    let answer :=
      currentTrafficConditions w getHours sdk cached clock nearbyPlaces replies
                               timedOut center currentHour s in
    let after :=
      useTrafficData.fetchTrafficData true isManualRefresh (snd answer) now state in
    (sdk = Resolved true -> (1 <= length (snd answer))%nat) /\
    (sdk <> Resolved true -> answer = ([], [])) /\
    (useTrafficData.error after <> None <-> sdk <> Resolved true) /\
    length (useTrafficData.trafficData after) = length (snd answer).
Proof.
  intros getHours sdk cached clock nearbyPlaces replies timedOut center currentHour s
         isManualRefresh now state answer after.
  assert (Hwith : sdk = Resolved true -> (1 <= length (snd answer))%nat).
  { intros ->. unfold answer, currentTrafficConditions.
    destruct (fetchRealTrafficData w getHours (Resolved true) nearbyPlaces replies
                                   timedOut s) as [realConditions s'].
    pose proof (simulation_size center currentHour s') as Hsim.
    unfold getCurrentTrafficConditions. cbn [TrafficService.sdk TrafficService.cached
      TrafficService.clock live simulated].
    repeat match goal with
           | |- context [if (0 <? length ?l)%nat then _ else _] =>
               let E := fresh "E" in
               destruct (0 <? length l)%nat eqn:E;
               [apply Nat.ltb_lt in E | apply Nat.ltb_ge in E]
           end; cbn [snd length] in *; lia. }
  assert (Hwithout : sdk <> Resolved true -> answer = ([], [])).
  { intros Hsdk. unfold answer, currentTrafficConditions.
    destruct (fetchRealTrafficData w getHours sdk nearbyPlaces replies timedOut s)
      as [realConditions s'].
    unfold getCurrentTrafficConditions. cbn [TrafficService.sdk].
    destruct sdk as [[|]|e]; [contradiction Hsdk|..]; reflexivity. }
  split; [exact Hwith|]. split; [exact Hwithout|].
  unfold after, useTrafficData.fetchTrafficData.
  cbn [negb useTrafficData.error useTrafficData.trafficData]. rewrite length_map.
  split; [|reflexivity].
  assert (Hdec : sdk = Resolved true \/ sdk <> Resolved true).
  { destruct sdk as [[|]|e]; [left; reflexivity | right; discriminate..]. }
  destruct Hdec as [Hsdk | Hsdk].
  - specialize (Hwith Hsdk).
    destruct (length (snd answer)); [lia|]. simpl. split; [congruence|].
    intros Hne. contradiction.
  - rewrite (Hwithout Hsdk). simpl. split; [intros _; exact Hsdk | discriminate].
Qed.

End TrafficList.

Section TrafficListSample.

Import TrafficService.

(** No cached row and no place nearby: the list holds the simulation. *)
Lemma traffic_list_empty_only_without_sdk_witness :
  (forall n, 0 <= random Examples.sim_world n /\ random Examples.sim_world n < 1) /\
  (let answer :=
     currentTrafficConditions Examples.sim_world Examples.hour_of (Resolved true) []
       (fun _ => Examples.noon) [] Examples.answers false Examples.ikeja 8
       Examples.sim_start in
   fst answer = [GetTrafficConditions; FetchRealTrafficData;
                 GenerateLocationAwareSimulation] /\
   (1 <= length (snd answer))%nat).
Proof.
  split; [exact sample_draws_in_range|]. cbv zeta.
  split; [vm_compute; reflexivity|].
  apply (proj1 (traffic_list_empty_only_without_sdk Examples.sim_world
                  sample_draws_in_range Examples.hour_of (Resolved true) []
                  (fun _ => Examples.noon) [] Examples.answers false Examples.ikeja
                  8%nat Examples.sim_start true Examples.noon
                  {| useTrafficData.trafficData := [];
                     useTrafficData.lastUpdated := Examples.noon;
                     useTrafficData.isLoading := true;
                     useTrafficData.isAutoRefreshing := false;
                     useTrafficData.error := None |})).
  reflexivity.
Defined.

End TrafficListSample.

(* ================================================================== *)
(** * LLM insight service: the call *)
(* ================================================================== *)

Section InsightCall.

Import JSFacts TogetherAIService Spec.



End InsightCall.

(* ================================================================== *)
(** * Hand-over to a navigation app *)
(* ================================================================== *)

Section Navigation.

Import ArrayFacts TextFacts NavigationService Terms.

Lemma append_assoc a b c : (a +:+ b) +:+ c = a +:+ b +:+ c.
Proof.
  induction a as [|x a IH]; [reflexivity|]. push_append. rewrite IH. reflexivity.
Qed.

Lemma append_empty a : a +:+ EmptyString = a.
Proof.
  induction a as [|x a IH]; [reflexivity|]. push_append. rewrite IH. reflexivity.
Qed.

Lemma hexChar_safe n : (n < 16)%nat -> urlSafe (hexChar n) = true.
Proof.
  intros H. do 16 (destruct n as [|n]; [reflexivity|]). lia.
Qed.

Lemma encodeURIComponent_safe s : every urlSafe (encodeURIComponent s) = true.
Proof.
  induction s as [|c s IH]; [reflexivity|].
  cbn [encodeURIComponent]. destruct (unreserved c) eqn:E.
  - cbn [every]. unfold urlSafe at 1. rewrite E, IH. reflexivity.
  - cbn [every]. rewrite IH.
    rewrite !hexChar_safe.
    + reflexivity.
    + apply Nat.mod_upper_bound. lia.
    + apply Nat.Div0.div_lt_upper_bound.
      pose proof (nat_ascii_bounded c). unfold JSString.byte. lia.
Qed.

Lemma dropChars_append a b : dropChars (String.length a) (a +:+ b) = b.
Proof.
  induction a as [|c a IH]; [destruct b; reflexivity|].
  push_append. exact IH.
Qed.

Lemma replaceFirst_prefix pattern replacement rest :
  replaceFirst pattern replacement (pattern +:+ rest) = replacement +:+ rest.
Proof.
  destruct (pattern +:+ rest) as [|c s] eqn:E; cbn [replaceFirst];
    rewrite <- E, prefix_append, dropChars_append; reflexivity.
Qed.

Lemma opened_at_once app :
  let (effects, opened) := ([WindowOpen (url app)], true) in
  opened = true /\ opens (url app) effects.
Proof. simpl. auto. Qed.

(** X20.  The navigation apps offered are Google Maps and Waze, with Apple
    Maps between them on an iOS device only.  In every link the destination
    is percent-encoded, so that it brings no character with a meaning of its
    own into the URL.  Opening an app always succeeds and always opens its
    web link: at once on a desktop browser and for Apple Maps, and one
    second after an attempt on the native link on a mobile browser, which
    is [comgooglemaps://] followed by the path of the Google Maps link, and
    [waze://] followed by the path of the Waze link. *)
Theorem navigation_links :
  forall toString platform options,
    let apps := generateNavigationUrls toString platform options in
    map name apps
    = (if isIOS platform then ["Google Maps"; "Apple Maps"; "Waze"]
       else ["Google Maps"; "Waze"]) /\
    every urlSafe (encodeURIComponent (destination options)) = true /\
    forall app, In app apps ->
      (exists address tail,
          url app = address +:+ encodeURIComponent (destination options) +:+ tail /\
          (tail = EmptyString \/ tail = "&dirflg=d" /\ name app = "Apple Maps")) /\
      forall device,
        opens (url app) (fst (openNavigation device app)) /\
        snd (openNavigation device app) = true /\
        (isMobile device = false \/ name app = "Apple Maps" ->
           fst (openNavigation device app) = [WindowOpen (url app)]) /\
        (isMobile device = true -> name app = "Google Maps" ->
           exists path, url app = "https://www.google.com/maps" +:+ path /\
             fst (openNavigation device app)
             = [AppendHiddenIframe ("comgooglemaps://" +:+ path);
                Later 1000 [RemoveIframe; WindowOpen (url app)]]) /\
        (isMobile device = true -> name app = "Waze" ->
           exists path, url app = "https://waze.com" +:+ path /\
             fst (openNavigation device app)
             = [AppendHiddenIframe ("waze://" +:+ path);
                Later 1000 [RemoveIframe; WindowOpen (url app)]]).
Proof.
  intros toString platform options apps.
  split; [unfold apps, generateNavigationUrls; destruct (isIOS platform); reflexivity|].
  split; [apply encodeURIComponent_safe|].
  intros app Happ.
  set (originStr := toString (fst (origin options)) +:+ "," +:+ toString (snd (origin options))).
  set (destStr := encodeURIComponent (destination options)).
  assert (Hcases :
    (exists rest, name app = "Google Maps" /\
                  url app = "https://www.google.com/maps" +:+ ("/dir/" +:+ rest +:+ destStr)) \/
    (exists rest, name app = "Waze" /\
                  url app = "https://waze.com" +:+ ("/ul?ll=" +:+ rest +:+ destStr)) \/
    (exists rest tail, name app = "Apple Maps" /\
                       url app = "https://maps.apple.com/?saddr=" +:+ rest +:+ destStr +:+ tail /\
                       (tail = EmptyString \/ tail = "&dirflg=d"))).
  { unfold apps, generateNavigationUrls in Happ. fold originStr destStr in Happ.
    destruct (isIOS platform); simpl in Happ;
      repeat match goal with H : _ \/ _ |- _ => destruct H as [H | H] end;
      try contradiction; subst app; cbn [name url].
    all: try (left;
              destruct (waypoints options) as [[|w ws]|];
              [exists (originStr +:+ "/")
              |exists (originStr +:+ "/" +:+ join "/" (map encodeURIComponent (w :: ws))
                       +:+ "/")
              |exists (originStr +:+ "/")];
              (split; [reflexivity|]); rewrite ?append_assoc; reflexivity).
    all: try (right; left;
              exists (toString (fst (origin options)) +:+ "," +:+
                      toString (snd (origin options)) +:+ "&navigate=yes&q=");
              (split; [reflexivity|]); rewrite ?append_assoc; reflexivity).
    right; right. exists (originStr +:+ "&daddr=").
    destruct (waypoints options) as [[|w ws]|];
      [exists EmptyString | exists "&dirflg=d" | exists EmptyString];
      (split; [reflexivity|]); (split; [|auto]);
      rewrite ?append_assoc, ?append_empty; reflexivity. }
  destruct Hcases as [(rest & Hname & Hurl) | [(rest & Hname & Hurl)
                                              | (rest & tail & Hname & Hurl & Htail)]].
  - split.
    + exists ("https://www.google.com/maps/dir/" +:+ rest), EmptyString.
      split; [|auto]. rewrite Hurl, append_empty, !append_assoc. reflexivity.
    + intros device. unfold openNavigation, nativeUrl. rewrite Hname.
      cbn [String.eqb Ascii.eqb Bool.eqb andb negb].
      assert (Hnative : replaceFirst "https://www.google.com/maps" "comgooglemaps://" (url app)
                        = "comgooglemaps://" +:+ ("/dir/" +:+ rest +:+ destStr)).
      { rewrite Hurl. apply replaceFirst_prefix. }
      rewrite Hnative.
      change (JSString.truthy ("comgooglemaps://" +:+ ("/dir/" +:+ rest +:+ destStr))) with true.
      destruct (isMobile device); cbn [fst snd andb opens].
      * split; [auto|]. split; [reflexivity|].
        split; [intros [H | H]; discriminate H|].
        split; [|intros _ H; discriminate H].
        intros _ _. eexists. split; [exact Hurl | reflexivity].
      * split; [auto|]. split; [reflexivity|]. split; [reflexivity|].
        split; intros H; discriminate H.
  - split.
    + exists ("https://waze.com/ul?ll=" +:+ rest), EmptyString.
      split; [|auto]. rewrite Hurl, append_empty, !append_assoc. reflexivity.
    + intros device. unfold openNavigation, nativeUrl. rewrite Hname.
      cbn [String.eqb Ascii.eqb Bool.eqb andb negb].
      assert (Hnative : replaceFirst "https://waze.com" "waze://" (url app)
                        = "waze://" +:+ ("/ul?ll=" +:+ rest +:+ destStr)).
      { rewrite Hurl. apply replaceFirst_prefix. }
      rewrite Hnative.
      change (JSString.truthy ("waze://" +:+ ("/ul?ll=" +:+ rest +:+ destStr))) with true.
      destruct (isMobile device); cbn [fst snd andb opens].
      * split; [auto|]. split; [reflexivity|].
        split; [intros [H | H]; discriminate H|].
        split; [intros _ H; discriminate H|].
        intros _ _. eexists. split; [exact Hurl | reflexivity].
      * split; [auto|]. split; [reflexivity|]. split; [reflexivity|].
        split; intros H; discriminate H.
  - split.
    + exists ("https://maps.apple.com/?saddr=" +:+ rest), tail.
      split; [rewrite Hurl, !append_assoc; reflexivity|].
      destruct Htail as [-> | ->]; auto.
    + intros device. unfold openNavigation, nativeUrl. rewrite Hname.
      cbn [String.eqb Ascii.eqb Bool.eqb andb negb].
      rewrite andb_false_r.
      destruct (isMobile device); cbn [fst snd opens];
        (split; [auto|]); (split; [reflexivity|]); (split; [reflexivity|]);
        split; intros _ H; discriminate H.
Qed.

(** On an iPhone, with two waypoints. *)
Lemma navigation_links_witness :
  let apps :=
    generateNavigationUrls Examples.coordinate
      (detectPlatform "Mozilla/5.0 (iPhone; CPU iPhone OS 17_5 like Mac OS X) Mobile/15E148")
      {| origin := (Fin 6.5244, Fin 3.3792);
         destination := "Ikeja City Mall, Lagos";
         waypoints := Some ["Ikorodu Rd"; "Allen Ave"] |} in
  map url apps
  = ["https://www.google.com/maps/dir/6.5244,3.3792/Ikorodu%20Rd/Allen%20Ave/Ikeja%20City%20Mall%2C%20Lagos";
     "https://maps.apple.com/?saddr=6.5244,3.3792&daddr=Ikeja%20City%20Mall%2C%20Lagos&dirflg=d";
     "https://waze.com/ul?ll=6.5244,3.3792&navigate=yes&q=Ikeja%20City%20Mall%2C%20Lagos"] /\
  map name apps = ["Google Maps"; "Apple Maps"; "Waze"].
Proof.
  cbv zeta. split; [vm_compute; reflexivity|].
  rewrite (proj1 (navigation_links Examples.coordinate _ _)).
  vm_compute. reflexivity.
Defined.

End Navigation.
(* ================================================================== *)
(** * What a response holds *)
(* ================================================================== *)

Section ResponseInvariants.

Import JSFacts ArrayFacts RouteService Spec.

Lemma zero_delay_is_low (d b : Q) :
  d == 0 -> calculateTrafficLevel (Fin d) (Fin b) = low.
Proof.
  intros Hd. unfold calculateTrafficLevel, JS.div.
  destruct (JS.sgn b) eqn:Eb.
  - unfold JS.scale_inf. rewrite (proj2 (sgn_Eq d) Hd). reflexivity.
  - cbv zeta. unfold JS.mul, JS.geb.
    rewrite !(proj2 (leb_Fin_false _ _)); [reflexivity | | |];
      rewrite Hd; unfold Qdiv; lra.
  - cbv zeta. unfold JS.mul, JS.geb.
    rewrite !(proj2 (leb_Fin_false _ _)); [reflexivity | | |];
      rewrite Hd; unfold Qdiv; lra.
Qed.

(** A route that takes no longer in traffic than without has level [low],
    whatever the two durations are. *)
Lemma no_delay_is_low (durationWithTraffic duration : number) :
  (durationWithTraffic <=? duration)%js = true ->
  calculateTrafficLevel (JS.max (Fin 0) (durationWithTraffic - duration)%js) duration = low.
Proof.
  intros Hle.
  destruct durationWithTraffic as [a| | |], duration as [b| | |];
    try discriminate Hle; try reflexivity.
  - apply (leb_Fin a b) in Hle.
    unfold JS.sub, JS.neg, JS.add, JS.max.
    destruct (JS.leb (Fin 0) (Fin (a + - b))) eqn:E.
    + apply (leb_Fin 0 (a + - b)) in E. apply zero_delay_is_low. lra.
    + apply zero_delay_is_low. reflexivity.
  - apply zero_delay_is_low. reflexivity.
Qed.

Lemma same_duration_is_low (duration : number) :
  calculateTrafficLevel (JS.max (Fin 0) (duration - duration)%js) duration = low.
Proof.
  destruct duration as [b| | |]; try reflexivity.
  apply no_delay_is_low. apply leb_Fin. lra.
Qed.

Lemma or_else_truthy (a b : string) : b <> EmptyString -> or_else a b <> EmptyString.
Proof. destruct a; simpl; [auto | discriminate]. Qed.

(** The fields [convertRoute] computes from the provider's route. *)
Lemma convertRoute_shape index route r :
  convertRoute index route = Resolved r ->
  id r = "route-" +:+ pretty index /\
  name r = or_else (GoogleMapsService.summary route) ("Route " +:+ pretty (index + 1)%nat) /\
  trafficDelay r = JS.max (Fin 0) (durationWithTraffic r - duration r)%js /\
  description r =
    or_else (GoogleMapsService.summary route) "Standard route" +:+ " - "
      +:+ trafficDescriptions (trafficLevel r) /\
  polyline r = Some (GoogleMapsService.overview_polyline route) /\
  exists leg rest,
    GoogleMapsService.legs route = leg :: rest /\
    (GoogleMapsService.duration_in_traffic leg = None ->
       durationWithTraffic r = duration r).
Proof.
  unfold convertRoute.
  destruct (GoogleMapsService.legs route) as [|leg rest]; [discriminate|].
  intros H. inversion H; subst; clear H. simpl.
  repeat split; try reflexivity.
  exists leg, rest. split; [reflexivity|].
  intros ->. reflexivity.
Qed.

(** X21.  Whatever the provider answers, a response of [calculateRoutes]
    has status [success] exactly when it carries no message, and an [error]
    response has no route.  The route at index [i] of a response is the
    conversion of the provider's route at index [i]: its id is [route-i], its
    name is the provider's summary or else [Route i+1] and is never empty,
    its delay is the excess of the duration in traffic over the plain
    duration, floored at zero, and its description ends with the text of its
    own level.  A route that is no slower in traffic, and every route whose
    first leg has no duration in traffic, has level [low]. *)
Theorem response_and_route_shape :
  forall request places reply,
    let response := calculateRoutes request places reply in
    (status response = success <-> message response = None) /\
    (status response = error -> routes response = []) /\
    forall i r, routes response !! i = Some r ->
      exists st alternatives route leg rest,
        reply = GoogleMapsService.Reply st (Some alternatives) /\
        alternatives !! i = Some route /\
        GoogleMapsService.legs route = leg :: rest /\
        id r = "route-" +:+ pretty i /\
        name r = or_else (GoogleMapsService.summary route) ("Route " +:+ pretty (i + 1)%nat) /\
        name r <> EmptyString /\
        trafficDelay r = JS.max (Fin 0) (durationWithTraffic r - duration r)%js /\
        description r =
          or_else (GoogleMapsService.summary route) "Standard route" +:+ " - "
            +:+ trafficDescriptions (trafficLevel r) /\
        polyline r = Some (GoogleMapsService.overview_polyline route) /\
        ((durationWithTraffic r <=? duration r)%js = true -> trafficLevel r = low) /\
        (GoogleMapsService.duration_in_traffic leg = None -> trafficLevel r = low).
Proof.
  intros request places reply response.
  split; [|split].
  - unfold response, calculateRoutes, calculateRoutesWithJSSDK, try_catch.
    destruct places as [[|place ?]|?]; simpl; try (split; discriminate).
    destruct (GoogleMapsService.calculateDirections reply) as [result|?]; simpl;
      try (split; discriminate).
    destruct (negb _); simpl; try (split; discriminate).
    destruct (scoreRoutes _) as [rs|?]; simpl; [split; reflexivity | split; discriminate].
  - unfold response, calculateRoutes, calculateRoutesWithJSSDK, try_catch.
    destruct places as [[|place ?]|?]; simpl; try reflexivity.
    destruct (GoogleMapsService.calculateDirections reply) as [result|?]; simpl;
      try reflexivity.
    destruct (negb _); simpl; try reflexivity.
    destruct (scoreRoutes _) as [rs|?]; simpl; [discriminate | reflexivity].
  - intros i r Hr.
    destruct (calculateRoutes_routes _ _ _ _ _ Hr) as (st & alts & Hreply & Hscore).
    destruct (scoreRoutes_lookup _ _ _ _ Hscore Hr) as (route & r0 & Hroute & Hconv & Hr0).
    pose proof (convertRoute_fields _ _ _ Hconv) as (_ & Hlevel & _).
    destruct (convertRoute_shape _ _ _ Hconv)
      as (Hid & Hname & Hdelay & Hdesc & Hpoly & leg & rest & Hlegs & Hsame).
    exists st, alts, route, leg, rest.
    rewrite Hr0. simpl.
    repeat split; auto.
    + rewrite Hname. apply or_else_truthy.
      unfold String.append. discriminate.
    + intros Hle. rewrite Hlevel, Hdelay. apply no_delay_is_low. exact Hle.
    + intros Hnone. rewrite Hlevel, Hdelay, (Hsame Hnone). apply same_duration_is_low.
Qed.

End ResponseInvariants.
